(** * DataExtractor: extraction of the UTIAS multi-robot localisation dataset

    A shallow embedding of [src/data_extractor.cpp].  The C++ object is a
    record, every member function is a state transformer that also reports
    what it sent to the outside world (files opened, diagnostics written to
    [std::cerr]) and how it ended: by returning, by throwing, or by running
    into behaviour the C++ standard leaves undefined.

    - [double] is IEEE binary64, here the kernel's primitive floats;
    - [int] is a [Z] kept inside the 32-bit range by [std::stoi];
    - [std::size_t] is an [N] below [2^64], [npos] being the largest;
    - [std::string] is [string]; a file is the list of lines that successive
      calls of [std::getline] deliver. *)

From Stdlib Require Import String Ascii.
From Stdlib Require Import ZArith NArith Lia.
From Stdlib Require Import Floats.PrimFloat.
From Stdlib Require Import DecimalString DecimalPos.
From stdpp Require Import base list.

Set Warnings "-inexact-float".
Set Default Proof Using "Type".

Local Open Scope Z_scope.

(** ** Exceptions and outcomes *)

Inductive exception : Type :=
| std_invalid_argument                 (* std::stoi, std::stod: no conversion *)
| std_out_of_range                     (* substr past the end; value out of range *)
| std_runtime_error (what : string).   (* thrown by the extractor itself *)

Inductive outcome (A : Type) : Type :=
| Returned (a : A)
| Thrown (e : exception)
| Undefined.                           (* out-of-bounds array access *)
Arguments Returned {A} a.
Arguments Thrown {A} e.
Arguments Undefined {A}.

Definition obind {A B} (o : outcome A) (f : A -> outcome B) : outcome B :=
  match o with
  | Returned a => f a
  | Thrown e => Thrown e
  | Undefined => Undefined
  end.

(** ** std::string *)

Module Str.

Definition npos : N := (2 ^ 64 - 1)%N.

Definition size (s : string) : N := N.of_nat (String.length s).

(** [++i] on a [std::size_t]. *)
Definition incr (i : N) : N := ((i + 1) mod 2 ^ 64)%N.

Fixpoint drop (n : nat) (s : string) : string :=
  match n, s with
  | O, _ => s
  | S n', String _ s' => drop n' s'
  | S _, EmptyString => EmptyString
  end.

Fixpoint take (n : nat) (s : string) : string :=
  match n, s with
  | S n', String c s' => String c (take n' s')
  | _, _ => EmptyString
  end.

(** Offset of the first occurrence of [c]. *)
Fixpoint offset (c : ascii) (s : string) : option nat :=
  match s with
  | EmptyString => None
  | String a s' => if Ascii.eqb a c then Some O else option_map S (offset c s')
  end.

(** [s.find(c, pos)] *)
Definition find (s : string) (c : ascii) (pos : N) : N :=
  if (size s <=? pos)%N then npos
  else match offset c (drop (N.to_nat pos) s) with
       | Some k => (pos + N.of_nat k)%N
       | None => npos
       end.

(** [s.substr(pos, count)]: throws when [pos > size()]. *)
Definition substr (s : string) (pos count : N) : outcome string :=
  if (size s <? pos)%N then Thrown std_out_of_range
  else Returned (take (N.to_nat (N.min count (size s - pos))) (drop (N.to_nat pos) s)).

(** [s.erase(std::remove(s.begin(), s.end(), c), s.end())] *)
Fixpoint erase_remove (c : ascii) (s : string) : string :=
  match s with
  | EmptyString => EmptyString
  | String a s' => if Ascii.eqb a c then erase_remove c s' else String a (erase_remove c s')
  end.

(** [s[0]]: the terminating null character when the string is empty. *)
Definition front (s : string) : ascii :=
  match s with
  | EmptyString => Ascii.zero
  | String a _ => a
  end.

(** [std::to_string(int)] *)
Definition to_string (z : Z) : string := NilZero.string_of_int (Z.to_int z).

End Str.

Definition tab : ascii := "009"%char.
Definition space : ascii := " "%char.
Definition hash : ascii := "#"%char.
Definition carriage_return : ascii := "013"%char.
Definition TAB : string := String tab EmptyString.

(** ** std::stoi *)

Module Conv.

(** [isspace] in the "C" locale. *)
Definition isspace (c : ascii) : bool :=
  let n := N_of_ascii c in ((n =? 32) || ((9 <=? n) && (n <=? 13)))%N.

Definition digit (c : ascii) : option Z :=
  let n := Z.of_N (N_of_ascii c) in
  if (48 <=? n) && (n <=? 57) then Some (n - 48) else None.

Fixpoint skip_space (s : string) : string :=
  match s with
  | String c s' => if isspace c then skip_space s' else s
  | EmptyString => s
  end.

(** The digits at the head of [s], accumulated onto [acc]; [None] when
    there is not a single one. *)
Fixpoint digits (s : string) (acc : option Z) : option Z :=
  match s with
  | String c s' =>
      match digit c with
      | Some d => digits s' (Some (10 * default 0 acc + d))
      | None => acc
      end
  | EmptyString => acc
  end.

Definition INT_MIN : Z := - 2 ^ 31.
Definition INT_MAX : Z := 2 ^ 31 - 1.

Definition in_int (v : Z) : outcome Z :=
  if (INT_MIN <=? v) && (v <=? INT_MAX) then Returned v else Thrown std_out_of_range.

(** [std::stoi(s)]: leading white space, an optional sign, decimal digits;
    whatever follows the digits is ignored. *)
Definition stoi (s : string) : outcome Z :=
  match skip_space s with
  | String "-" s' =>
      match digits s' None with
      | Some v => in_int (- v)
      | None => Thrown std_invalid_argument
      end
  | String "+" s' =>
      match digits s' None with
      | Some v => in_int v
      | None => Thrown std_invalid_argument
      end
  | s' =>
      match digits s' None with
      | Some v => in_int v
      | None => Thrown std_invalid_argument
      end
  end.

End Conv.

(** ** The data model

    The class declaration ([include/data_extractor.h]) is not part of the
    sources at hand; the records below follow the member accesses of the
    implementation file and the data model of the specification. *)

Module Landmark.
(** Modelled from the spec: the [Landmark] structure of the missing header,
    (id, barcode: integer; x, y, x_std_dev, y_std_dev: real). *)
Record t : Type := mk
  { id : Z; barcode : Z; x : float; y : float; x_std_dev : float; y_std_dev : float }.
Definition set_id (v : Z) (l : t) : t := mk v (barcode l) (x l) (y l) (x_std_dev l) (y_std_dev l).
Definition set_barcode (v : Z) (l : t) : t := mk (id l) v (x l) (y l) (x_std_dev l) (y_std_dev l).
Definition set_x (v : float) (l : t) : t := mk (id l) (barcode l) v (y l) (x_std_dev l) (y_std_dev l).
Definition set_y (v : float) (l : t) : t := mk (id l) (barcode l) (x l) v (x_std_dev l) (y_std_dev l).
Definition set_x_std_dev (v : float) (l : t) : t := mk (id l) (barcode l) (x l) (y l) v (y_std_dev l).
Definition set_y_std_dev (v : float) (l : t) : t := mk (id l) (barcode l) (x l) (y l) (x_std_dev l) v.
End Landmark.

Module Groundtruth.
(** Modelled from the spec: the [Groundtruth] sample of the missing header,
    (time, x, y, orientation: real); [mk] is its constructor
    [Groundtruth(time, x, y, orientation)]. *)
Record t : Type := mk { time : float; x : float; y : float; orientation : float }.
End Groundtruth.

Module Odometry.
(** Modelled from the spec: the [Odometry] sample of the missing header,
    (time, forward_velocity, angular_velocity: real); [mk] is its constructor
    [Odometry(time, forward_velocity, angular_velocity)]. *)
Record t : Type := mk { time : float; forward_velocity : float; angular_velocity : float }.
End Odometry.

Module Measurement.
(** Modelled from the spec: the [Measurement] record of the missing header,
    a time and three parallel vectors of subjects, ranges and bearings. *)
Record t : Type := mk
  { time : float; subjects : list Z; ranges : list float; bearings : list float }.
(** Modelled from the spec: the constructor [Measurement(time, subject,
    range, bearing)] of the missing header, which makes a record with this
    reading as its sole entry. *)
Definition Measurement (time : float) (subject : Z) (range bearing : float) : t :=
  mk time [subject] [range] [bearing].
End Measurement.

Module Robot.
(** Modelled from the spec: the raw data set of a robot in the missing
    header, one vector each of ground-truth samples, odometry samples and
    measurement records. *)
Record Raw : Type := mkRaw
  { ground_truth : list Groundtruth.t;
    odometry : list Odometry.t;
    measurements : list Measurement.t }.
(** Modelled from the spec: the [Robot] structure of the missing header, as
    far as the implementation file reaches into it, [robots_[i].raw]. *)
Record t : Type := mk { raw : Raw }.
Definition set_ground_truth (f : list Groundtruth.t -> list Groundtruth.t) (r : t) : t :=
  mk (mkRaw (f (ground_truth (raw r))) (odometry (raw r)) (measurements (raw r))).
Definition set_odometry (f : list Odometry.t -> list Odometry.t) (r : t) : t :=
  mk (mkRaw (ground_truth (raw r)) (f (odometry (raw r))) (measurements (raw r))).
Definition set_measurements (f : list Measurement.t -> list Measurement.t) (r : t) : t :=
  mk (mkRaw (ground_truth (raw r)) (odometry (raw r)) (f (measurements (raw r)))).
End Robot.

(** Modelled from the spec: the data members of [DataExtractor], declared in
    the missing header, that the implementation file touches: the dataset
    path, the barcode table, the landmark table and the robots.  The three
    arrays have [TOTAL_BARCODES], [TOTAL_LANDMARKS] and [TOTAL_ROBOTS]
    elements. *)
Record DataExtractor : Type := mkDataExtractor
  { dataset_ : string;
    barcodes_ : list Z;
    landmarks_ : list Landmark.t;
    robots_ : list Robot.t }.

Definition set_dataset (d : string) (s : DataExtractor) : DataExtractor :=
  mkDataExtractor d (barcodes_ s) (landmarks_ s) (robots_ s).
Definition set_barcodes (f : list Z -> list Z) (s : DataExtractor) : DataExtractor :=
  mkDataExtractor (dataset_ s) (f (barcodes_ s)) (landmarks_ s) (robots_ s).
Definition set_landmarks (f : list Landmark.t -> list Landmark.t) (s : DataExtractor) : DataExtractor :=
  mkDataExtractor (dataset_ s) (barcodes_ s) (f (landmarks_ s)) (robots_ s).
Definition set_robots (f : list Robot.t -> list Robot.t) (s : DataExtractor) : DataExtractor :=
  mkDataExtractor (dataset_ s) (barcodes_ s) (landmarks_ s) (f (robots_ s)).

(** ** The outside world *)

(** What [stat] answers for a path, and what a [std::ifstream] (reading) and
    a [std::fstream] (reading and writing) constructed on a file name give:
    [None] when [is_open()] is false, else the lines of the file. *)
Record FileSystem : Type := mkFileSystem
  { stat_ok : string -> bool;
    ifstream : string -> option (list string);
    fstream : string -> option (list string) }.

Inductive file_kind : Type := Barcodes | Landmarks | GroundtruthData | OdometryData | MeasurementData.

(** The lines written to [std::cerr]. *)
Inductive diagnostic : Type :=
| PleaseSpecifyDataset
| UnableToOpen (kind : file_kind) (filename : string)
| ExceedsTotalBarcodes
| ExceedsTotalLandmarks
| BarcodesNotCorrectlySet.

Definition kind_name (k : file_kind) : string :=
  match k with
  | Barcodes => "barcodes"
  | Landmarks => "Landmarks"
  | GroundtruthData => "Groundtruth"
  | OdometryData => "Odometry"
  | MeasurementData => "Measurement"
  end.

Definition message (d : diagnostic) : string :=
  match d with
  | PleaseSpecifyDataset => "Please specify a dataset"
  | UnableToOpen k f => ("[ERROR] Unable to open " ++ kind_name k ++ " file:" ++ f)%string
  | ExceedsTotalBarcodes => "[ERROR] total read barcodes exceeds TOTAL_BARCODES"
  | ExceedsTotalLandmarks => "[ERROR] total read landmarks exceeds TOTAL_LANDMARKS"
  | BarcodesNotCorrectlySet => "[ERROR] Barcodes not correctly set"
  end.

Inductive event : Type :=
| Open (filename : string)       (* a file stream constructed on [filename] *)
| Cerr (d : diagnostic).

(** The error kinds of the specification, as the code reports them. *)
Definition FileNotFound (k : file_kind) (filename : string) : event := Cerr (UnableToOpen k filename).
Definition CapacityExceeded : event := Cerr ExceedsTotalBarcodes.
Definition LandmarkCapacityExceeded : event := Cerr ExceedsTotalLandmarks.
Definition IntegrityError : event := Cerr BarcodesNotCorrectlySet.
Definition PathNotFound : exception := std_runtime_error "Dataset file path does not exist".
Definition LoadFailed : exception := std_runtime_error "Unable to extract data from dataset".
Definition UninitializedAccess : exception :=
  std_runtime_error "Dataset has not been specified during object instantiation. Please ensure you call void setDataSet(std::string) before attempting to get data.".

(** ** Member functions as state transformers

    Running a member function on an object gives the object afterwards, the
    events it caused, in order, and its outcome.  A function that throws
    leaves the object as it was at the throw. *)

Definition M (A : Type) : Type := DataExtractor -> DataExtractor * list event * outcome A.

Definition ret {A} (a : A) : M A := fun s => (s, [], Returned a).

Definition bind {A B} (m : M A) (k : A -> M B) : M B := fun s =>
  match m s with
  | (s1, t1, Returned a) => let '(s2, t2, r) := k a s1 in (s2, t1 ++ t2, r)
  | (s1, t1, Thrown e) => (s1, t1, Thrown e)
  | (s1, t1, Undefined) => (s1, t1, Undefined)
  end.

Declare Scope cpp_scope.
Delimit Scope cpp_scope with cpp.
Notation "'let*' x ':=' c 'in' k" := (bind c (fun x => k))
  (at level 10, x name, c at level 100, k at level 200) : cpp_scope.
Notation "'run' c 'then' k" := (bind c (fun _ => k))
  (at level 10, c at level 100, k at level 200) : cpp_scope.
Local Open Scope cpp_scope.

Definition reads {A} (f : DataExtractor -> A) : M A := fun s => (s, [], Returned (f s)).
Definition modify (f : DataExtractor -> DataExtractor) : M unit := fun s => (f s, [], Returned tt).
Definition emit (e : event) : M unit := fun s => (s, [e], Returned tt).
Definition throw {A} (e : exception) : M A := fun s => (s, [], Thrown e).
Definition lift {A} (o : outcome A) : M A := fun s => (s, [], o).

Definition final {A} (r : DataExtractor * list event * outcome A) : DataExtractor := r.1.1.
Definition events {A} (r : DataExtractor * list event * outcome A) : list event := r.1.2.
Definition result {A} (r : DataExtractor * list event * outcome A) : outcome A := r.2.

(** Element [i] of an array, for an [int] index. *)
Definition at_index {A} (v : list A) (i : Z) : option A :=
  if 0 <=? i then v !! Z.to_nat i else None.

(** [barcodes_[i] = v] *)
Definition store_barcode (i : nat) (v : Z) : M unit := fun s =>
  match barcodes_ s !! i with
  | Some _ => (set_barcodes <[i := v]> s, [], Returned tt)
  | None => (s, [], Undefined)
  end.

(** [barcodes_[i]] as an rvalue *)
Definition load_barcode (i : Z) : M Z := fun s =>
  match at_index (barcodes_ s) i with
  | Some b => (s, [], Returned b)
  | None => (s, [], Undefined)
  end.

(** [landmarks_[i].field = v], the field given by its setter *)
Definition store_landmark (i : nat) (set : Landmark.t -> Landmark.t) : M unit := fun s =>
  match landmarks_ s !! i with
  | Some _ => (set_landmarks (alter set i) s, [], Returned tt)
  | None => (s, [], Undefined)
  end.

(** [landmarks_[i].id] as an rvalue *)
Definition load_landmark_id (i : nat) : M Z := fun s =>
  match landmarks_ s !! i with
  | Some l => (s, [], Returned (Landmark.id l))
  | None => (s, [], Undefined)
  end.

(** An update of [robots_[robot_id]] in place. *)
Definition with_robot (robot_id : Z) (f : Robot.t -> Robot.t) : DataExtractor -> DataExtractor :=
  set_robots (alter f (Z.to_nat robot_id)).

Definition update_robot (robot_id : Z) (f : Robot.t -> Robot.t) : M unit := fun s =>
  match at_index (robots_ s) robot_id with
  | Some _ => (with_robot robot_id f s, [], Returned tt)
  | None => (s, [], Undefined)
  end.

(** [std::find_if(v.begin(), v.end(), p)], as the position of the iterator
    it returns; [length v] is [v.end()]. *)
Fixpoint find_if {A} (p : A -> bool) (v : list A) : nat :=
  match v with
  | [] => O
  | a :: v' => if p a then O else S (find_if p v')
  end.

(** Lines 301-314 of [readMeasurements] on the measurement vector of the
    robot: the reading joins the first record within 0.05 s of it, or
    starts a record of its own. *)
Definition within_window (time : float) (index : Measurement.t) : bool :=
  PrimFloat.leb (PrimFloat.sub time 0.05) (Measurement.time index)
  && PrimFloat.leb (Measurement.time index) (PrimFloat.add time 0.05).

Definition push_reading (subject : Z) (range bearing : float) (m : Measurement.t) : Measurement.t :=
  Measurement.mk (Measurement.time m)
    (Measurement.subjects m ++ [subject])
    (Measurement.ranges m ++ [range])
    (Measurement.bearings m ++ [bearing]).

Definition aggregate (time : float) (subject : Z) (range bearing : float)
    (measurements : list Measurement.t) : list Measurement.t :=
  let iterator := find_if (within_window time) measurements in
  if decide (iterator ≠ length measurements) then
    alter (push_reading subject range bearing) iterator measurements
  else
    measurements ++ [Measurement.Measurement time subject range bearing].

(** ** The loaders *)

Section Loaders.

(** The capacities, macros of the missing header, are parameters. *)
Variables TOTAL_BARCODES TOTAL_LANDMARKS TOTAL_ROBOTS : nat.

(** [std::stod] of the platform. *)
Variable stod : string -> outcome float.

Variable fs : FileSystem.

(** Construction of a file stream of the given kind on [filename]. *)
Definition open (stream : string -> option (list string)) (filename : string)
    : M (option (list string)) := fun s =>
  (s, [Open filename], Returned (stream filename)).

(** The test [line[0] == '#'] that skips a comment. *)
Definition is_comment (line : string) : bool := Ascii.eqb (Str.front line) hash.

(** [conv(line.substr(start_index, end_index))] *)
Definition field {A} (conv : string -> outcome A) (line : string) (start_index end_index : N) : M A :=
  lift (obind (Str.substr line start_index end_index) conv).

(** [line.find('\t', ++end_index)], also written [line.find('\t', end_index+1)] *)
Definition next_tab (line : string) (end_index : N) : N :=
  Str.find line tab (Str.incr end_index).

(** The loop of [readBarcodes], [i] rows stored so far. *)
Fixpoint readBarcodes_lines (lines : list string) (i : nat) : M bool :=
  match lines with
  | [] => ret true
  | line :: rest =>
      if is_comment line then readBarcodes_lines rest i
      else
        let line := Str.erase_remove space line in
        if decide (TOTAL_BARCODES ≤ i)%nat then
          run emit (Cerr ExceedsTotalBarcodes) then ret false
        else
          let* v := field Conv.stoi line (Str.find line tab 0) Str.npos in
          run store_barcode i v then
          readBarcodes_lines rest (S i)
  end.

Definition readBarcodes (dataset : string) : M bool :=
  let* d := reads dataset_ in
  if String.eqb EmptyString d then
    run emit (Cerr PleaseSpecifyDataset) then ret false
  else
    let filename := (dataset ++ "/Barcodes.dat")%string in
    let* file := open (ifstream fs) filename in
    match file with
    | None => run emit (Cerr (UnableToOpen Barcodes filename)) then ret false
    | Some lines => readBarcodes_lines lines 0
    end.

(** The loop of [readLandmarks], [i] landmarks completed so far. *)
Fixpoint readLandmarks_lines (lines : list string) (i : nat) : M bool :=
  match lines with
  | [] => ret true
  | line :: rest =>
      if is_comment line then readLandmarks_lines rest i
      else
        let line := Str.erase_remove space line in
        if decide (TOTAL_LANDMARKS ≤ i)%nat then
          run emit (Cerr ExceedsTotalLandmarks) then ret false
        else
          let start_index := 0%N in
          let end_index := Str.find line tab 0 in
          let* v := field Conv.stoi line start_index end_index in
          run store_landmark i (Landmark.set_id v) then
          let* id := load_landmark_id i in
          let* b := load_barcode (id - 1) in
          if b =? 0 then
            run emit (Cerr BarcodesNotCorrectlySet) then ret false
          else
            let* id := load_landmark_id i in
            let* b := load_barcode (id - 1) in
            run store_landmark i (Landmark.set_barcode b) then
            let start_index := end_index in
            let end_index := next_tab line end_index in
            let* v := field stod line start_index end_index in
            run store_landmark i (Landmark.set_x v) then
            let start_index := end_index in
            let end_index := next_tab line end_index in
            let* v := field stod line start_index end_index in
            run store_landmark i (Landmark.set_y v) then
            let start_index := end_index in
            let end_index := next_tab line end_index in
            let* v := field stod line start_index end_index in
            run store_landmark i (Landmark.set_x_std_dev v) then
            let start_index := end_index in
            let end_index := next_tab line end_index in
            let* v := field stod line start_index end_index in
            run store_landmark i (Landmark.set_y_std_dev v) then
            readLandmarks_lines rest (S i)
  end.

Definition readLandmarks (dataset : string) : M bool :=
  let filename := (dataset ++ "/Landmark_Groundtruth.dat")%string in
  let* file := open (ifstream fs) filename in
  match file with
  | None => run emit (Cerr (UnableToOpen Landmarks filename)) then ret false
  | Some lines => readLandmarks_lines lines 0
  end.

(** [dataset + "/Robot" + std::to_string(robot_id + 1) + suffix] *)
Definition robot_file (dataset : string) (robot_id : Z) (suffix : string) : string :=
  (dataset ++ "/Robot" ++ Str.to_string (robot_id + 1) ++ suffix)%string.

Fixpoint readGroundTruth_lines (robot_id : Z) (lines : list string) : M bool :=
  match lines with
  | [] => ret true
  | line :: rest =>
      if is_comment line then readGroundTruth_lines robot_id rest
      else
        let line := Str.erase_remove space line in
        let start_index := 0%N in
        let end_index := Str.find line tab 0 in
        let* time := field stod line start_index end_index in
        let start_index := end_index in
        let end_index := next_tab line end_index in
        let* x_coordinate := field stod line start_index end_index in
        let start_index := end_index in
        let end_index := next_tab line end_index in
        let* y_coordinate := field stod line start_index end_index in
        let start_index := end_index in
        let end_index := next_tab line end_index in
        let* orientation := field stod line start_index end_index in
        run update_robot robot_id (Robot.set_ground_truth (fun v =>
              v ++ [Groundtruth.mk time x_coordinate y_coordinate orientation])) then
        readGroundTruth_lines robot_id rest
  end.

Definition readGroundTruth (dataset : string) (robot_id : Z) : M bool :=
  run update_robot robot_id (Robot.set_ground_truth (fun _ => [])) then
  let filename := robot_file dataset robot_id "_Groundtruth.dat" in
  let* file := open (ifstream fs) filename in
  match file with
  | None => run emit (Cerr (UnableToOpen GroundtruthData filename)) then ret false
  | Some lines => readGroundTruth_lines robot_id lines
  end.

Fixpoint readOdometry_lines (robot_id : Z) (lines : list string) : M bool :=
  match lines with
  | [] => ret true
  | line :: rest =>
      if is_comment line then readOdometry_lines robot_id rest
      else
        let line := Str.erase_remove space line in
        let start_index := 0%N in
        let end_index := Str.find line tab 0 in
        let* time := field stod line start_index end_index in
        let start_index := end_index in
        let end_index := next_tab line end_index in
        let* forward_velocity := field stod line start_index end_index in
        let start_index := end_index in
        let end_index := next_tab line end_index in
        let* angular_velocity := field stod line start_index end_index in
        run update_robot robot_id (Robot.set_odometry (fun v =>
              v ++ [Odometry.mk time forward_velocity angular_velocity])) then
        readOdometry_lines robot_id rest
  end.

Definition readOdometry (dataset : string) (robot_id : Z) : M bool :=
  run update_robot robot_id (Robot.set_odometry (fun _ => [])) then
  let filename := robot_file dataset robot_id "_Odometry.dat" in
  let* file := open (fstream fs) filename in
  match file with
  | None => run emit (Cerr (UnableToOpen OdometryData filename)) then ret false
  | Some lines => readOdometry_lines robot_id lines
  end.

Fixpoint readMeasurements_lines (robot_id : Z) (lines : list string) : M bool :=
  match lines with
  | [] => ret true
  | line :: rest =>
      if is_comment line then readMeasurements_lines robot_id rest
      else
        let line := Str.erase_remove space line in
        let start_index := 0%N in
        let end_index := Str.find line tab 0 in
        let* time := field stod line start_index end_index in
        let start_index := end_index in
        let end_index := next_tab line end_index in
        let* subject := field Conv.stoi line start_index end_index in
        let start_index := end_index in
        let end_index := next_tab line end_index in
        let* range := field stod line start_index end_index in
        let start_index := end_index in
        let end_index := next_tab line end_index in
        let* bearing := field stod line start_index end_index in
        run update_robot robot_id (Robot.set_measurements (aggregate time subject range bearing)) then
        readMeasurements_lines robot_id rest
  end.

Definition readMeasurements (dataset : string) (robot_id : Z) : M bool :=
  run update_robot robot_id (Robot.set_measurements (fun _ => [])) then
  let filename := robot_file dataset robot_id "_Measurement.dat" in
  let* file := open (fstream fs) filename in
  match file with
  | None => run emit (Cerr (UnableToOpen MeasurementData filename)) then ret false
  | Some lines => readMeasurements_lines robot_id lines
  end.

(** The loop [for (int i = 0; i < TOTAL_ROBOTS; i++)] of [setDataSet],
    with [n] iterations to go. *)
Fixpoint readRobots (dataset : string) (n : nat) (i : Z)
    (groundtruth_correct odometry_correct measurement_correct : bool) : M (bool * bool * bool) :=
  match n with
  | O => ret (groundtruth_correct, odometry_correct, measurement_correct)
  | S n' =>
      let* g := readGroundTruth dataset i in
      let* o := readOdometry dataset i in
      let* m := readMeasurements dataset i in
      readRobots dataset n' (i + 1)
        (groundtruth_correct && g) (odometry_correct && o) (measurement_correct && m)
  end.

Definition setDataSet (dataset : string) : M unit :=
  run (if stat_ok fs dataset then modify (set_dataset dataset)
       else throw PathNotFound) then
  let* barcodes_correct := readBarcodes dataset in
  let* landmarks_correct := readLandmarks dataset in
  let* correct := readRobots dataset TOTAL_ROBOTS 0 true true true in
  let '(groundtruth_correct, odometry_correct, measurement_correct) := correct in
  let successful_extraction :=
    barcodes_correct && landmarks_correct && groundtruth_correct
    && odometry_correct && measurement_correct in
  if negb successful_extraction then throw LoadFailed else ret tt.

Definition getBarcodes : M (list Z) :=
  let* d := reads dataset_ in
  if String.eqb EmptyString d then throw UninitializedAccess else reads barcodes_.

Definition getLandmarks : M (list Landmark.t) :=
  let* d := reads dataset_ in
  if String.eqb EmptyString d then throw UninitializedAccess else reads landmarks_.

Definition getRobots : M (list Robot.t) :=
  let* d := reads dataset_ in
  if String.eqb EmptyString d then throw UninitializedAccess else reads robots_.

End Loaders.

(** ** Rows

    What one line of each file yields, read off the loop bodies: the field
    extraction of a loop as one expression.  The loops are related to these
    in the properties below. *)

Section Rows.

Variable stod : string -> outcome float.

(** The lines that the loops do not skip. *)
Definition data_lines (lines : list string) : list string :=
  List.filter (fun line => negb (is_comment line)) lines.

Definition text (conv : string -> outcome float) (line : string) (start_index end_index : N) : outcome float :=
  obind (Str.substr line start_index end_index) conv.

Definition barcode_row (line : string) : outcome Z :=
  let line := Str.erase_remove space line in
  obind (Str.substr line (Str.find line tab 0) Str.npos) Conv.stoi.

Definition landmark_id (line : string) : outcome Z :=
  let line := Str.erase_remove space line in
  obind (Str.substr line 0 (Str.find line tab 0)) Conv.stoi.

(** The four reals of a landmark line, after its id. *)
Definition landmark_reals (line : string) : outcome (float * float * float * float) :=
  let line := Str.erase_remove space line in
  let e0 := Str.find line tab 0 in
  let e1 := next_tab line e0 in
  obind (text stod line e0 e1) (fun x =>
  let e2 := next_tab line e1 in
  obind (text stod line e1 e2) (fun y =>
  let e3 := next_tab line e2 in
  obind (text stod line e2 e3) (fun x_std_dev =>
  let e4 := next_tab line e3 in
  obind (text stod line e3 e4) (fun y_std_dev =>
  Returned (x, y, x_std_dev, y_std_dev))))).

(** The row converts, and its id finds a barcode other than 0 in the table:
    the landmark that the row yields. *)
Definition resolves (barcodes : list Z) (line : string) (a : Landmark.t) : Prop :=
  landmark_id line = Returned (Landmark.id a)
  /\ at_index barcodes (Landmark.id a - 1) = Some (Landmark.barcode a)
  /\ Landmark.barcode a <> 0
  /\ landmark_reals line
     = Returned (Landmark.x a, Landmark.y a, Landmark.x_std_dev a, Landmark.y_std_dev a).

(** A measurement row: time, subject, range, bearing. *)
Definition reading : Type := float * Z * float * float.
Definition row (time : float) (subject : Z) (range bearing : float) : reading :=
  (time, subject, range, bearing).

Definition measurement_row (line : string) : outcome reading :=
  let line := Str.erase_remove space line in
  let e0 := Str.find line tab 0 in
  obind (text stod line 0 e0) (fun time =>
  let e1 := next_tab line e0 in
  obind (obind (Str.substr line e0 e1) Conv.stoi) (fun subject =>
  let e2 := next_tab line e1 in
  obind (text stod line e1 e2) (fun range =>
  let e3 := next_tab line e2 in
  obind (text stod line e2 e3) (fun bearing =>
  Returned (time, subject, range, bearing))))).

(** The measurement vector after the rows have gone through lines
    301-314, one after the other. *)
Definition aggregate_reading (v : list Measurement.t) (row : reading) : list Measurement.t :=
  let '(time, subject, range, bearing) := row in aggregate time subject range bearing v.

Definition aggregate_all (rows : list reading) (v : list Measurement.t) : list Measurement.t :=
  fold_left aggregate_reading rows v.

End Rows.

(** The inclusive window of 0.05 s around the time of a reading, on the
    stored time of a record; the bounds are the doubles [time - 0.05] and
    [time + 0.05]. *)
Definition in_window (time record_time : float) : Prop :=
  PrimFloat.leb (PrimFloat.sub time 0.05) record_time = true
  /\ PrimFloat.leb record_time (PrimFloat.add time 0.05) = true.

(** ** The life of an object

    An extractor is default-constructed and then loaded any number of times,
    each time on the file system as it is then; the caller that catches the
    exception of a failed load keeps the object as the load left it. *)

Section Life.

Variables TOTAL_BARCODES TOTAL_LANDMARKS TOTAL_ROBOTS : nat.
Variable stod : string -> outcome float.

Fixpoint loads (calls : list (FileSystem * string)) (s : DataExtractor) : DataExtractor :=
  match calls with
  | [] => s
  | (fs, dataset) :: calls' =>
      loads calls' (final (setDataSet TOTAL_BARCODES TOTAL_LANDMARKS TOTAL_ROBOTS stod fs dataset s))
  end.

End Life.

(** ** Vocabulary of the properties *)

(** [c] reads the same from the object before and after [m]. *)
Definition stable {X A} (c : DataExtractor -> X) (m : M A) : Prop :=
  forall s, c (final (m s)) = c s.

(** A barcode row as the data set writes it: the subject, a tab, the
    barcode; well formed when it is no comment, the tab is its first one, it
    is a [std::string], and the barcode is an [int]. *)
Definition barcode_line (r : string * Z) : string :=
  (fst r ++ TAB ++ Str.to_string (snd r))%string.

Definition well_formed_barcode_row (r : string * Z) : Prop :=
  is_comment (barcode_line r) = false
  /\ Str.offset tab (fst r) = None
  /\ (Str.size (barcode_line r) <= Str.npos)%N
  /\ Conv.INT_MIN <= snd r <= Conv.INT_MAX.

(** ** Instances for closed examples *)

(** A conversion to instantiate [std::stod] with: white space, an optional
    sign, decimal digits with an optional point.  With a significand below
    [2^53] and at most 22 digits after the point both the significand and
    the power of ten are binary64 numbers, so the one rounding of the
    division gives the double nearest to the decimal, as [strtod] does.
    Longer numerals, exponents, hexadecimal notation, infinities and NaNs
    are left out: the examples do not use them. *)
Module Strtod.

Definition digit_value (d : Z) : float :=
  match d with
  | 1 => 1 | 2 => 2 | 3 => 3 | 4 => 4 | 5 => 5 | 6 => 6 | 7 => 7 | 8 => 8 | 9 => 9
  | _ => 0
  end%float.

(** Significand [m] (exact, and as a double), digits after the point [k],
    and whether a digit was seen. *)
Fixpoint scan (s : string) (point : bool) (m : Z) (f : float) (k : nat) (any : bool)
    : Z * float * nat * bool :=
  match s with
  | String c s' =>
      match Conv.digit c with
      | Some d =>
          scan s' point (10 * m + d) (PrimFloat.add (PrimFloat.mul f 10) (digit_value d))
            (if point then S k else k) true
      | None =>
          if Ascii.eqb c "." && negb point then scan s' true m f k any
          else (m, f, k, any)
      end
  | EmptyString => (m, f, k, any)
  end.

Fixpoint pow10 (k : nat) : float :=
  match k with
  | O => 1%float
  | S k' => PrimFloat.mul (pow10 k') 10
  end.

Definition unsigned (s : string) : outcome float :=
  let '(m, f, k, any) := scan s false 0 0%float O false in
  if negb any then Thrown std_invalid_argument
  else if (m <? 2 ^ 53) && (k <=? 22)%nat then Returned (PrimFloat.div f (pow10 k))
  else Thrown std_out_of_range.

Definition stod (s : string) : outcome float :=
  match Conv.skip_space s with
  | String "-" s' => obind (unsigned s') (fun v => Returned (PrimFloat.opp v))
  | String "+" s' => unsigned s'
  | s' => unsigned s'
  end.

End Strtod.

(** A file system given by its directories and its files, all of them
    readable and writable. *)
Definition lookup_file (files : list (string * list string)) (name : string) : option (list string) :=
  snd <$> List.find (fun f => String.eqb (fst f) name) files.

Definition file_system (dirs : list string) (files : list (string * list string)) : FileSystem :=
  mkFileSystem
    (fun path => existsb (String.eqb path) dirs || bool_decide (is_Some (lookup_file files path)))
    (lookup_file files)
    (lookup_file files).

(** An object whose arrays hold zeros and whose vectors are empty.  The
    closed examples take the counts of the data set for the capacities: 20
    barcodes, 15 landmarks, 5 robots. *)
Definition blank (dataset : string) (total_barcodes total_landmarks total_robots : nat) : DataExtractor :=
  mkDataExtractor dataset
    (replicate total_barcodes 0)
    (replicate total_landmarks (Landmark.mk 0 0 0 0 0 0))
    (replicate total_robots (Robot.mk (Robot.mkRaw [] [] []))).

(** A line from its fields, a tab between two of them. *)
Fixpoint tabbed (fields : list string) : string :=
  match fields with
  | [] => EmptyString
  | [f] => f
  | f :: fs => (f ++ String tab (tabbed fs))%string
  end.

(** A dataset directory with one measurement file of three readings. *)
Definition three_readings : FileSystem :=
  file_system ["ds"%string]
    [("ds/Robot1_Measurement.dat"%string,
      ["# Time [s]    Subject #    range [m]    bearing [rad]"%string;
       tabbed ["10.00"; "5"; "1.5"; "0.25"]%string;
       tabbed ["10.03"; "14"; "2.5"; "-0.5"]%string;
       tabbed ["10.20"; "7"; "3.25"; "0.125"]%string])].

(** A dataset directory without any file in it. *)
Definition empty_directory : FileSystem := file_system ["ds"%string] [].

(** An object that has been through a load: robot 0 holds one sample of
    each kind. *)
Definition loaded_once : DataExtractor :=
  mkDataExtractor "ds" (replicate 20 0) (replicate 15 (Landmark.mk 0 0 0 0 0 0))
    (Robot.mk (Robot.mkRaw [Groundtruth.mk 1 2 3 4] [Odometry.mk 1 2 3]
                 [Measurement.mk 1 [5] [2%float] [3%float]])
     :: replicate 4 (Robot.mk (Robot.mkRaw [] [] []))).

(** A dataset whose barcode file has one row more than twenty, and whose
    landmark file has one row. *)
Definition overfull : FileSystem :=
  file_system ["ds"%string]
    [("ds/Barcodes.dat"%string,
      "# Subject #    Barcode #"%string
      :: List.map (fun k => tabbed [Str.to_string k; Str.to_string (k + 4)])
           (List.map Z.of_nat (seq 1 21)));
     ("ds/Landmark_Groundtruth.dat"%string,
      ["# Subject #    x [m]    y [m]    x std-dev [m]    y std-dev [m]"%string;
       tabbed ["6"; "1.5"; "-2.5"; "0.25"; "0.125"]%string])].

(** The rows of the example as the loaders take them: a barcode row has the
    subject before the barcode. *)
Definition two_barcodes : list string :=
  [tabbed ["1"; "10"]%string; tabbed ["2"; "20"]%string].

Definition one_landmark : list string :=
  [tabbed ["1"; "2.0"; "3.0"; "0.1"; "0.1"]%string].

Definition example_dataset : FileSystem :=
  file_system ["ds"%string]
    [("ds/Barcodes.dat"%string, two_barcodes);
     ("ds/Landmark_Groundtruth.dat"%string, one_landmark)].

(** The same with barcode rows of the barcode alone. *)
Definition bare_barcodes : FileSystem :=
  file_system ["ds"%string]
    [("ds/Barcodes.dat"%string, ["10"%string; "20"%string]);
     ("ds/Landmark_Groundtruth.dat"%string, one_landmark)].

(** A landmark file whose second row names a surface without barcode. *)
Definition unresolved_landmark : list string :=
  [tabbed ["1"; "2.0"; "3.0"; "0.1"; "0.1"]%string;
   tabbed ["3"; "4.5"; "5.5"; "0.1"; "0.1"]%string].

(** ** Construction and synchronisation *)

Section Construction.

Variables TOTAL_BARCODES TOTAL_LANDMARKS TOTAL_ROBOTS : nat.
Variable stod : string -> outcome float.
Variable fs : FileSystem.

Definition setSamplePeriod (sample_period : float) : M bool := ret false.

Definition syncData (sample_period : float) : M bool :=
  run setSamplePeriod sample_period then ret false.

(** The body of [DataExtractor::DataExtractor(dataset, sample_period)], run
    on the members as their initialisation leaves them; an exception that
    leaves it leaves the constructor. *)
Definition DataExtractor_ctor (dataset : string) (sample_period : float) : M unit :=
  run setDataSet TOTAL_BARCODES TOTAL_LANDMARKS TOTAL_ROBOTS stod fs dataset then
  run syncData sample_period then
  ret tt.

End Construction.

(** ** Samples

    The field extraction of the loops of [readGroundTruth] and
    [readOdometry], each as one expression. *)

Section Samples.

Variable stod : string -> outcome float.

Definition groundtruth_row (line : string) : outcome Groundtruth.t :=
  let line := Str.erase_remove space line in
  let e0 := Str.find line tab 0 in
  obind (text stod line 0 e0) (fun time =>
  let e1 := next_tab line e0 in
  obind (text stod line e0 e1) (fun x_coordinate =>
  let e2 := next_tab line e1 in
  obind (text stod line e1 e2) (fun y_coordinate =>
  let e3 := next_tab line e2 in
  obind (text stod line e2 e3) (fun orientation =>
  Returned (Groundtruth.mk time x_coordinate y_coordinate orientation))))).

Definition odometry_row (line : string) : outcome Odometry.t :=
  let line := Str.erase_remove space line in
  let e0 := Str.find line tab 0 in
  obind (text stod line 0 e0) (fun time =>
  let e1 := next_tab line e0 in
  obind (text stod line e0 e1) (fun forward_velocity =>
  let e2 := next_tab line e1 in
  obind (text stod line e1 e2) (fun angular_velocity =>
  Returned (Odometry.mk time forward_velocity angular_velocity)))).

End Samples.

(** ** Vocabulary of the further properties *)

(** The files on which a stream was constructed, and the diagnostics
    written to [std::cerr], each in order. *)
Definition opened (t : list event) : list string :=
  omap (fun e => match e with Open f => Some f | Cerr _ => None end) t.

Definition diagnostics (t : list event) : list diagnostic :=
  omap (fun e => match e with Cerr d => Some d | Open _ => None end) t.

(** The three files of a robot, in the order of [setDataSet]. *)
Definition robot_files (dataset : string) (robot_id : Z) : list string :=
  [robot_file dataset robot_id "_Groundtruth.dat";
   robot_file dataset robot_id "_Odometry.dat";
   robot_file dataset robot_id "_Measurement.dat"].

(** What the C++ standard says of [std::stod]: it returns, or throws
    [std::invalid_argument] or [std::out_of_range]. *)
Definition conforming (stod : string -> outcome float) : Prop :=
  forall t,
    stod t <> Undefined
    /\ forall e, stod t = Thrown e -> e = std_invalid_argument \/ e = std_out_of_range.

(** The number of times [c] stands in [s]. *)
Fixpoint occurrences (c : ascii) (s : string) : nat :=
  match s with
  | EmptyString => O
  | String a s' => if Ascii.eqb a c then S (occurrences c s') else occurrences c s'
  end.

(** ** Instances for the further examples *)

(** A dataset with one robot: a ground-truth file of two samples, an
    odometry file of two samples, and a measurement file of three readings
    of which the first two are 0.03 s apart. *)
Definition one_robot : FileSystem :=
  file_system ["ds"%string]
    [("ds/Barcodes.dat"%string,
      ["# Subject #    Barcode #"%string;
       tabbed ["1"; "10"]%string; tabbed ["2"; "20"]%string]);
     ("ds/Landmark_Groundtruth.dat"%string,
      ["# Subject #    x [m]    y [m]    x std-dev [m]    y std-dev [m]"%string;
       tabbed ["2"; "1.5"; "-2.5"; "0.25"; "0.125"]%string]);
     ("ds/Robot1_Groundtruth.dat"%string,
      ["# Time [s]    x [m]    y [m]    orientation [rad]"%string;
       tabbed ["10.00"; "1.5"; "2.5"; "-0.5"]%string;
       tabbed ["10.25"; "1.75"; "2.25"; "0.5"]%string]);
     ("ds/Robot1_Odometry.dat"%string,
      ["# Time [s]    forward velocity [m/s]    angular velocity[rad/s]"%string;
       tabbed ["10.00"; "0.5"; "0.25"]%string;
       tabbed ["10.25"; "0.75"; "-0.125"]%string]);
     ("ds/Robot1_Measurement.dat"%string,
      ["# Time [s]    Subject #    range [m]    bearing [rad]"%string;
       tabbed ["10.00"; "5"; "1.5"; "0.25"]%string;
       tabbed ["10.03"; "14"; "2.5"; "-0.5"]%string;
       tabbed ["10.20"; "7"; "3.25"; "0.125"]%string])].

(** The same dataset with a ground-truth and an odometry file whose second
    row has lost its last column. *)
Definition short_rows : FileSystem :=
  file_system ["ds"%string]
    [("ds/Robot1_Groundtruth.dat"%string,
      [tabbed ["10.00"; "1.5"; "2.5"; "-0.5"]%string;
       tabbed ["10.25"; "1.75"; "2.25"]%string;
       tabbed ["10.50"; "2.0"; "2.0"; "0.5"]%string]);
     ("ds/Robot1_Odometry.dat"%string,
      [tabbed ["10.00"; "0.5"; "0.25"]%string;
       tabbed ["10.25"; "0.75"]%string;
       tabbed ["10.50"; "1.0"; "0.0"]%string])].

(** A landmark file of two rows, and one whose row names the surface 0. *)
Definition two_landmarks : list string :=
  [tabbed ["1"; "2.0"; "3.0"; "0.1"; "0.1"]%string;
   tabbed ["2"; "1.5"; "-2.5"; "0.25"; "0.125"]%string].

Definition surface_zero : list string :=
  [tabbed ["0"; "2.0"; "3.0"; "0.1"; "0.1"]%string].

(** ** Vocabulary of the measurement records *)

(** The measurement vector of a robot. *)
Definition measurements_of (robot_id : Z) (s : DataExtractor) : option (list Measurement.t) :=
  (fun r => Robot.measurements (Robot.raw r)) <$> at_index (robots_ s) robot_id.

(** The three vectors of a record run in parallel, and hold a reading. *)
Definition parallel (m : Measurement.t) : Prop :=
  length (Measurement.subjects m) = length (Measurement.ranges m)
  /\ length (Measurement.ranges m) = length (Measurement.bearings m)
  /\ Measurement.subjects m <> [].

(** The sightings of a record, and the sighting of a row. *)
Definition entries (m : Measurement.t) : list (Z * float * float) :=
  zip (zip (Measurement.subjects m) (Measurement.ranges m)) (Measurement.bearings m).

Definition sighting (r : reading) : Z * float * float :=
  let '(_, subject, range, bearing) := r in (subject, range, bearing).

(** No record has its time in the window around the time of a record
    behind it in the vector. *)
Definition separated (v : list Measurement.t) : Prop :=
  forall i j a b,
    (i < j)%nat -> v !! i = Some a -> v !! j = Some b ->
    ~ in_window (Measurement.time b) (Measurement.time a).

(** [I] holds of the object after [m] if it holds before. *)
Definition preserves {A} (I : DataExtractor -> Prop) (m : M A) : Prop :=
  forall s, I s -> I (final (m s)).

(** ** Vocabulary of what a loader leaves alone *)

(** One of the three vectors of a robot. *)
Definition vector_of {A} (get : Robot.Raw -> A) (robot_id : Z) (s : DataExtractor) : option A :=
  (fun r => get (Robot.raw r)) <$> at_index (robots_ s) robot_id.

(** The object [s'] is as [s] outside robot [robot_id]: the path, the two
    tables, the number of robots and the other robots. *)
Definition beside_robot (robot_id : Z) (s s' : DataExtractor) : Prop :=
  dataset_ s' = dataset_ s
  /\ barcodes_ s' = barcodes_ s
  /\ landmarks_ s' = landmarks_ s
  /\ length (robots_ s') = length (robots_ s)
  /\ forall j, Z.of_nat j <> robot_id -> robots_ s' !! j = robots_ s !! j.

(** ** Vocabulary of how a load ends *)

(** The two exceptions of a row that does not convert. *)
Definition parse_error (e : exception) : Prop :=
  e = std_invalid_argument \/ e = std_out_of_range.

(** A step of a loop: it writes no diagnostic and constructs no stream, and
    what it throws is a parse error. *)
Definition quiet {A} (m : M A) : Prop :=
  forall s, events (m s) = [] /\ forall e, result (m s) = Thrown e -> parse_error e.

(** How the loop of a loader ends: a diagnostic is written when, and only
    when, the loop returns false, and it is the one event of the loop; what
    the loop throws is a parse error. *)
Definition loop_ends (r : DataExtractor * list event * outcome bool) : Prop :=
  match result r with
  | Returned true => events r = []
  | Returned false => exists d, events r = [Cerr d]
  | Thrown e => events r = [] /\ parse_error e
  | Undefined => events r = []
  end.

(** How a loader ends that has constructed its stream on [filename]: the
    stream comes first, the loop behind it; it returns true only if the
    stream is open. *)
Definition loader_ends (stream : string -> option (list string)) (filename : string)
    (r : DataExtractor * list event * outcome bool) : Prop :=
  exists tail,
    events r = Open filename :: tail
    /\ loop_ends (final r, tail, result r)
    /\ (result r = Returned true -> is_Some (stream filename)).

(** The robots [i], [i + 1], ... that [n] iterations of the loop of
    [setDataSet] go through, and their files. *)
Definition robot_range (i : Z) (n : nat) : list Z :=
  List.map (fun k => i + Z.of_nat k) (seq 0 n).

Definition robots_files (dataset : string) (i : Z) (n : nat) : list string :=
  concat (List.map (robot_files dataset) (robot_range i n)).

(** The three files of a robot can be opened. *)
Definition robot_available (fs : FileSystem) (dataset : string) (robot_id : Z) : Prop :=
  is_Some (ifstream fs (robot_file dataset robot_id "_Groundtruth.dat"))
  /\ is_Some (fstream fs (robot_file dataset robot_id "_Odometry.dat"))
  /\ is_Some (fstream fs (robot_file dataset robot_id "_Measurement.dat")).

(** How a run ends with respect to the files [files] that it goes through:
    it constructs a stream on each of them in order, as far as it gets; it
    gets through all of them when it returns, [K] then relating what it
    returns to its events, and [T] relating what it throws to its events. *)
Definition run_ends {A} (files : list string) (T : exception -> list event -> Prop)
    (K : A -> list event -> Prop) (r : DataExtractor * list event * outcome A) : Prop :=
  opened (events r) `prefix_of` files
  /\ (forall e, result r = Thrown e -> T e (events r))
  /\ forall a, result r = Returned a -> opened (events r) = files /\ K a (events r).

(** What the flag that a loader returns says of its events: true, and no
    diagnostic was written and the file was open; false, and a diagnostic
    was written. *)
Definition verdict (available : Prop) (b : bool) (t : list event) : Prop :=
  if b then diagnostics t = [] /\ available else diagnostics t <> [].

(** The file of the barcodes, unless the path is empty: [readBarcodes] takes
    the empty path for no path. *)
Definition barcode_files (dataset : string) : list string :=
  if String.eqb EmptyString dataset then [] else [(dataset ++ "/Barcodes.dat")%string].

(** The files of a dataset, in the order of [setDataSet]: the barcodes, the
    landmarks, then robot by robot. *)
Definition dataset_files (dataset : string) (total_robots : nat) : list string :=
  barcode_files dataset
  ++ (dataset ++ "/Landmark_Groundtruth.dat")%string
  :: robots_files dataset 0 total_robots.

(** The files of a dataset can all be opened. *)
Definition dataset_available (fs : FileSystem) (dataset : string) (total_robots : nat) : Prop :=
  is_Some (ifstream fs (dataset ++ "/Barcodes.dat"))
  /\ is_Some (ifstream fs (dataset ++ "/Landmark_Groundtruth.dat"))
  /\ Forall (robot_available fs dataset) (robot_range 0 total_robots).

(** ** Vocabulary of the bounds of the arrays *)

(** A row of the landmark file whose id has no position in a barcode table
    of [n] elements. *)
Definition stray_landmark (fs : FileSystem) (dataset : string) (n : nat) : Prop :=
  exists lines line k,
    ifstream fs (dataset ++ "/Landmark_Groundtruth.dat") = Some lines
    /\ line ∈ lines
    /\ is_comment line = false
    /\ landmark_id line = Returned k
    /\ (k < 1 \/ Z.of_nat n < k).

(** ** Vocabulary of a dataset that loads *)

(** The vectors of a robot as its three files give them: the samples of
    the ground-truth rows, those of the odometry rows, and the readings of
    the measurement rows. *)
Definition robot_log : Type := list Groundtruth.t * list Odometry.t * list reading.

Definition logged (stod : string -> outcome float) (fs : FileSystem) (dataset : string)
    (robot_id : Z) (log : robot_log) : Prop :=
  let '(g, o, rows) := log in
  (exists lines,
      ifstream fs (robot_file dataset robot_id "_Groundtruth.dat") = Some lines
      /\ Forall2 (fun line a => groundtruth_row stod line = Returned a) (data_lines lines) g)
  /\ (exists lines,
      fstream fs (robot_file dataset robot_id "_Odometry.dat") = Some lines
      /\ Forall2 (fun line a => odometry_row stod line = Returned a) (data_lines lines) o)
  /\ (exists lines,
      fstream fs (robot_file dataset robot_id "_Measurement.dat") = Some lines
      /\ Forall2 (fun line a => measurement_row stod line = Returned a) (data_lines lines) rows).

(** A robot with the three vectors of a log in the place of its own. *)
Definition load_robot (log : robot_log) (r : Robot.t) : Robot.t :=
  let '(g, o, rows) := log in
  Robot.set_measurements (fun _ => aggregate_all rows [])
    (Robot.set_odometry (fun _ => o) (Robot.set_ground_truth (fun _ => g) r)).

(** A dataset whose landmark file names the surface 0. *)
Definition stray_dataset : FileSystem :=
  file_system ["ds"%string]
    [("ds/Barcodes.dat"%string, two_barcodes);
     ("ds/Landmark_Groundtruth.dat"%string, surface_zero)].

(** ** Vocabulary of the columns of a row *)

(** A column: it is not empty, holds no tab, and does not start with white
    space. *)
Definition column (a : string) : Prop :=
  a <> EmptyString /\ Str.offset tab a = None /\ Conv.isspace (Str.front a) = false.

(** What is left of a line behind a column: nothing, or a tab and more. *)
Definition behind (more : string) : Prop :=
  more = EmptyString \/ Str.front more = tab.

(** A conversion that skips the tab before a column and stops at the tab
    behind it, as [std::stoi] and [std::stod] do. *)
Definition stops_at_tab {A} (conv : string -> outcome A) : Prop :=
  forall a more, column a -> behind more -> conv (TAB ++ a ++ more)%string = conv a.


(** ** Vocabulary of a second run *)

(** [m] replays under [v]: run on an object that shows under [v] what the
    object left by a run of [m] shows, it leaves that object as it is, and
    writes and ends as the first run did. *)
Definition replays {A V} (v : DataExtractor -> V) (m : M A) : Prop :=
  forall s s', v s' = v (final (m s)) -> m s' = (s', events (m s), result (m s)).

(** [m] does to a robot in range one thing, whatever else the object holds:
    it applies [F] to the vector that [set] updates, writes [t] and ends
    with [r]. *)
Definition uniform {A V} (robot_id : Z) (set : (V -> V) -> Robot.t -> Robot.t) (m : M A) : Prop :=
  exists (F : V -> V) (t : list event) (r : outcome A),
    forall s x, at_index (robots_ s) robot_id = Some x ->
                m s = (with_robot robot_id (set F) s, t, r).
(** * Properties *)

(** Closed goals [Forall2 (fun line row => parse line = Returned row) ls rs]:
    the lines are evaluated, then each row. *)
Ltac rows_convert :=
  match goal with
  | |- Forall2 _ ?ls _ => let ls' := eval vm_compute in ls in change ls with ls'
  end;
  repeat (constructor; [vm_compute; reflexivity|]); constructor.

(** ** Running the state transformers *)

Section Execution.

Lemma bind_lift_returned {A B} (a : A) (k : A -> M B) s :
  bind (lift (Returned a)) k s = k a s.
Proof. unfold bind, lift. now destruct (k a s) as [[s2 t2] r]. Qed.

Lemma bind_lift_thrown {A B} e (k : A -> M B) s :
  bind (lift (Thrown e)) k s = (s, [], Thrown e).
Proof. reflexivity. Qed.

Lemma bind_lift_undefined {A B} (k : A -> M B) s :
  bind (lift Undefined) k s = (s, [], Undefined).
Proof. reflexivity. Qed.

Lemma bind_returned {A B} (m : M A) (k : A -> M B) s s1 t1 a :
  m s = (s1, t1, Returned a) ->
  bind m k s = (final (k a s1), t1 ++ events (k a s1), result (k a s1)).
Proof. unfold bind. intros ->. now destruct (k a s1) as [[s2 t2] r]. Qed.

Lemma bind_silent {A B} (m : M A) (k : A -> M B) s s1 a :
  m s = (s1, [], Returned a) -> bind m k s = k a s1.
Proof. unfold bind. intros ->. now destruct (k a s1) as [[s2 t2] r]. Qed.


Lemma bind_undefined {A B} (m : M A) (k : A -> M B) s s1 t1 :
  m s = (s1, t1, Undefined) -> bind m k s = (s1, t1, Undefined).
Proof. unfold bind. now intros ->. Qed.

Lemma events_bind {A B} (m : M A) (k : A -> M B) s :
  events (bind m k s)
  = events (m s) ++ match result (m s) with
                    | Returned a => events (k a (final (m s)))
                    | _ => []
                    end.
Proof.
  unfold bind. destruct (m s) as [[s1 t1] [a| |]]; cbn; rewrite ?app_nil_r; try reflexivity.
  now destruct (k a s1) as [[s2 t2] r].
Qed.

Lemma result_bind {A B} (m : M A) (k : A -> M B) s :
  result (bind m k s)
  = match result (m s) with
    | Returned a => result (k a (final (m s)))
    | Thrown e => Thrown e
    | Undefined => Undefined
    end.
Proof.
  unfold bind. destruct (m s) as [[s1 t1] [a| |]]; cbn; try reflexivity.
  now destruct (k a s1) as [[s2 t2] r].
Qed.

Lemma at_index_alter {A} (f : A -> A) (v : list A) i :
  at_index (alter f (Z.to_nat i) v) i = f <$> at_index v i.
Proof.
  unfold at_index. destruct (0 <=? i); [|reflexivity]. apply list_lookup_alter_eq.
Qed.

Lemma update_robot_ok robot_id f s r :
  at_index (robots_ s) robot_id = Some r ->
  update_robot robot_id f s = (with_robot robot_id f s, [], Returned tt).
Proof. unfold update_robot. now intros ->. Qed.

Lemma update_robot_undefined robot_id f s :
  at_index (robots_ s) robot_id = None ->
  update_robot robot_id f s = (s, [], Undefined).
Proof. unfold update_robot. now intros ->. Qed.

Lemma with_robot_with_robot robot_id f g s :
  with_robot robot_id f (with_robot robot_id g s) = with_robot robot_id (fun r => f (g r)) s.
Proof.
  unfold with_robot, set_robots. cbn [dataset_ barcodes_ landmarks_ robots_]. f_equal.
  apply list_alter_alter_eq.
Qed.

Lemma with_robot_ext robot_id f g s :
  (forall r, f r = g r) -> with_robot robot_id f s = with_robot robot_id g s.
Proof.
  intros Hfg. unfold with_robot, set_robots. f_equal. apply list_alter_ext; auto.
Qed.

Lemma with_robot_id robot_id f s : (forall r, f r = r) -> with_robot robot_id f s = s.
Proof.
  intros Hf. unfold with_robot, set_robots. rewrite list_alter_id by assumption.
  now destruct s.
Qed.

Lemma at_index_with_robot robot_id f s :
  at_index (robots_ (with_robot robot_id f s)) robot_id = f <$> at_index (robots_ s) robot_id.
Proof. apply at_index_alter. Qed.

Lemma bind_open {A} stream filename (k : option (list string) -> M A) s :
  bind (open stream filename) k s
  = (final (k (stream filename) s), Open filename :: events (k (stream filename) s),
     result (k (stream filename) s)).
Proof. unfold bind, open. now destruct (k (stream filename) s) as [[s2 t2] r]. Qed.

(** Storing at [i], then filling from [S i], is filling from [i]. *)
Lemma fill_insert {A} (b : list A) i v vs (k : nat) :
  (i < length b)%nat ->
  take (S i) (<[i := v]> b) ++ vs ++ drop (S i + k) (<[i := v]> b)
  = take i b ++ (v :: vs) ++ drop (i + S k) b.
Proof.
  intros Hi.
  rewrite (take_S_r _ _ v) by now apply list_lookup_insert_eq.
  rewrite take_insert_ge by lia. rewrite drop_insert_lt by lia.
  replace (i + S k)%nat with (S i + k)%nat by lia.
  now rewrite <- app_assoc.
Qed.

Lemma data_lines_cons line rest :
  data_lines (line :: rest)
  = if is_comment line then data_lines rest else line :: data_lines rest.
Proof. unfold data_lines. simpl. now destruct (is_comment line). Qed.

End Execution.

(** ** What a member function leaves alone *)

Section Stability.

Context {X : Type} (c : DataExtractor -> X).

Lemma stable_ret {A} (a : A) : stable c (ret a).
Proof. intros s. reflexivity. Qed.

Lemma stable_lift {A} (o : outcome A) : stable c (lift o).
Proof. intros s. reflexivity. Qed.

Lemma stable_emit e : stable c (emit e).
Proof. intros s. reflexivity. Qed.

Lemma stable_throw {A} e : stable c (@throw A e).
Proof. intros s. reflexivity. Qed.

Lemma stable_reads {A} (f : DataExtractor -> A) : stable c (reads f).
Proof. intros s. reflexivity. Qed.

Lemma stable_open stream filename : stable c (open stream filename).
Proof. intros s. reflexivity. Qed.

Lemma stable_field {A} (conv : string -> outcome A) line i j : stable c (field conv line i j).
Proof. intros s. reflexivity. Qed.

Lemma stable_bind {A B} (m : M A) (k : A -> M B) :
  stable c m -> (forall a, stable c (k a)) -> stable c (bind m k).
Proof.
  intros Hm Hk s. unfold bind. specialize (Hm s).
  destruct (m s) as [[s1 t1] [a| |]]; cbn in Hm; try exact Hm.
  specialize (Hk a s1). destruct (k a s1) as [[s2 t2] r]. cbn in *. congruence.
Qed.

Lemma stable_update_robot robot_id f :
  (forall s, c (with_robot robot_id f s) = c s) -> stable c (update_robot robot_id f).
Proof.
  intros H s. unfold update_robot. destruct (at_index (robots_ s) robot_id); cbn; auto.
Qed.

Lemma stable_store_barcode i v :
  (forall s, c (set_barcodes <[i := v]> s) = c s) -> stable c (store_barcode i v).
Proof. intros H s. unfold store_barcode. destruct (barcodes_ s !! i); cbn; auto. Qed.

Lemma stable_load_barcode i : stable c (load_barcode i).
Proof. intros s. unfold load_barcode. now destruct (at_index (barcodes_ s) i). Qed.

Lemma stable_store_landmark i set :
  (forall s, c (set_landmarks (alter set i) s) = c s) -> stable c (store_landmark i set).
Proof. intros H s. unfold store_landmark. destruct (landmarks_ s !! i); cbn; auto. Qed.

Lemma stable_load_landmark_id i : stable c (load_landmark_id i).
Proof. intros s. unfold load_landmark_id. now destruct (landmarks_ s !! i). Qed.

End Stability.

Create HintDb stable discriminated.
#[local] Hint Resolve stable_ret stable_lift stable_emit stable_throw stable_reads
  stable_open stable_field stable_load_barcode stable_load_landmark_id : stable.

(** One step through a loader: split a bind, or decide a test. *)
Ltac stable_step :=
  match goal with
  | |- stable _ (bind _ _) => apply stable_bind; [|intros ?]
  | |- stable _ (if ?b then _ else _) => destruct b
  | |- stable _ (match ?o with Some _ => _ | None => _ end) => destruct o
  | |- stable _ (update_robot _ _) => apply stable_update_robot; intros ?
  | |- stable _ (store_barcode _ _) => apply stable_store_barcode; intros ?
  | |- stable _ (store_landmark _ _) => apply stable_store_landmark; intros ?
  | |- stable _ _ => solve [eauto with stable]
  end.

(** ** White space *)

Section WhiteSpace.

Lemma erase_remove_filter c line :
  list_ascii_of_string (Str.erase_remove c line)
  = List.filter (fun a => negb (Ascii.eqb a c)) (list_ascii_of_string line).
Proof.
  induction line as [|a line IH]; [reflexivity|]. cbn.
  destruct (Ascii.eqb a c); cbn; now rewrite IH.
Qed.

Lemma erase_remove_idempotent c line :
  Str.erase_remove c (Str.erase_remove c line) = Str.erase_remove c line.
Proof.
  induction line as [|a line IH]; [reflexivity|]. cbn.
  destruct (Ascii.eqb a c) eqn:E; [assumption|]. cbn. now rewrite E, IH.
Qed.

End WhiteSpace.

(** ** Measurement aggregation *)

Section Aggregation.

Lemma find_if_first {A} (p : A -> bool) (before after : list A) (r : A) :
  Forall (fun a => p a = false) before -> p r = true ->
  find_if p (before ++ r :: after) = length before.
Proof.
  intros Hb Hr. induction Hb as [|a before Ha _ IH]; simpl.
  - now rewrite Hr.
  - now rewrite Ha, IH.
Qed.

Lemma find_if_none {A} (p : A -> bool) (v : list A) :
  Forall (fun a => p a = false) v -> find_if p v = length v.
Proof.
  induction 1 as [|a v Ha _ IH]; simpl; [reflexivity|]. now rewrite Ha, IH.
Qed.

Lemma find_if_end {A} (p : A -> bool) (v : list A) :
  find_if p v = length v -> Forall (fun a => p a = false) v.
Proof.
  induction v as [|a v IH]; simpl; [constructor|].
  destruct (p a) eqn:Ha; [discriminate|]. intros [= H]. constructor; auto.
Qed.

(** The iterator of [find_if] points at an element that satisfies the
    predicate, and at the first such. *)
Lemma find_if_found {A} (p : A -> bool) (v : list A) :
  find_if p v ≠ length v ->
  exists before r after,
    v = before ++ r :: after /\ Forall (fun a => p a = false) before
    /\ p r = true /\ find_if p v = length before.
Proof.
  induction v as [|a v IH]; simpl; [congruence|].
  destruct (p a) eqn:Ha.
  - intros _. exists [], a, v. repeat split; auto.
  - intros Hne. destruct IH as (before & r & after & -> & Hb & Hr & Hi); [congruence|].
    exists (a :: before), r, after. repeat split; auto. simpl. now rewrite Hi.
Qed.

Lemma aggregate_merge time subject range bearing before r after :
  Forall (fun m => within_window time m = false) before ->
  within_window time r = true ->
  aggregate time subject range bearing (before ++ r :: after)
  = before ++ push_reading subject range bearing r :: after.
Proof.
  intros Hb Hr. unfold aggregate. rewrite (find_if_first _ _ _ _ Hb Hr).
  rewrite decide_True by (rewrite length_app; simpl; lia).
  replace (length before) with (length before + 0)%nat at 1 by lia.
  now rewrite alter_app_r.
Qed.

Lemma aggregate_new time subject range bearing v :
  Forall (fun m => within_window time m = false) v ->
  aggregate time subject range bearing v
  = v ++ [Measurement.Measurement time subject range bearing].
Proof.
  intros Hv. unfold aggregate. rewrite (find_if_none _ _ Hv).
  now rewrite decide_False by auto.
Qed.

Lemma within_window_true time m :
  within_window time m = true <-> in_window time (Measurement.time m).
Proof. unfold within_window, in_window. apply andb_true_iff. Qed.

Lemma outside_window time (v : list Measurement.t) :
  (forall m, m ∈ v -> ~ in_window time (Measurement.time m)) ->
  Forall (fun m => within_window time m = false) v.
Proof.
  intros H. apply Forall_forall. intros m Hm. specialize (H m Hm).
  rewrite <- within_window_true in H. now destruct (within_window time m).
Qed.

Lemma inside_window time (v : list Measurement.t) :
  Forall (fun m => within_window time m = false) v ->
  forall m, m ∈ v -> ~ in_window time (Measurement.time m).
Proof.
  intros H m Hm Hin. apply within_window_true in Hin.
  rewrite Forall_forall in H. specialize (H m Hm). congruence.
Qed.

(** A vector has a first record within the window, or none at all. *)
Lemma first_in_window_or_none time (v : list Measurement.t) :
  (exists before r after,
      v = before ++ r :: after
      /\ (forall m, m ∈ before -> ~ in_window time (Measurement.time m))
      /\ in_window time (Measurement.time r))
  \/ (forall m, m ∈ v -> ~ in_window time (Measurement.time m)).
Proof.
  destruct (decide (find_if (within_window time) v = length v)) as [Hend|Hfound].
  - right. now apply inside_window, find_if_end.
  - left. destruct (find_if_found _ _ Hfound) as (before & r & after & -> & Hb & Hr & _).
    exists before, r, after. repeat split; [now apply inside_window | | ];
      now apply within_window_true.
Qed.

Lemma aggregate_all_snoc rows row v :
  aggregate_all (rows ++ [row]) v = aggregate_reading (aggregate_all rows v) row.
Proof. unfold aggregate_all. now rewrite fold_left_app. Qed.

End Aggregation.

(** ** Numerals and the shape of a barcode row *)

(** The value of the digit at the head of a numeral. *)
Ltac digit_of_char :=
  match goal with
  | |- context [Conv.digit ?c] =>
      let d := eval vm_compute in (Conv.digit c) in change (Conv.digit c) with d
  end.

Section Numerals.

Lemma digits_of_uint_acc u : forall p,
  Conv.digits (NilEmpty.string_of_uint u) (Some (Zpos p))
  = Some (Zpos (Pos.of_uint_acc u p)).
Proof.
  induction u; intros p; cbn [NilEmpty.string_of_uint Conv.digits]; try reflexivity;
    digit_of_char;
    cbn [default Pos.of_uint_acc]; rewrite <- IHu; do 2 f_equal; unfold id; lia.
Qed.

Lemma digits_of_uint_zero u :
  Conv.digits (NilEmpty.string_of_uint u) (Some 0) = Some (Z.of_N (Pos.of_uint u)).
Proof.
  induction u; cbn [NilEmpty.string_of_uint Conv.digits]; try reflexivity;
    digit_of_char;
    cbn [default Pos.of_uint]; try exact IHu;
    match goal with
    | |- Conv.digits _ (Some ?z) = _ =>
        let z' := eval cbn in z in change z with z'
    end; apply digits_of_uint_acc.
Qed.

Lemma digits_of_to_uint p :
  Conv.digits (NilEmpty.string_of_uint (Pos.to_uint p)) None = Some (Zpos p).
Proof.
  pose proof (DecimalPos.Unsigned.of_to p) as Hp.
  pose proof (digits_of_uint_zero (Pos.to_uint p)) as H0.
  rewrite Hp in H0. cbn [Z.of_N] in H0.
  destruct (Pos.to_uint p) as [|u|u|u|u|u|u|u|u|u|u]; [|exact H0..].
  discriminate.
Qed.

Lemma in_int_ok v : Conv.INT_MIN <= v <= Conv.INT_MAX -> Conv.in_int v = Returned v.
Proof.
  intros [Hlo Hhi]. unfold Conv.in_int.
  apply Z.leb_le in Hlo, Hhi. now rewrite Hlo, Hhi.
Qed.

(** [std::stoi] reads back what [std::to_string] writes. *)
Lemma stoi_to_string v :
  Conv.INT_MIN <= v <= Conv.INT_MAX -> Conv.stoi (Str.to_string v) = Returned v.
Proof.
  intros Hv. unfold Str.to_string.
  destruct v as [|p|p]; [reflexivity| |];
    pose proof (digits_of_to_uint p) as Hd;
    cbn [Z.to_int NilZero.string_of_int NilZero.string_of_uint];
    destruct (Pos.to_uint p) as [|u|u|u|u|u|u|u|u|u|u]; try discriminate Hd;
    unfold Conv.stoi; cbn [NilZero.string_of_uint NilEmpty.string_of_uint Conv.skip_space];
    match goal with
    | |- context [Conv.isspace ?c] => change (Conv.isspace c) with false
    end; cbv iota; cbn [NilEmpty.string_of_uint] in Hd; rewrite Hd; now apply in_int_ok.
Qed.

End Numerals.

Section RowShape.

Lemma erase_remove_app c a b :
  Str.erase_remove c (a ++ b) = (Str.erase_remove c a ++ Str.erase_remove c b)%string.
Proof.
  induction a as [|x a IH]; [reflexivity|]. cbn.
  destruct (Ascii.eqb x c); cbn; now rewrite IH.
Qed.

Lemma offset_erase_remove c d s :
  Str.offset c s = None -> Str.offset c (Str.erase_remove d s) = None.
Proof.
  induction s as [|x s IH]; [reflexivity|]. cbn.
  destruct (Ascii.eqb x c) eqn:Hx; [discriminate|].
  destruct (Str.offset c s); [discriminate|]. intros _.
  destruct (Ascii.eqb x d); cbn; [auto|]. now rewrite Hx, IH.
Qed.

Lemma str_offset_app c a b :
  Str.offset c a = None ->
  Str.offset c (a ++ String c b) = Some (String.length a).
Proof.
  induction a as [|x a IH]; cbn.
  - now rewrite Ascii.eqb_refl.
  - destruct (Ascii.eqb x c); [discriminate|].
    destruct (Str.offset c a); [discriminate|]. intros _. now rewrite IH.
Qed.

Lemma str_drop_app a b : Str.drop (String.length a) (a ++ b) = b.
Proof. induction a as [|x a IH]; [now destruct b|]. exact IH. Qed.

Lemma str_take_all n s : (String.length s <= n)%nat -> Str.take n s = s.
Proof.
  revert n. induction s as [|x s IH]; intros [|n] Hn; cbn in *; try reflexivity; try lia.
  rewrite IH by lia. reflexivity.
Qed.

Lemma str_length_app a b : String.length (a ++ b) = (String.length a + String.length b)%nat.
Proof. induction a as [|x a IH]; cbn; [reflexivity|]. now rewrite IH. Qed.

(** A barcode row is read after its first tab: what comes before is not
    looked at, what comes after goes to [std::stoi] without its spaces. *)
Lemma barcode_row_after_first_tab subject rest :
  Str.offset tab subject = None ->
  (Str.size (subject ++ TAB ++ rest) <= Str.npos)%N ->
  barcode_row (subject ++ TAB ++ rest) = Conv.stoi (Str.erase_remove space rest).
Proof.
  intros Hsubject Hsize. unfold barcode_row. cbv zeta.
  rewrite !erase_remove_app. change (Str.erase_remove space TAB) with TAB.
  set (a := Str.erase_remove space subject). set (b := Str.erase_remove space rest).
  assert (Ha : Str.offset tab a = None) by now apply offset_erase_remove.
  assert (Hlen : (String.length (a ++ TAB ++ b) <= String.length (subject ++ TAB ++ rest))%nat).
  { subst a b. rewrite !str_length_app.
    assert (H : forall s, (String.length (Str.erase_remove space s) <= String.length s)%nat).
    { induction s as [|x s IH]; cbn; [lia|]. destruct (Ascii.eqb x space); cbn; lia. }
    pose proof (H subject). pose proof (H rest). lia. }
  unfold Str.size in Hsize.
  change (TAB ++ b)%string with (String tab b) in *.
  change (TAB ++ rest)%string with (String tab rest) in *.
  assert (Hfind : Str.find (a ++ String tab b) tab 0 = N.of_nat (String.length a)).
  { unfold Str.find, Str.size. rewrite str_length_app. cbn [String.length].
    destruct (N.leb_spec (N.of_nat (String.length a + S (String.length b))) 0); [lia|].
    change (Str.drop (N.to_nat 0) (a ++ String tab b)) with (a ++ String tab b)%string.
    now rewrite str_offset_app. }
  rewrite Hfind. unfold Str.substr, Str.size.
  destruct (N.ltb_spec (N.of_nat (String.length (a ++ String tab b))) (N.of_nat (String.length a)))
    as [Hlt|_]; [rewrite str_length_app in Hlt; lia|].
  rewrite Nat2N.id, str_drop_app.
  rewrite str_take_all; [reflexivity|].
  rewrite !str_length_app in *. cbn [String.length] in *.
  change Str.npos with 18446744073709551615%N in *. lia.
Qed.

Lemma erase_remove_space_of_uint u :
  Str.erase_remove space (NilEmpty.string_of_uint u) = NilEmpty.string_of_uint u.
Proof.
  induction u; cbn [NilEmpty.string_of_uint Str.erase_remove]; [reflexivity|..];
    match goal with
    | |- context [Ascii.eqb ?c space] => change (Ascii.eqb c space) with false
    end; cbv iota; now rewrite IHu.
Qed.

Lemma erase_remove_space_of_uint_zero u :
  Str.erase_remove space (NilZero.string_of_uint u) = NilZero.string_of_uint u.
Proof. destruct u; [reflexivity|..]; apply erase_remove_space_of_uint. Qed.

Lemma erase_remove_space_to_string v :
  Str.erase_remove space (Str.to_string v) = Str.to_string v.
Proof.
  unfold Str.to_string. destruct v as [|p|p]; [reflexivity| |];
    cbn [Z.to_int NilZero.string_of_int].
  - apply erase_remove_space_of_uint_zero.
  - cbn [Str.erase_remove]. change (Ascii.eqb "-" space) with false. cbv iota.
    now rewrite erase_remove_space_of_uint_zero.
Qed.

(** A row [subject TAB barcode], no tab in the subject, yields the barcode. *)
Lemma barcode_row_of_subject_and_barcode subject v :
  Str.offset tab subject = None ->
  (Str.size (subject ++ TAB ++ Str.to_string v) <= Str.npos)%N ->
  Conv.INT_MIN <= v <= Conv.INT_MAX ->
  barcode_row (subject ++ TAB ++ Str.to_string v) = Returned v.
Proof.
  intros Hsubject Hsize Hv.
  rewrite barcode_row_after_first_tab by assumption.
  rewrite erase_remove_space_to_string. now apply stoi_to_string.
Qed.

Lemma well_formed_barcode_rows_convert rows :
  Forall well_formed_barcode_row rows ->
  Forall2 (fun line v => barcode_row line = Returned v)
    (data_lines (List.map barcode_line rows)) (List.map snd rows).
Proof.
  induction 1 as [|[subject v] rows (Hc & Htab & Hsize & Hv) _ IH]; [constructor|].
  cbn [List.map]. rewrite data_lines_cons, Hc. constructor; [|exact IH].
  now apply barcode_row_of_subject_and_barcode.
Qed.

End RowShape.

(** ** The barcode loader *)

Section BarcodeLoader.

Variable TOTAL_BARCODES : nat.
Variable fs : FileSystem.

Lemma readBarcodes_lines_comment line rest i :
  is_comment line = true ->
  readBarcodes_lines TOTAL_BARCODES (line :: rest) i = readBarcodes_lines TOTAL_BARCODES rest i.
Proof. intros Hc. cbn [readBarcodes_lines]. now rewrite Hc. Qed.

Lemma readBarcodes_lines_full line rest i s :
  is_comment line = false -> (TOTAL_BARCODES <= i)%nat ->
  readBarcodes_lines TOTAL_BARCODES (line :: rest) i s = (s, [CapacityExceeded], Returned false).
Proof.
  intros Hc Hi. cbn [readBarcodes_lines]. rewrite Hc. now rewrite decide_True by assumption.
Qed.

Lemma readBarcodes_lines_cons line rest i :
  is_comment line = false -> (i < TOTAL_BARCODES)%nat ->
  readBarcodes_lines TOTAL_BARCODES (line :: rest) i
  = (let* v := lift (barcode_row line) in
     run store_barcode i v then
     readBarcodes_lines TOTAL_BARCODES rest (S i))%cpp.
Proof.
  intros Hc Hi. cbn [readBarcodes_lines]. rewrite Hc.
  now rewrite decide_False by lia.
Qed.

Lemma store_barcode_ok i v s :
  (i < length (barcodes_ s))%nat ->
  store_barcode i v s = (set_barcodes <[i := v]> s, [], Returned tt).
Proof.
  intros Hi. unfold store_barcode.
  destruct (lookup_lt_is_Some_2 (barcodes_ s) i Hi) as [b ->]. reflexivity.
Qed.

Lemma set_barcodes_set_barcodes f g s :
  set_barcodes f (set_barcodes g s) = set_barcodes (fun b => f (g b)) s.
Proof. reflexivity. Qed.

Lemma set_barcodes_ext f g s :
  f (barcodes_ s) = g (barcodes_ s) -> set_barcodes f s = set_barcodes g s.
Proof. unfold set_barcodes. now intros ->. Qed.

(** Rows that all convert, and that fit, are stored in file order from
    position [i] on. *)
Lemma readBarcodes_lines_rows lines : forall vs i s,
  Forall2 (fun line v => barcode_row line = Returned v) (data_lines lines) vs ->
  (i + length vs <= TOTAL_BARCODES)%nat ->
  (TOTAL_BARCODES <= length (barcodes_ s))%nat ->
  readBarcodes_lines TOTAL_BARCODES lines i s
  = (set_barcodes (fun b => take i b ++ vs ++ drop (i + length vs) b) s, [], Returned true).
Proof.
  induction lines as [|line rest IH]; intros vs i s Hrows Hfit Hlen.
  - inversion Hrows; subst. cbn [readBarcodes_lines]. unfold ret. do 2 f_equal.
    rewrite (set_barcodes_ext _ (fun b => b)); [now destruct s|].
    cbn [app length]. rewrite Nat.add_0_r. apply take_drop.
  - rewrite data_lines_cons in Hrows. destruct (is_comment line) eqn:Hc.
    + rewrite readBarcodes_lines_comment by assumption. auto.
    + inversion Hrows as [|? v ? vs' Hrow Hrest]; subst. cbn [length] in Hfit.
      rewrite readBarcodes_lines_cons by (assumption || lia).
      rewrite Hrow, bind_lift_returned.
      erewrite bind_silent by (apply store_barcode_ok; lia).
      rewrite (IH vs' (S i)); [ | assumption | lia | cbn; rewrite length_insert; lia ].
      rewrite set_barcodes_set_barcodes. do 2 f_equal.
      apply set_barcodes_ext. cbn [length].
      now rewrite <- (fill_insert _ _ _ _ (length vs')) by lia.
Qed.

(** Rows beyond the capacity: the table is filled, and the next row makes
    the loader give up. *)
Lemma readBarcodes_lines_exceeds lines : forall vs i s,
  Forall2 (fun line v => barcode_row line = Returned v)
    (take (TOTAL_BARCODES - i) (data_lines lines)) vs ->
  (TOTAL_BARCODES - i < length (data_lines lines))%nat ->
  (i <= TOTAL_BARCODES)%nat ->
  (TOTAL_BARCODES <= length (barcodes_ s))%nat ->
  readBarcodes_lines TOTAL_BARCODES lines i s
  = (set_barcodes (fun b => take i b ++ vs ++ drop TOTAL_BARCODES b) s,
     [CapacityExceeded], Returned false).
Proof.
  induction lines as [|line rest IH]; intros vs i s Hrows Hmore Hi Hlen.
  - cbn in Hmore. lia.
  - rewrite data_lines_cons in Hrows, Hmore. destruct (is_comment line) eqn:Hc.
    + rewrite readBarcodes_lines_comment by assumption. auto.
    + destruct (decide (i = TOTAL_BARCODES)) as [->|Hne].
      * rewrite Nat.sub_diag in Hrows. cbn in Hrows. inversion Hrows; subst.
        rewrite readBarcodes_lines_full by (assumption || lia). do 2 f_equal.
        rewrite (set_barcodes_ext _ (fun b => b)); [now destruct s|].
        cbn [app]. apply take_drop.
      * replace (TOTAL_BARCODES - i)%nat with (S (TOTAL_BARCODES - S i)) in Hrows, Hmore by lia.
        cbn [take length] in Hrows, Hmore.
        inversion Hrows as [|? v ? vs' Hrow Hrest]; subst.
        rewrite readBarcodes_lines_cons by (assumption || lia).
        rewrite Hrow, bind_lift_returned.
        erewrite bind_silent by (apply store_barcode_ok; lia).
        rewrite (IH vs' (S i)); [ | assumption | lia | lia | cbn; rewrite length_insert; lia ].
        rewrite set_barcodes_set_barcodes. do 2 f_equal.
        apply set_barcodes_ext.
        assert (Hvs : length vs' = (TOTAL_BARCODES - S i)%nat).
        { apply Forall2_length in Hrest. rewrite <- Hrest, length_take. lia. }
        replace TOTAL_BARCODES with (S i + length vs')%nat at 1 by lia.
        rewrite fill_insert by lia. do 3 f_equal. lia.
Qed.

(** With more rows than the table has room for, the loop never returns
    true, whatever the rows hold. *)
Lemma readBarcodes_lines_too_many lines : forall i s,
  (i <= TOTAL_BARCODES)%nat ->
  (TOTAL_BARCODES < i + length (data_lines lines))%nat ->
  result (readBarcodes_lines TOTAL_BARCODES lines i s) <> Returned true.
Proof.
  induction lines as [|line rest IH]; intros i s Hi Hmore.
  - cbn in Hmore. lia.
  - rewrite data_lines_cons in Hmore. destruct (is_comment line) eqn:Hc.
    + rewrite readBarcodes_lines_comment by assumption. auto.
    + cbn [length] in Hmore. destruct (decide (TOTAL_BARCODES <= i)%nat) as [Hfull|Hroom].
      * rewrite readBarcodes_lines_full by assumption. discriminate.
      * rewrite readBarcodes_lines_cons by (assumption || lia).
        rewrite result_bind. cbn [lift result final fst snd].
        destruct (barcode_row line) as [v| |]; try discriminate.
        rewrite result_bind.
        destruct (result (store_barcode i v s)); try discriminate.
        apply IH; lia.
Qed.

Lemma events_store_barcode i v s : events (store_barcode i v s) = [].
Proof. unfold store_barcode. now destruct (barcodes_ s !! i). Qed.

(** With no more rows than the table has room for, the loop does not
    report [CapacityExceeded]. *)
Lemma readBarcodes_lines_fits lines : forall i s,
  (i + length (data_lines lines) <= TOTAL_BARCODES)%nat ->
  CapacityExceeded ∉ events (readBarcodes_lines TOTAL_BARCODES lines i s).
Proof.
  induction lines as [|line rest IH]; intros i s Hfit.
  - cbn. apply not_elem_of_nil.
  - rewrite data_lines_cons in Hfit. destruct (is_comment line) eqn:Hc.
    + rewrite readBarcodes_lines_comment by assumption. auto.
    + cbn [length] in Hfit.
      rewrite readBarcodes_lines_cons by (assumption || lia).
      rewrite events_bind. cbn [lift result final events fst snd app].
      destruct (barcode_row line) as [v| |]; try apply not_elem_of_nil.
      rewrite events_bind, events_store_barcode. cbn [app].
      destruct (result (store_barcode i v s)); try apply not_elem_of_nil.
      apply IH. lia.
Qed.

Lemma readBarcodes_opened dataset lines s :
  dataset_ s <> EmptyString ->
  ifstream fs (dataset ++ "/Barcodes.dat") = Some lines ->
  readBarcodes TOTAL_BARCODES fs dataset s
  = (final (readBarcodes_lines TOTAL_BARCODES lines 0 s),
     Open (dataset ++ "/Barcodes.dat") :: events (readBarcodes_lines TOTAL_BARCODES lines 0 s),
     result (readBarcodes_lines TOTAL_BARCODES lines 0 s)).
Proof.
  intros Hd Hf. unfold readBarcodes.
  erewrite bind_silent by reflexivity.
  destruct (String.eqb_spec EmptyString (dataset_ s)) as [E|_]; [congruence|].
  now rewrite bind_open, Hf.
Qed.

End BarcodeLoader.

(** ** The landmark loader *)

Section LandmarkLoader.

Variable TOTAL_LANDMARKS : nat.
Variable stod : string -> outcome float.
Variable fs : FileSystem.

Lemma store_landmark_ok i set s l :
  landmarks_ s !! i = Some l ->
  store_landmark i set s = (set_landmarks (alter set i) s, [], Returned tt).
Proof. unfold store_landmark. now intros ->. Qed.

Lemma load_landmark_id_ok i s l :
  landmarks_ s !! i = Some l ->
  load_landmark_id i s = (s, [], Returned (Landmark.id l)).
Proof. unfold load_landmark_id. now intros ->. Qed.

Lemma load_barcode_ok k s b :
  at_index (barcodes_ s) k = Some b -> load_barcode k s = (s, [], Returned b).
Proof. unfold load_barcode. now intros ->. Qed.

Lemma lookup_set_landmarks i f s l :
  landmarks_ s !! i = Some l ->
  landmarks_ (set_landmarks (alter f i) s) !! i = Some (f l).
Proof. intros H. cbn. now rewrite list_lookup_alter_eq, H. Qed.

Lemma alter_as_insert {A} (f : A -> A) i (v : list A) a :
  v !! i = Some a -> alter f i v = <[i := f a]> v.
Proof.
  intros H. apply list_eq. intros j. destruct (decide (i = j)) as [<-|Hne].
  - rewrite list_lookup_alter_eq, H. cbn.
    symmetry. apply list_lookup_insert_eq. now apply lookup_lt_Some in H.
  - now rewrite list_lookup_alter_ne, list_lookup_insert_ne.
Qed.

Lemma readLandmarks_lines_comment line rest i :
  is_comment line = true ->
  readLandmarks_lines TOTAL_LANDMARKS stod (line :: rest) i
  = readLandmarks_lines TOTAL_LANDMARKS stod rest i.
Proof. intros Hc. cbn [readLandmarks_lines]. now rewrite Hc. Qed.

Lemma readLandmarks_lines_full line rest i s :
  is_comment line = false -> (TOTAL_LANDMARKS <= i)%nat ->
  readLandmarks_lines TOTAL_LANDMARKS stod (line :: rest) i s
  = (s, [LandmarkCapacityExceeded], Returned false).
Proof.
  intros Hc Hi. cbn [readLandmarks_lines]. rewrite Hc. now rewrite decide_True by assumption.
Qed.

(** A row whose id resolves to the barcode 0 ends the load, the id already
    written to the landmark under construction. *)
Lemma readLandmarks_lines_unresolved line rest i s l k :
  is_comment line = false -> (i < TOTAL_LANDMARKS)%nat ->
  landmarks_ s !! i = Some l ->
  landmark_id line = Returned k ->
  at_index (barcodes_ s) (k - 1) = Some 0 ->
  readLandmarks_lines TOTAL_LANDMARKS stod (line :: rest) i s
  = (set_landmarks (alter (Landmark.set_id k) i) s, [IntegrityError], Returned false).
Proof.
  intros Hc Hi Hl Hid Hb. cbn [readLandmarks_lines]. rewrite Hc.
  rewrite decide_False by lia. cbv zeta.
  unfold field. unfold landmark_id in Hid. rewrite Hid, bind_lift_returned.
  erewrite bind_silent by (eapply store_landmark_ok; eassumption).
  erewrite bind_silent
    by (eapply load_landmark_id_ok, lookup_set_landmarks; eassumption).
  erewrite bind_silent by (eapply load_barcode_ok; exact Hb).
  reflexivity.
Qed.

(** A row that converts and whose id resolves to a barcode other than 0
    fills landmark [i], and the loop goes on with the next. *)
Lemma readLandmarks_lines_resolved line rest i s l k b x y x_std_dev y_std_dev :
  is_comment line = false -> (i < TOTAL_LANDMARKS)%nat ->
  landmarks_ s !! i = Some l ->
  landmark_id line = Returned k ->
  at_index (barcodes_ s) (k - 1) = Some b -> b <> 0 ->
  landmark_reals stod line = Returned (x, y, x_std_dev, y_std_dev) ->
  readLandmarks_lines TOTAL_LANDMARKS stod (line :: rest) i s
  = readLandmarks_lines TOTAL_LANDMARKS stod rest (S i)
      (set_landmarks <[i := Landmark.mk k b x y x_std_dev y_std_dev]> s).
Proof.
  intros Hc Hi Hl Hid Hb Hnz Hreals. cbn [readLandmarks_lines]. rewrite Hc.
  rewrite decide_False by lia. cbv zeta.
  unfold field. unfold landmark_id in Hid. rewrite Hid, bind_lift_returned.
  unfold landmark_reals, text in Hreals. cbv zeta in Hreals.
  repeat match type of Hreals with
  | obind ?o _ = _ => destruct o as [?v| |] eqn:?; cbn [obind] in Hreals; try discriminate
  end.
  injection Hreals as -> -> -> ->.
  erewrite bind_silent by (eapply store_landmark_ok; eassumption).
  erewrite bind_silent
    by (eapply load_landmark_id_ok, lookup_set_landmarks; eassumption).
  erewrite bind_silent by (eapply load_barcode_ok; exact Hb).
  cbn [Landmark.id Landmark.set_id].
  destruct (Z.eqb_spec b 0) as [?|_]; [contradiction|].
  erewrite bind_silent
    by (eapply load_landmark_id_ok, lookup_set_landmarks; eassumption).
  erewrite bind_silent by (eapply load_barcode_ok; exact Hb).
  repeat first
    [ rewrite bind_lift_returned
    | erewrite bind_silent
        by (eapply store_landmark_ok; repeat (eapply lookup_set_landmarks); eassumption) ].
  f_equal. unfold set_landmarks. cbn [dataset_ barcodes_ landmarks_ robots_]. f_equal.
  rewrite !list_alter_alter_eq. now rewrite (alter_as_insert _ _ _ _ Hl).
Qed.

Lemma set_landmarks_ext f g s :
  f (landmarks_ s) = g (landmarks_ s) -> set_landmarks f s = set_landmarks g s.
Proof. unfold set_landmarks. now intros ->. Qed.

(** Rows that all convert and resolve, and that fit, are stored in file
    order from position [i] on, and the loop goes on behind them. *)
Lemma readLandmarks_lines_app lines rest : forall ls i s,
  Forall2 (resolves stod (barcodes_ s)) (data_lines lines) ls ->
  (i + length ls <= TOTAL_LANDMARKS)%nat ->
  (TOTAL_LANDMARKS <= length (landmarks_ s))%nat ->
  readLandmarks_lines TOTAL_LANDMARKS stod (lines ++ rest) i s
  = readLandmarks_lines TOTAL_LANDMARKS stod rest (i + length ls)
      (set_landmarks (fun v => take i v ++ ls ++ drop (i + length ls) v) s).
Proof.
  induction lines as [|line lines IH]; intros ls i s Hrows Hfit Hlen.
  - inversion Hrows; subst. cbn [app length]. rewrite Nat.add_0_r. f_equal.
    rewrite (set_landmarks_ext _ (fun v => v)); [now destruct s|].
    cbn [app]. apply take_drop.
  - rewrite data_lines_cons in Hrows. cbn [app]. destruct (is_comment line) eqn:Hc.
    + rewrite readLandmarks_lines_comment by assumption. auto.
    + inversion Hrows as [|? a ? ls' (Hid & Hb & Hnz & Hreals) Hrest]; subst.
      cbn [length] in Hfit.
      destruct (lookup_lt_is_Some_2 (landmarks_ s) i) as [l Hl]; [lia|].
      erewrite readLandmarks_lines_resolved by (eassumption || lia).
      rewrite (IH ls' (S i)); [ | exact Hrest | lia | cbn; rewrite length_insert; lia ].
      cbn [length]. replace (i + S (length ls'))%nat with (S i + length ls')%nat by lia.
      f_equal. unfold set_landmarks. cbn [dataset_ barcodes_ landmarks_ robots_]. f_equal.
      rewrite fill_insert by lia.
      replace (i + S (length ls'))%nat with (S i + length ls')%nat by lia. now destruct a.
Qed.

Lemma readLandmarks_lines_rows lines ls i s :
  Forall2 (resolves stod (barcodes_ s)) (data_lines lines) ls ->
  (i + length ls <= TOTAL_LANDMARKS)%nat ->
  (TOTAL_LANDMARKS <= length (landmarks_ s))%nat ->
  readLandmarks_lines TOTAL_LANDMARKS stod lines i s
  = (set_landmarks (fun v => take i v ++ ls ++ drop (i + length ls) v) s, [], Returned true).
Proof.
  intros Hrows Hfit Hlen. rewrite <- (app_nil_r lines).
  now rewrite (readLandmarks_lines_app lines [] ls) by assumption.
Qed.

(** The first row that names a surface without barcode ends the load, the
    rows before it stored. *)
Lemma readLandmarks_lines_first_unresolved lines line rest ls k s :
  Forall2 (resolves stod (barcodes_ s)) (data_lines lines) ls ->
  is_comment line = false ->
  landmark_id line = Returned k ->
  at_index (barcodes_ s) (k - 1) = Some 0 ->
  (length ls < TOTAL_LANDMARKS)%nat ->
  (TOTAL_LANDMARKS <= length (landmarks_ s))%nat ->
  readLandmarks_lines TOTAL_LANDMARKS stod (lines ++ line :: rest) 0 s
  = (set_landmarks (fun v => alter (Landmark.set_id k) (length ls) (ls ++ drop (length ls) v)) s,
     [IntegrityError], Returned false).
Proof.
  intros Hrows Hc Hid Hb Hfit Hlen.
  rewrite (readLandmarks_lines_app lines _ ls) by (assumption || cbn; lia).
  cbn [Nat.add take app].
  set (s1 := set_landmarks (fun v => ls ++ drop (length ls) v) s).
  destruct (lookup_lt_is_Some_2 (landmarks_ s1) (length ls)) as [l Hl].
  { subst s1. cbn [landmarks_ set_landmarks]. rewrite length_app, length_drop. lia. }
  now rewrite (readLandmarks_lines_unresolved _ _ _ _ l k Hc Hfit Hl Hid Hb).
Qed.

Lemma readLandmarks_opened dataset lines s :
  ifstream fs (dataset ++ "/Landmark_Groundtruth.dat") = Some lines ->
  readLandmarks TOTAL_LANDMARKS stod fs dataset s
  = (final (readLandmarks_lines TOTAL_LANDMARKS stod lines 0 s),
     Open (dataset ++ "/Landmark_Groundtruth.dat")
     :: events (readLandmarks_lines TOTAL_LANDMARKS stod lines 0 s),
     result (readLandmarks_lines TOTAL_LANDMARKS stod lines 0 s)).
Proof. intros Hf. unfold readLandmarks. now rewrite bind_open, Hf. Qed.

End LandmarkLoader.

(** ** The loaders of one robot *)

Section RobotLoaders.

Variable stod : string -> outcome float.
Variable fs : FileSystem.

Lemma readGroundTruth_lines_stable {X} (c : DataExtractor -> X) robot_id lines :
  (forall f s, c (with_robot robot_id (Robot.set_ground_truth f) s) = c s) ->
  stable c (readGroundTruth_lines stod robot_id lines).
Proof.
  intros Hc. induction lines as [|line rest IH]; cbn [readGroundTruth_lines]; cbv zeta.
  - apply stable_ret.
  - repeat stable_step; auto.
Qed.

Lemma readOdometry_lines_stable {X} (c : DataExtractor -> X) robot_id lines :
  (forall f s, c (with_robot robot_id (Robot.set_odometry f) s) = c s) ->
  stable c (readOdometry_lines stod robot_id lines).
Proof.
  intros Hc. induction lines as [|line rest IH]; cbn [readOdometry_lines]; cbv zeta.
  - apply stable_ret.
  - repeat stable_step; auto.
Qed.

Lemma readMeasurements_lines_stable {X} (c : DataExtractor -> X) robot_id lines :
  (forall f s, c (with_robot robot_id (Robot.set_measurements f) s) = c s) ->
  stable c (readMeasurements_lines stod robot_id lines).
Proof.
  intros Hc. induction lines as [|line rest IH]; cbn [readMeasurements_lines]; cbv zeta.
  - apply stable_ret.
  - repeat stable_step; auto.
Qed.

(** A loader that first resets a part of the robot and then only ever
    writes to that part gives the same on the object it left behind. *)
Lemma reload_same {A} robot_id (clear : Robot.t -> Robot.t) (rest : M A) s :
  (forall r, clear (clear r) = clear r) ->
  stable (with_robot robot_id clear) rest ->
  let load := (run update_robot robot_id clear then rest)%cpp in
  load (final (load s)) = load s.
Proof.
  intros Hclear Hrest load. subst load.
  destruct (at_index (robots_ s) robot_id) as [r|] eqn:Hr.
  - erewrite (bind_silent _ _ s) by (eapply update_robot_ok; eassumption).
    set (s0 := with_robot robot_id clear s).
    assert (Hs0 : with_robot robot_id clear (final (rest s0)) = s0).
    { rewrite Hrest. subst s0. rewrite with_robot_with_robot. now apply with_robot_ext. }
    assert (Hvalid : is_Some (at_index (robots_ (final (rest s0))) robot_id)).
    { apply (f_equal (fun x => at_index (robots_ x) robot_id)) in Hs0.
      rewrite at_index_with_robot in Hs0. subst s0.
      rewrite at_index_with_robot, Hr in Hs0.
      destruct (at_index (robots_ (final (rest (with_robot robot_id clear s)))) robot_id);
        [eauto | discriminate]. }
    destruct Hvalid as [r' Hr'].
    erewrite bind_silent by (eapply update_robot_ok; eassumption).
    now rewrite Hs0.
  - erewrite (bind_undefined _ _ s) by (eapply update_robot_undefined; eassumption).
    cbn [final fst]. erewrite bind_undefined by (eapply update_robot_undefined; eassumption).
    reflexivity.
Qed.

End RobotLoaders.

(** ** The measurement loader *)

Section MeasurementLoader.

Variable stod : string -> outcome float.
Variable fs : FileSystem.

(** The loop body of [readMeasurements] extracts the row, then aggregates. *)
Lemma readMeasurements_lines_cons robot_id line rest s :
  is_comment line = false ->
  readMeasurements_lines stod robot_id (line :: rest) s
  = bind (lift (measurement_row stod line)) (fun row =>
      run update_robot robot_id (Robot.set_measurements (fun v => aggregate_reading v row)) then
      readMeasurements_lines stod robot_id rest) s.
Proof.
  intros Hc. cbn [readMeasurements_lines]. rewrite Hc.
  unfold measurement_row, field, text. cbv zeta.
  repeat match goal with
  | |- context [lift (obind ?o ?c)] =>
      destruct (obind o c) eqn:?; cbn [obind];
      rewrite ?bind_lift_returned, ?bind_lift_thrown, ?bind_lift_undefined; try reflexivity
  end.
Qed.

Lemma readMeasurements_lines_comment robot_id line rest s :
  is_comment line = true ->
  readMeasurements_lines stod robot_id (line :: rest) s
  = readMeasurements_lines stod robot_id rest s.
Proof. intros Hc. cbn [readMeasurements_lines]. now rewrite Hc. Qed.

Lemma set_measurements_id r : Robot.set_measurements (fun v => v) r = r.
Proof. now destruct r as [[g o m]]. Qed.

(** Rows that all convert go through the aggregation in file order. *)
Lemma readMeasurements_lines_rows robot_id lines : forall rows s r,
  at_index (robots_ s) robot_id = Some r ->
  Forall2 (fun line row => measurement_row stod line = Returned row) (data_lines lines) rows ->
  readMeasurements_lines stod robot_id lines s
  = (with_robot robot_id (Robot.set_measurements (aggregate_all rows)) s, [], Returned true).
Proof.
  induction lines as [|line rest IH]; intros rows s r Hr Hrows.
  - inversion Hrows; subst. cbn [readMeasurements_lines]. unfold ret.
    now rewrite with_robot_id by apply set_measurements_id.
  - rewrite data_lines_cons in Hrows. destruct (is_comment line) eqn:Hc.
    + rewrite readMeasurements_lines_comment by assumption. eauto.
    + inversion Hrows as [|? row ? rows' Hrow Hrest]; subst.
      rewrite readMeasurements_lines_cons by assumption.
      rewrite Hrow, bind_lift_returned.
      erewrite bind_silent by (eapply update_robot_ok; eassumption).
      erewrite IH; [ | | eassumption ].
      2:{ rewrite at_index_with_robot, Hr. reflexivity. }
      rewrite with_robot_with_robot. reflexivity.
Qed.

Lemma readMeasurements_rows dataset robot_id lines rows s r :
  at_index (robots_ s) robot_id = Some r ->
  fstream fs (robot_file dataset robot_id "_Measurement.dat") = Some lines ->
  Forall2 (fun line row => measurement_row stod line = Returned row) (data_lines lines) rows ->
  readMeasurements stod fs dataset robot_id s
  = (with_robot robot_id (Robot.set_measurements (fun _ => aggregate_all rows [])) s,
     [Open (robot_file dataset robot_id "_Measurement.dat")], Returned true).
Proof.
  intros Hr Hf Hrows. unfold readMeasurements.
  erewrite bind_silent by (eapply update_robot_ok; eassumption).
  unfold open at 1. erewrite bind_returned by reflexivity. rewrite Hf.
  erewrite readMeasurements_lines_rows; [ | | eassumption ].
  2:{ rewrite at_index_with_robot, Hr. reflexivity. }
  unfold final, events, result. cbn [fst snd].
  rewrite with_robot_with_robot. reflexivity.
Qed.

End MeasurementLoader.

(** ** The load as a whole *)

Section Load.

Variables TOTAL_BARCODES TOTAL_LANDMARKS TOTAL_ROBOTS : nat.
Variable stod : string -> outcome float.
Variable fs : FileSystem.

Lemma readBarcodes_lines_stable {X} (c : DataExtractor -> X) lines : forall i,
  (forall f s, c (set_barcodes f s) = c s) ->
  stable c (readBarcodes_lines TOTAL_BARCODES lines i).
Proof.
  induction lines as [|line rest IH]; intros i Hc; cbn [readBarcodes_lines]; cbv zeta.
  - apply stable_ret.
  - repeat stable_step; auto.
Qed.

Lemma readLandmarks_lines_stable {X} (c : DataExtractor -> X) lines : forall i,
  (forall f s, c (set_landmarks f s) = c s) ->
  stable c (readLandmarks_lines TOTAL_LANDMARKS stod lines i).
Proof.
  induction lines as [|line rest IH]; intros i Hc; cbn [readLandmarks_lines]; cbv zeta.
  - apply stable_ret.
  - repeat stable_step; auto.
Qed.

Lemma readRobots_stable {X} (c : DataExtractor -> X) dataset n : forall i g o m,
  (forall f s, c (set_robots f s) = c s) ->
  stable c (readRobots stod fs dataset n i g o m).
Proof.
  induction n as [|n IH]; intros i g o m Hc; cbn [readRobots].
  - apply stable_ret.
  - unfold readGroundTruth, readOdometry, readMeasurements.
    repeat stable_step; auto;
      first [ apply readGroundTruth_lines_stable
            | apply readOdometry_lines_stable
            | apply readMeasurements_lines_stable
            | idtac ];
      intros; apply Hc.
Qed.

(** A load that got past the check of the path leaves that path in [dataset_]. *)
Lemma setDataSet_stores_dataset dataset s :
  stat_ok fs dataset = true ->
  dataset_ (final (setDataSet TOTAL_BARCODES TOTAL_LANDMARKS TOTAL_ROBOTS stod fs dataset s))
  = dataset.
Proof.
  intros Hstat. unfold setDataSet. rewrite Hstat.
  erewrite bind_silent by reflexivity.
  match goal with |- dataset_ (final (?m _)) = _ => assert (Hm : stable dataset_ m) end.
  { unfold readBarcodes, readLandmarks.
    repeat stable_step;
      auto using readBarcodes_lines_stable, readLandmarks_lines_stable, readRobots_stable.
    match goal with
    | correct : (bool * bool * bool)%type |- _ => destruct correct as [[g o] m]
    end.
    repeat stable_step. }
  now rewrite Hm.
Qed.

Lemma setDataSet_missing dataset s :
  stat_ok fs dataset = false ->
  setDataSet TOTAL_BARCODES TOTAL_LANDMARKS TOTAL_ROBOTS stod fs dataset s
  = (s, [], Thrown PathNotFound).
Proof. intros Hstat. unfold setDataSet. now rewrite Hstat. Qed.


(** A load returns only if its barcode load returned true. *)
Lemma setDataSet_returns_with_barcodes dataset s :
  result (setDataSet TOTAL_BARCODES TOTAL_LANDMARKS TOTAL_ROBOTS stod fs dataset s) = Returned tt ->
  stat_ok fs dataset = true
  /\ result (readBarcodes TOTAL_BARCODES fs dataset (set_dataset dataset s)) = Returned true.
Proof.
  unfold setDataSet. destruct (stat_ok fs dataset); [|discriminate].
  erewrite bind_silent by reflexivity. intros H. split; [reflexivity|].
  rewrite result_bind in H.
  destruct (result (readBarcodes TOTAL_BARCODES fs dataset (set_dataset dataset s)))
    as [[|]| |]; try discriminate; [reflexivity|].
  rewrite result_bind in H.
  destruct (result (readLandmarks _ _ _ _ _)) as [l| |]; try discriminate.
  rewrite result_bind in H.
  destruct (result (readRobots _ _ _ _ _ _ _ _ _)) as [[[g o] m]| |]; discriminate.
Qed.

End Load.

(** ** The accessors and the life of an object *)

Section Accessors.

Lemma accessors_unconfigured s :
  dataset_ s = EmptyString ->
  getBarcodes s = (s, [], Thrown UninitializedAccess)
  /\ getLandmarks s = (s, [], Thrown UninitializedAccess)
  /\ getRobots s = (s, [], Thrown UninitializedAccess).
Proof.
  intros Hd. unfold getBarcodes, getLandmarks, getRobots, bind, reads. now rewrite Hd.
Qed.

Lemma accessors_configured s :
  dataset_ s ≠ EmptyString ->
  getBarcodes s = (s, [], Returned (barcodes_ s))
  /\ getLandmarks s = (s, [], Returned (landmarks_ s))
  /\ getRobots s = (s, [], Returned (robots_ s)).
Proof.
  intros Hd. unfold getBarcodes, getLandmarks, getRobots, bind, reads.
  destruct (String.eqb_spec EmptyString (dataset_ s)) as [E|_]; [congruence|].
  repeat split.
Qed.

Lemma loads_missing_paths TOTAL_BARCODES TOTAL_LANDMARKS TOTAL_ROBOTS stod calls : forall s,
  Forall (fun call => stat_ok (fst call) (snd call) = false) calls ->
  loads TOTAL_BARCODES TOTAL_LANDMARKS TOTAL_ROBOTS stod calls s = s.
Proof.
  induction calls as [|[fs dataset] calls IH]; intros s Hcalls; [reflexivity|].
  inversion Hcalls as [|? ? Hstat Hrest]; subst. cbn [loads].
  rewrite setDataSet_missing by exact Hstat. now apply IH.
Qed.

End Accessors.

(** * The specification, claim by claim *)

(** C1: the measurement vector of a robot after [readMeasurements] is what
    the rows of the file build up one after the other; a row joins the first
    record, in insertion order, whose stored time lies in the inclusive
    window of 0.05 s around the row's time, by appending its subject, range
    and bearing and leaving the stored time alone; with no such record it is
    appended as a record of its own.  Rows at 10.00, 10.03 and 10.20 with
    subjects A, B, C give a record at 10.00 with subjects [A, B] and a record
    at 10.20 with subject [C].  (Every vector has a first record within the
    window or none, so the two cases are all there is.) *)
Theorem readMeasurements_merges_into_first_record_in_window :
  (forall stod fs dataset robot_id lines rows s r,
      at_index (robots_ s) robot_id = Some r ->
      fstream fs (robot_file dataset robot_id "_Measurement.dat") = Some lines ->
      Forall2 (fun line row => measurement_row stod line = Returned row) (data_lines lines) rows ->
      result (readMeasurements stod fs dataset robot_id s) = Returned true
      /\ at_index (robots_ (final (readMeasurements stod fs dataset robot_id s))) robot_id
         = Some (Robot.set_measurements (fun _ => aggregate_all rows []) r))
  /\ (forall rows time subject range bearing before r after,
      aggregate_all rows [] = before ++ r :: after ->
      (forall m, m ∈ before -> ~ in_window time (Measurement.time m)) ->
      in_window time (Measurement.time r) ->
      aggregate_all (rows ++ [(time, subject, range, bearing)]) []
      = before
        ++ Measurement.mk (Measurement.time r)
             (Measurement.subjects r ++ [subject])
             (Measurement.ranges r ++ [range])
             (Measurement.bearings r ++ [bearing])
        :: after)
  /\ (forall rows time subject range bearing,
      (forall m, m ∈ aggregate_all rows [] -> ~ in_window time (Measurement.time m)) ->
      aggregate_all (rows ++ [(time, subject, range, bearing)]) []
      = aggregate_all rows [] ++ [Measurement.mk time [subject] [range] [bearing]])
  /\ (forall time (v : list Measurement.t),
      (exists before r after,
          v = before ++ r :: after
          /\ (forall m, m ∈ before -> ~ in_window time (Measurement.time m))
          /\ in_window time (Measurement.time r))
      \/ (forall m, m ∈ v -> ~ in_window time (Measurement.time m)))
  /\ (forall A B C r1 r2 r3 b1 b2 b3,
      aggregate_all [row 10.00 A r1 b1; row 10.03 B r2 b2; row 10.20 C r3 b3] []
      = [Measurement.mk 10.00 [A; B] [r1; r2] [b1; b2];
         Measurement.mk 10.20 [C] [r3] [b3]]).
Proof.
  split; [|split; [|split; [|split; [exact first_in_window_or_none|]]]].
  - intros stod fs dataset robot_id lines rows s r Hr Hf Hrows.
    rewrite (readMeasurements_rows stod fs dataset robot_id lines rows s r Hr Hf Hrows).
    split; [reflexivity|].
    unfold final. cbn [fst snd]. now rewrite at_index_with_robot, Hr.
  - intros rows time subject range bearing before r after Hv Hb Hr.
    rewrite aggregate_all_snoc, Hv. cbn [aggregate_reading].
    apply aggregate_merge; [now apply outside_window | now apply within_window_true].
  - intros rows time subject range bearing Hv.
    rewrite aggregate_all_snoc. cbn [aggregate_reading].
    now apply aggregate_new, outside_window.
  - intros. vm_compute. reflexivity.
Qed.

Lemma readMeasurements_merges_into_first_record_in_window_witness :
  (result (readMeasurements Strtod.stod three_readings "ds" 0 (blank "ds" 20 15 5)) = Returned true
   /\ at_index (robots_ (final (readMeasurements Strtod.stod three_readings "ds" 0 (blank "ds" 20 15 5)))) 0
      = Some (Robot.mk (Robot.mkRaw [] []
                [Measurement.mk 10.00 [5; 14] [1.5; 2.5]%float [0.25; -0.5]%float;
                 Measurement.mk 10.20 [7] [3.25%float] [0.125%float]])))
  /\ aggregate_all ([row 10.00 5 1.5 0.25] ++ [row 10.03 14 2.5 (-0.5)]) []
     = [] ++ [Measurement.mk 10.00 [5; 14] [1.5; 2.5]%float [0.25; -0.5]%float]
  /\ aggregate_all ([row 10.00 5 1.5 0.25] ++ [row 10.20 7 3.25 0.125]) []
     = [Measurement.mk 10.00 [5] [1.5%float] [0.25%float];
        Measurement.mk 10.20 [7] [3.25%float] [0.125%float]].
Proof.
  pose proof readMeasurements_merges_into_first_record_in_window
    as (Hfile & Hmerge & Hnew & _ & _).
  split; [|split].
  - apply (Hfile Strtod.stod three_readings "ds"%string 0
             ["# Time [s]    Subject #    range [m]    bearing [rad]"%string;
              tabbed ["10.00"; "5"; "1.5"; "0.25"]%string;
              tabbed ["10.03"; "14"; "2.5"; "-0.5"]%string;
              tabbed ["10.20"; "7"; "3.25"; "0.125"]%string]
             [row 10.00 5 1.5 0.25; row 10.03 14 2.5 (-0.5); row 10.20 7 3.25 0.125]
             (blank "ds" 20 15 5) (Robot.mk (Robot.mkRaw [] [] []))).
    + reflexivity.
    + reflexivity.
    + rows_convert.
  - apply (Hmerge [row 10.00 5 1.5 0.25] 10.03%float 14 2.5%float (-0.5)%float
             [] (Measurement.mk 10.00 [5] [1.5%float] [0.25%float]) []).
    + reflexivity.
    + intros m Hm. inversion Hm.
    + split; reflexivity.
  - apply (Hnew [row 10.00 5 1.5 0.25] 10.20%float 7 3.25%float 0.125%float).
    intros m Hm [H _]. vm_compute in Hm.
    apply list_elem_of_singleton in Hm. subst m. vm_compute in H. discriminate H.
Defined.

(** C2, as the code has it: the accessors test whether a dataset path has
    been stored, not whether a load succeeded.  On an object whose loads, if
    any, all stopped at a path that does not exist, each of [getBarcodes],
    [getLandmarks] and [getRobots] throws [UninitializedAccess]; after a load
    that got past the check of its path they return the tables, whether or
    not that load went on to succeed. *)
Theorem accessors_fail_until_a_dataset_path_is_stored
    TOTAL_BARCODES TOTAL_LANDMARKS TOTAL_ROBOTS stod :
  (forall calls s,
      dataset_ s = EmptyString ->
      Forall (fun call => stat_ok (fst call) (snd call) = false) calls ->
      let s' := loads TOTAL_BARCODES TOTAL_LANDMARKS TOTAL_ROBOTS stod calls s in
      getBarcodes s' = (s', [], Thrown UninitializedAccess)
      /\ getLandmarks s' = (s', [], Thrown UninitializedAccess)
      /\ getRobots s' = (s', [], Thrown UninitializedAccess))
  /\ (forall fs dataset s,
      stat_ok fs dataset = true ->
      dataset ≠ EmptyString ->
      let s' := final (setDataSet TOTAL_BARCODES TOTAL_LANDMARKS TOTAL_ROBOTS stod fs dataset s) in
      getBarcodes s' = (s', [], Returned (barcodes_ s'))
      /\ getLandmarks s' = (s', [], Returned (landmarks_ s'))
      /\ getRobots s' = (s', [], Returned (robots_ s'))).
Proof.
  split.
  - intros calls s Hd Hcalls s'. subst s'. rewrite loads_missing_paths by assumption.
    now apply accessors_unconfigured.
  - intros fs dataset s Hstat Hd s'. apply accessors_configured. subst s'.
    now rewrite setDataSet_stores_dataset.
Qed.

Lemma accessors_fail_until_a_dataset_path_is_stored_witness :
  (let s' := loads 20 15 5 Strtod.stod [(empty_directory, "elsewhere"%string)]
               (blank EmptyString 20 15 5) in
   getBarcodes s' = (s', [], Thrown UninitializedAccess)
   /\ getLandmarks s' = (s', [], Thrown UninitializedAccess)
   /\ getRobots s' = (s', [], Thrown UninitializedAccess))
  /\ (let s' := final (setDataSet 20 15 5 Strtod.stod empty_directory "ds" (blank EmptyString 20 15 5)) in
      getBarcodes s' = (s', [], Returned (barcodes_ s'))
      /\ getLandmarks s' = (s', [], Returned (landmarks_ s'))
      /\ getRobots s' = (s', [], Returned (robots_ s'))).
Proof.
  pose proof (accessors_fail_until_a_dataset_path_is_stored 20 15 5 Strtod.stod) as [Hnone Hsome].
  split.
  - apply Hnone; [reflexivity|]. repeat constructor.
  - apply Hsome; [reflexivity | discriminate].
Defined.

(** C2 as stated fails: a load that found its directory but none of the
    files throws, and on the object it leaves the three accessors return the
    tables instead of throwing [UninitializedAccess]. *)
Lemma accessors_return_after_a_failed_load :
  let load := setDataSet 20 15 5 Strtod.stod empty_directory "ds" (blank EmptyString 20 15 5) in
  result load = Thrown LoadFailed
  /\ result (getBarcodes (final load)) = Returned (replicate 20 0)
  /\ result (getLandmarks (final load)) = Returned (replicate 15 (Landmark.mk 0 0 0 0 0 0))
  /\ result (getRobots (final load)) = Returned (replicate 5 (Robot.mk (Robot.mkRaw [] [] []))).
Proof. vm_compute. repeat split. Qed.




(** C4, as the code has it: a barcode row is read after its first tab, so
    the rows of the example are [1 TAB 10] and [2 TAB 20].  With these and
    the landmark row [1 TAB 2.0 TAB 3.0 TAB 0.1 TAB 0.1] both loads return
    true and the landmark table starts with Landmark{id=1, barcode=10, x=2.0,
    y=3.0, x_std_dev=0.1, y_std_dev=0.1}, the other positions as they were.
    For any barcode source whose rows convert and are at most
    [TOTAL_BARCODES], the table holds the values of the rows in file order
    from position 0 on, the positions after them as they were; rows
    [subject TAB barcode], with no tab in the subject and the barcode an
    [int], are such rows, and the table then holds their barcodes. *)
Theorem barcode_and_landmark_tables_follow_the_files
    TOTAL_BARCODES TOTAL_LANDMARKS stod fs dataset s :
  dataset_ s <> EmptyString ->
  (TOTAL_BARCODES <= length (barcodes_ s))%nat ->
  (TOTAL_LANDMARKS <= length (landmarks_ s))%nat ->
  ((2 <= TOTAL_BARCODES)%nat -> (1 <= TOTAL_LANDMARKS)%nat ->
   ifstream fs (dataset ++ "/Barcodes.dat") = Some two_barcodes ->
   ifstream fs (dataset ++ "/Landmark_Groundtruth.dat") = Some one_landmark ->
   stod (TAB ++ "2.0" ++ TAB)%string = Returned 2%float ->
   stod (TAB ++ "3.0" ++ TAB ++ "0.1" ++ TAB)%string = Returned 3%float ->
   stod (TAB ++ "0.1" ++ TAB ++ "0.1")%string = Returned 0.1%float ->
   stod (TAB ++ "0.1")%string = Returned 0.1%float ->
   let barcodes := readBarcodes TOTAL_BARCODES fs dataset s in
   let landmarks := readLandmarks TOTAL_LANDMARKS stod fs dataset (final barcodes) in
   result barcodes = Returned true
   /\ result landmarks = Returned true
   /\ barcodes_ (final landmarks) = 10 :: 20 :: drop 2 (barcodes_ s)
   /\ landmarks_ (final landmarks)
      = Landmark.mk 1 10 2.0 3.0 0.1 0.1 :: drop 1 (landmarks_ s))
  /\ (forall lines vs,
        ifstream fs (dataset ++ "/Barcodes.dat") = Some lines ->
        Forall2 (fun line v => barcode_row line = Returned v) (data_lines lines) vs ->
        (length vs <= TOTAL_BARCODES)%nat ->
        readBarcodes TOTAL_BARCODES fs dataset s
        = (set_barcodes (fun b => vs ++ drop (length vs) b) s,
           [Open (dataset ++ "/Barcodes.dat")], Returned true))
  /\ (forall rows,
        ifstream fs (dataset ++ "/Barcodes.dat") = Some (List.map barcode_line rows) ->
        Forall well_formed_barcode_row rows ->
        (length rows <= TOTAL_BARCODES)%nat ->
        readBarcodes TOTAL_BARCODES fs dataset s
        = (set_barcodes (fun b => List.map snd rows ++ drop (length rows) b) s,
           [Open (dataset ++ "/Barcodes.dat")], Returned true)).
Proof.
  intros Hd Hlen Hlen'.
  assert (Hgeneral : forall lines vs,
        ifstream fs (dataset ++ "/Barcodes.dat") = Some lines ->
        Forall2 (fun line v => barcode_row line = Returned v) (data_lines lines) vs ->
        (length vs <= TOTAL_BARCODES)%nat ->
        readBarcodes TOTAL_BARCODES fs dataset s
        = (set_barcodes (fun b => vs ++ drop (length vs) b) s,
           [Open (dataset ++ "/Barcodes.dat")], Returned true)).
  { intros lines vs Hf Hrows Hfit.
    rewrite (readBarcodes_opened _ _ _ lines) by assumption.
    rewrite (readBarcodes_lines_rows _ lines vs) by (assumption || lia).
    reflexivity. }
  split; [|split; [exact Hgeneral|]].
  2:{ intros rows Hf Hrows Hfit.
      rewrite (Hgeneral _ (List.map snd rows) Hf);
        [ now rewrite length_map
        | now apply well_formed_barcode_rows_convert
        | now rewrite length_map ]. }
  intros H2 H1 Hfb Hfl Hx Hy Hxs Hys barcodes landmarks.
  assert (Hb : barcodes
               = (set_barcodes (fun b => [10; 20] ++ drop 2 b) s,
                  [Open (dataset ++ "/Barcodes.dat")], Returned true)).
  { apply (Hgeneral two_barcodes [10; 20]); [assumption| |cbn; lia].
    repeat constructor. }
  subst landmarks. rewrite Hb. cbn [final fst snd].
  rewrite (readLandmarks_opened _ _ _ _ one_landmark) by assumption.
  rewrite (readLandmarks_lines_rows _ _ one_landmark [Landmark.mk 1 10 2.0 3.0 0.1 0.1]).
  - cbn [final result fst snd barcodes_ landmarks_ set_landmarks set_barcodes app length].
    repeat split. 
  - constructor; [|constructor]. unfold resolves.
    cbn [Landmark.id Landmark.barcode Landmark.x Landmark.y
           Landmark.x_std_dev Landmark.y_std_dev].
    split; [reflexivity|]. split; [reflexivity|]. split; [discriminate|].
    vm_compute in Hx, Hy, Hxs, Hys. unfold landmark_reals, text. vm_compute.
    rewrite Hx, Hy, Hxs, Hys. reflexivity.
  - cbn. lia.
  - cbn [landmarks_ set_barcodes]. lia.
Qed.

Lemma barcode_and_landmark_tables_follow_the_files_witness :
  (let barcodes := readBarcodes 20 example_dataset "ds" (blank "ds" 20 15 5) in
   let landmarks := readLandmarks 15 Strtod.stod example_dataset "ds" (final barcodes) in
   result barcodes = Returned true
   /\ result landmarks = Returned true
   /\ barcodes_ (final landmarks) = 10 :: 20 :: drop 2 (barcodes_ (blank "ds" 20 15 5))
   /\ landmarks_ (final landmarks)
      = Landmark.mk 1 10 2.0 3.0 0.1 0.1 :: drop 1 (landmarks_ (blank "ds" 20 15 5)))
  /\ readBarcodes 20 example_dataset "ds" (blank "ds" 20 15 5)
     = (set_barcodes (fun b => [10; 20] ++ drop (length [10; 20]) b) (blank "ds" 20 15 5),
        [Open ("ds" ++ "/Barcodes.dat")], Returned true)
  /\ readBarcodes 20 example_dataset "ds" (blank "ds" 20 15 5)
     = (set_barcodes (fun b => List.map snd [("1"%string, 10); ("2"%string, 20)]
                               ++ drop (length [("1"%string, 10); ("2"%string, 20)]) b)
          (blank "ds" 20 15 5),
        [Open ("ds" ++ "/Barcodes.dat")], Returned true).
Proof.
  pose proof (barcode_and_landmark_tables_follow_the_files 20 15 Strtod.stod example_dataset
                "ds"%string (blank "ds" 20 15 5)) as H.
  destruct H as (Hexample & Hgeneral & Hrows);
    [discriminate | vm_compute; lia | vm_compute; lia |].
  split; [|split].
  - apply Hexample; solve [ lia | reflexivity | vm_compute; reflexivity ].
  - apply (Hgeneral two_barcodes [10; 20]); [reflexivity | rows_convert | cbn; lia].
  - apply (Hrows [("1"%string, 10); ("2"%string, 20)]); [reflexivity | | cbn; lia].
    repeat constructor; vm_compute; congruence.
Defined.

(** C4 as stated fails: on barcode rows that hold the barcode alone, [10]
    and [20], the barcode load throws at the first row, nothing stored, and
    with it the load as a whole. *)
Lemma barcode_rows_without_a_tab_throw :
  readBarcodes 20 bare_barcodes "ds" (blank "ds" 20 15 5)
  = (blank "ds" 20 15 5, [Open "ds/Barcodes.dat"], Thrown std_out_of_range)
  /\ setDataSet 20 15 5 Strtod.stod bare_barcodes "ds" (blank EmptyString 20 15 5)
     = (blank "ds" 20 15 5, [Open "ds/Barcodes.dat"], Thrown std_out_of_range).
Proof. split; vm_compute; reflexivity. Qed.

(** C5: at a landmark row whose id converts to [k], with the barcode table
    holding [b] at position [k - 1]: if [b] is zero the landmark load fails
    with [IntegrityError]; otherwise, the rest of the row converting, the
    landmark takes [b] as its barcode and is stored at the position of the row
    among the rows of the file, and the load goes on with the next row.  So a
    file whose rows all resolve fills the table in file order, and the first
    row that finds a zero ends the load with [IntegrityError], the rows
    before it stored. *)
Theorem landmark_rows_resolve_their_barcodes TOTAL_LANDMARKS stod :
  (forall line rest i s l k b,
      is_comment line = false ->
      (i < TOTAL_LANDMARKS)%nat ->
      landmarks_ s !! i = Some l ->
      landmark_id line = Returned k ->
      at_index (barcodes_ s) (k - 1) = Some b ->
      (b = 0 ->
       readLandmarks_lines TOTAL_LANDMARKS stod (line :: rest) i s
       = (set_landmarks (alter (Landmark.set_id k) i) s, [IntegrityError], Returned false))
      /\ (b <> 0 ->
          forall x y x_std_dev y_std_dev,
            landmark_reals stod line = Returned (x, y, x_std_dev, y_std_dev) ->
            readLandmarks_lines TOTAL_LANDMARKS stod (line :: rest) i s
            = readLandmarks_lines TOTAL_LANDMARKS stod rest (S i)
                (set_landmarks <[i := Landmark.mk k b x y x_std_dev y_std_dev]> s)))
  /\ (forall fs dataset s lines ls,
      ifstream fs (dataset ++ "/Landmark_Groundtruth.dat") = Some lines ->
      (TOTAL_LANDMARKS <= length (landmarks_ s))%nat ->
      Forall2 (resolves stod (barcodes_ s)) (data_lines lines) ls ->
      (length ls <= TOTAL_LANDMARKS)%nat ->
      readLandmarks TOTAL_LANDMARKS stod fs dataset s
      = (set_landmarks (fun v => ls ++ drop (length ls) v) s,
         [Open (dataset ++ "/Landmark_Groundtruth.dat")], Returned true))
  /\ (forall fs dataset s lines line rest ls k,
      ifstream fs (dataset ++ "/Landmark_Groundtruth.dat") = Some (lines ++ line :: rest) ->
      (TOTAL_LANDMARKS <= length (landmarks_ s))%nat ->
      Forall2 (resolves stod (barcodes_ s)) (data_lines lines) ls ->
      (length ls < TOTAL_LANDMARKS)%nat ->
      is_comment line = false ->
      landmark_id line = Returned k ->
      at_index (barcodes_ s) (k - 1) = Some 0 ->
      readLandmarks TOTAL_LANDMARKS stod fs dataset s
      = (set_landmarks
           (fun v => alter (Landmark.set_id k) (length ls) (ls ++ drop (length ls) v)) s,
         [Open (dataset ++ "/Landmark_Groundtruth.dat"); IntegrityError], Returned false)).
Proof.
  split; [|split].
  - intros line rest i s l k b Hc Hi Hl Hid Hb. split.
    + intros ->. eapply readLandmarks_lines_unresolved; eassumption.
    + intros Hnz x y x_std_dev y_std_dev Hreals.
      eapply readLandmarks_lines_resolved; eassumption.
  - intros fs dataset s lines ls Hf Hlen Hrows Hfit.
    rewrite (readLandmarks_opened _ _ _ _ lines) by assumption.
    now rewrite (readLandmarks_lines_rows _ _ lines ls) by (assumption || cbn; lia).
  - intros fs dataset s lines line rest ls k Hf Hlen Hrows Hfit Hc Hid Hb.
    rewrite (readLandmarks_opened _ _ _ _ (lines ++ line :: rest)) by assumption.
    now rewrite (readLandmarks_lines_first_unresolved _ _ lines line rest ls k) by assumption.
Qed.

Lemma landmark_rows_resolve_their_barcodes_witness :
  let s := set_barcodes (fun _ => [10; 20; 0]) (blank "ds" 3 2 1) in
  let fs := file_system ["ds"%string]
              [("ds/Landmark_Groundtruth.dat"%string, unresolved_landmark)] in
  (readLandmarks_lines 2 Strtod.stod unresolved_landmark 0 s
   = readLandmarks_lines 2 Strtod.stod (drop 1 unresolved_landmark) 1
       (set_landmarks <[O := Landmark.mk 1 10 2.0 3.0 0.1 0.1]> s))
  /\ (readLandmarks_lines 2 Strtod.stod (drop 1 unresolved_landmark) 1
        (set_landmarks <[O := Landmark.mk 1 10 2.0 3.0 0.1 0.1]> s)
      = (set_landmarks (alter (Landmark.set_id 3) 1%nat)
           (set_landmarks <[O := Landmark.mk 1 10 2.0 3.0 0.1 0.1]> s),
         [IntegrityError], Returned false))
  /\ (readLandmarks 2 Strtod.stod example_dataset "ds" s
      = (set_landmarks (fun v => [Landmark.mk 1 10 2.0 3.0 0.1 0.1]
                                 ++ drop (length [Landmark.mk 1 10 2.0 3.0 0.1 0.1]) v) s,
         [Open ("ds" ++ "/Landmark_Groundtruth.dat")], Returned true))
  /\ (readLandmarks 2 Strtod.stod fs "ds" s
      = (set_landmarks
           (fun v => alter (Landmark.set_id 3) (length [Landmark.mk 1 10 2.0 3.0 0.1 0.1])
                       ([Landmark.mk 1 10 2.0 3.0 0.1 0.1]
                        ++ drop (length [Landmark.mk 1 10 2.0 3.0 0.1 0.1]) v)) s,
         [Open ("ds" ++ "/Landmark_Groundtruth.dat"); IntegrityError], Returned false)).
Proof.
  intros s fs.
  pose proof (landmark_rows_resolve_their_barcodes 2 Strtod.stod) as (Hrow & Hfile & Hfirst).
  split; [|split; [|split]].
  - apply (proj2 (Hrow (tabbed ["1"; "2.0"; "3.0"; "0.1"; "0.1"]%string)
                    (drop 1 unresolved_landmark) O s (Landmark.mk 0 0 0 0 0 0) 1 10
                    eq_refl ltac:(lia) eq_refl eq_refl eq_refl));
      [discriminate | vm_compute; reflexivity].
  - apply (proj1 (Hrow (tabbed ["3"; "4.5"; "5.5"; "0.1"; "0.1"]%string)
                    [] 1%nat (set_landmarks <[O := Landmark.mk 1 10 2.0 3.0 0.1 0.1]> s)
                    (Landmark.mk 0 0 0 0 0 0) 3 0
                    eq_refl ltac:(lia) eq_refl eq_refl eq_refl)).
    reflexivity.
  - apply (Hfile example_dataset "ds"%string s one_landmark [Landmark.mk 1 10 2.0 3.0 0.1 0.1]);
      [reflexivity | vm_compute; lia | | cbn; lia].
    constructor; [|constructor]. repeat split; try (vm_compute; congruence).
  - apply (Hfirst fs "ds"%string s one_landmark
             (tabbed ["3"; "4.5"; "5.5"; "0.1"; "0.1"]%string) []
             [Landmark.mk 1 10 2.0 3.0 0.1 0.1] 3);
      [reflexivity | vm_compute; lia | | cbn; lia | reflexivity | reflexivity | reflexivity].
    constructor; [|constructor]. repeat split; try (vm_compute; congruence).
Defined.

(** C6: a barcode source with more rows than [TOTAL_BARCODES] makes the
    barcode load fail with [CapacityExceeded], once the table is full of the
    rows before, and the load as a whole does not return; a source with at
    most [TOTAL_BARCODES] rows never makes the barcode load report
    [CapacityExceeded]. *)
Theorem barcode_source_beyond_capacity
    TOTAL_BARCODES TOTAL_LANDMARKS TOTAL_ROBOTS stod fs dataset s lines :
  stat_ok fs dataset = true ->
  dataset <> EmptyString ->
  ifstream fs (dataset ++ "/Barcodes.dat") = Some lines ->
  (TOTAL_BARCODES <= length (barcodes_ s))%nat ->
  let barcodes := readBarcodes TOTAL_BARCODES fs dataset (set_dataset dataset s) in
  let load := setDataSet TOTAL_BARCODES TOTAL_LANDMARKS TOTAL_ROBOTS stod fs dataset s in
  ((TOTAL_BARCODES < length (data_lines lines))%nat ->
   result load <> Returned tt
   /\ forall vs,
       Forall2 (fun line v => barcode_row line = Returned v)
         (take TOTAL_BARCODES (data_lines lines)) vs ->
       barcodes
       = (set_barcodes (fun b => vs ++ drop TOTAL_BARCODES b) (set_dataset dataset s),
          [Open (dataset ++ "/Barcodes.dat"); CapacityExceeded], Returned false)
       /\ CapacityExceeded ∈ events load)
  /\ ((length (data_lines lines) <= TOTAL_BARCODES)%nat ->
      CapacityExceeded ∉ events barcodes).
Proof.
  intros Hstat Hd Hf Hlen barcodes load.
  assert (Hb : barcodes
               = (final (readBarcodes_lines TOTAL_BARCODES lines 0 (set_dataset dataset s)),
                  Open (dataset ++ "/Barcodes.dat")
                  :: events (readBarcodes_lines TOTAL_BARCODES lines 0 (set_dataset dataset s)),
                  result (readBarcodes_lines TOTAL_BARCODES lines 0 (set_dataset dataset s))))
    by now apply readBarcodes_opened.
  split.
  - intros Hmore. split.
    + intros Hload. apply setDataSet_returns_with_barcodes in Hload as [_ Hload].
      fold barcodes in Hload. rewrite Hb in Hload.
      now apply readBarcodes_lines_too_many in Hload; [|lia|lia].
    + intros vs Hrows.
      assert (Hb' : barcodes
                    = (set_barcodes (fun b => vs ++ drop TOTAL_BARCODES b) (set_dataset dataset s),
                       [Open (dataset ++ "/Barcodes.dat"); CapacityExceeded], Returned false)).
      { rewrite Hb. rewrite (readBarcodes_lines_exceeds _ lines vs);
          [reflexivity | now rewrite Nat.sub_0_r | lia | lia | exact Hlen]. }
      split; [exact Hb'|].
      subst load. unfold setDataSet. rewrite Hstat.
      erewrite bind_silent by reflexivity. rewrite events_bind.
      fold barcodes. rewrite Hb'. cbn [events fst snd].
      apply elem_of_app. left. apply elem_of_cons. right. apply elem_of_cons. now left.
  - intros Hfit. rewrite Hb. cbn [events fst snd]. intros Hin.
    apply elem_of_cons in Hin as [Hin|Hin]; [discriminate|].
    now apply readBarcodes_lines_fits in Hin.
Qed.

Lemma barcode_source_beyond_capacity_witness :
  result (setDataSet 20 15 5 Strtod.stod overfull "ds" (blank EmptyString 20 15 5)) <> Returned tt
  /\ readBarcodes 20 overfull "ds" (set_dataset "ds" (blank EmptyString 20 15 5))
     = (set_barcodes (fun b => List.map (fun k => k + 4) (List.map Z.of_nat (seq 1 20)) ++ drop 20 b)
          (set_dataset "ds" (blank EmptyString 20 15 5)),
        [Open "ds/Barcodes.dat"; CapacityExceeded], Returned false).
Proof.
  pose proof (barcode_source_beyond_capacity 20 15 5 Strtod.stod overfull "ds"%string
                (blank EmptyString 20 15 5)
                ("# Subject #    Barcode #"%string
                 :: List.map (fun k => tabbed [Str.to_string k; Str.to_string (k + 4)])
                      (List.map Z.of_nat (seq 1 21)))) as H.
  destruct H as [Hmore _]; [reflexivity | discriminate | reflexivity | vm_compute; lia |].
  destruct Hmore as [Hload Hrows]; [vm_compute; lia|].
  split; [exact Hload|].
  apply (Hrows (List.map (fun k => k + 4) (List.map Z.of_nat (seq 1 20)))).
  rows_convert.
Defined.

(** C7: invoking a per-robot sub-loader a second time, on the object the
    first invocation left and with the same files, gives the same object,
    the same outcome and the same events as the first invocation: the target
    sequence is cleared and repopulated, never added to. *)
Theorem sub_loaders_reload_idempotent stod fs dataset robot_id s :
  readGroundTruth stod fs dataset robot_id (final (readGroundTruth stod fs dataset robot_id s))
  = readGroundTruth stod fs dataset robot_id s
  /\ readOdometry stod fs dataset robot_id (final (readOdometry stod fs dataset robot_id s))
     = readOdometry stod fs dataset robot_id s
  /\ readMeasurements stod fs dataset robot_id (final (readMeasurements stod fs dataset robot_id s))
     = readMeasurements stod fs dataset robot_id s.
Proof.
  split; [|split].
  - unfold readGroundTruth. apply reload_same; [now intros [[g o m]]|].
    repeat stable_step. apply readGroundTruth_lines_stable.
    intros f s'. rewrite with_robot_with_robot. now apply with_robot_ext.
  - unfold readOdometry. apply reload_same; [now intros [[g o m]]|].
    repeat stable_step. apply readOdometry_lines_stable.
    intros f s'. rewrite with_robot_with_robot. now apply with_robot_ext.
  - unfold readMeasurements. apply reload_same; [now intros [[g o m]]|].
    repeat stable_step. apply readMeasurements_lines_stable.
    intros f s'. rewrite with_robot_with_robot. now apply with_robot_ext.
Qed.

(** C8: a load on a dataset path that does not exist throws [PathNotFound]
    with nothing done: no file is opened, nothing is reported, and the
    object, its tables and its stored dataset path, is as it was. *)
Theorem setDataSet_missing_path_changes_nothing
    TOTAL_BARCODES TOTAL_LANDMARKS TOTAL_ROBOTS stod fs dataset s :
  stat_ok fs dataset = false ->
  setDataSet TOTAL_BARCODES TOTAL_LANDMARKS TOTAL_ROBOTS stod fs dataset s
  = (s, [], Thrown PathNotFound).
Proof. apply setDataSet_missing. Qed.

Lemma setDataSet_missing_path_changes_nothing_witness :
  setDataSet 20 15 5 Strtod.stod empty_directory "elsewhere" loaded_once
  = (loaded_once, [], Thrown PathNotFound).
Proof. apply setDataSet_missing_path_changes_nothing. reflexivity. Defined.

(** C9, as the code has it: before the fields are extracted a loader removes
    from the line the space characters and nothing else.  With [kept] the
    characters of the line other than [' '], in their order, each of the
    five loops extracts its fields from [kept]: the texts that it hands to
    [std::stoi] and [std::stod] are cut from [kept], so that a tab, a
    carriage return or any other character that is no space is in the text
    converted when it is in the field.  A loader reads a line as it reads
    the same line without its spaces. *)
Theorem loaders_remove_spaces_only
    TOTAL_BARCODES TOTAL_LANDMARKS stod robot_id line rest :
  let kept :=
    string_of_list_ascii
      (List.filter (fun a => negb (Ascii.eqb a space)) (list_ascii_of_string line)) in
  list_ascii_of_string (Str.erase_remove space line)
  = List.filter (fun a => negb (Ascii.eqb a space)) (list_ascii_of_string line)
  /\ (is_comment line = false ->
      (forall i,
          readBarcodes_lines TOTAL_BARCODES (line :: rest) i
          = if decide (TOTAL_BARCODES <= i)%nat then
              run emit (Cerr ExceedsTotalBarcodes) then ret false
            else
              let* v := field Conv.stoi kept (Str.find kept tab 0) Str.npos in
              run store_barcode i v then
              readBarcodes_lines TOTAL_BARCODES rest (S i))
      /\ (forall i,
          readLandmarks_lines TOTAL_LANDMARKS stod (line :: rest) i
          = if decide (TOTAL_LANDMARKS <= i)%nat then
              run emit (Cerr ExceedsTotalLandmarks) then ret false
            else
              let e0 := Str.find kept tab 0 in
              let e1 := next_tab kept e0 in
              let e2 := next_tab kept e1 in
              let e3 := next_tab kept e2 in
              let e4 := next_tab kept e3 in
              let* v := field Conv.stoi kept 0 e0 in
              run store_landmark i (Landmark.set_id v) then
              let* id := load_landmark_id i in
              let* b := load_barcode (id - 1) in
              if b =? 0 then
                run emit (Cerr BarcodesNotCorrectlySet) then ret false
              else
                let* id := load_landmark_id i in
                let* b := load_barcode (id - 1) in
                run store_landmark i (Landmark.set_barcode b) then
                let* v := field stod kept e0 e1 in
                run store_landmark i (Landmark.set_x v) then
                let* v := field stod kept e1 e2 in
                run store_landmark i (Landmark.set_y v) then
                let* v := field stod kept e2 e3 in
                run store_landmark i (Landmark.set_x_std_dev v) then
                let* v := field stod kept e3 e4 in
                run store_landmark i (Landmark.set_y_std_dev v) then
                readLandmarks_lines TOTAL_LANDMARKS stod rest (S i))
      /\ readGroundTruth_lines stod robot_id (line :: rest)
         = (let e0 := Str.find kept tab 0 in
            let e1 := next_tab kept e0 in
            let e2 := next_tab kept e1 in
            let e3 := next_tab kept e2 in
            let* time := field stod kept 0 e0 in
            let* x_coordinate := field stod kept e0 e1 in
            let* y_coordinate := field stod kept e1 e2 in
            let* orientation := field stod kept e2 e3 in
            run update_robot robot_id (Robot.set_ground_truth (fun v =>
                  v ++ [Groundtruth.mk time x_coordinate y_coordinate orientation])) then
            readGroundTruth_lines stod robot_id rest)
      /\ readOdometry_lines stod robot_id (line :: rest)
         = (let e0 := Str.find kept tab 0 in
            let e1 := next_tab kept e0 in
            let e2 := next_tab kept e1 in
            let* time := field stod kept 0 e0 in
            let* forward_velocity := field stod kept e0 e1 in
            let* angular_velocity := field stod kept e1 e2 in
            run update_robot robot_id (Robot.set_odometry (fun v =>
                  v ++ [Odometry.mk time forward_velocity angular_velocity])) then
            readOdometry_lines stod robot_id rest)
      /\ readMeasurements_lines stod robot_id (line :: rest)
         = (let e0 := Str.find kept tab 0 in
            let e1 := next_tab kept e0 in
            let e2 := next_tab kept e1 in
            let e3 := next_tab kept e2 in
            let* time := field stod kept 0 e0 in
            let* subject := field Conv.stoi kept e0 e1 in
            let* range := field stod kept e1 e2 in
            let* bearing := field stod kept e2 e3 in
            run update_robot robot_id
                  (Robot.set_measurements (aggregate time subject range bearing)) then
            readMeasurements_lines stod robot_id rest))
  /\ (is_comment line = false -> is_comment (Str.erase_remove space line) = false ->
      (forall i, readBarcodes_lines TOTAL_BARCODES (line :: rest) i
                 = readBarcodes_lines TOTAL_BARCODES (Str.erase_remove space line :: rest) i)
      /\ (forall i, readLandmarks_lines TOTAL_LANDMARKS stod (line :: rest) i
                    = readLandmarks_lines TOTAL_LANDMARKS stod (Str.erase_remove space line :: rest) i)
      /\ readGroundTruth_lines stod robot_id (line :: rest)
         = readGroundTruth_lines stod robot_id (Str.erase_remove space line :: rest)
      /\ readOdometry_lines stod robot_id (line :: rest)
         = readOdometry_lines stod robot_id (Str.erase_remove space line :: rest)
      /\ readMeasurements_lines stod robot_id (line :: rest)
         = readMeasurements_lines stod robot_id (Str.erase_remove space line :: rest)).
Proof.
  intros kept.
  assert (Hkept : Str.erase_remove space line = kept).
  { subst kept. rewrite <- erase_remove_filter. symmetry. apply string_of_list_ascii_of_string. }
  split; [apply erase_remove_filter|]. split.
  - intros Hc.
    cbn [readBarcodes_lines readLandmarks_lines readGroundTruth_lines readOdometry_lines
           readMeasurements_lines].
    rewrite Hc, Hkept. repeat split.
  - intros Hc Hc'.
    cbn [readBarcodes_lines readLandmarks_lines readGroundTruth_lines readOdometry_lines
           readMeasurements_lines].
    rewrite Hc, Hc', erase_remove_idempotent. repeat split.
Qed.

Lemma loaders_remove_spaces_only_witness :
  let line := String "1" (String tab (String " " (String "5" (String carriage_return EmptyString)))) in
  let kept := String "1" (String tab (String "5" (String carriage_return EmptyString))) in
  readBarcodes_lines 20 [line] 0
  = (let* v := field Conv.stoi kept (Str.find kept tab 0) Str.npos in
     run store_barcode 0 v then readBarcodes_lines 20 [] 1)
  /\ readBarcodes_lines 20 [line] 0 = readBarcodes_lines 20 [Str.erase_remove space line] 0.
Proof.
  intros line kept. split.
  - apply (proj1 (proj1 (proj2 (loaders_remove_spaces_only 20 15 Strtod.stod 0 line [])) eq_refl)).
  - apply (proj2 (proj2 (loaders_remove_spaces_only 20 15 Strtod.stod 0 line []))); reflexivity.
Defined.

(** C9 as stated fails: a carriage return is white space and no tab, and a
    loader does not read a line as it reads the line without its carriage
    return.  Of the barcode row [1 TAB 1 CR 0], [readBarcodes] stores the
    barcode 1, the carriage return being in the text handed to [std::stoi];
    with the carriage return stripped the row is [1 TAB 10], of which it
    stores 10.  Of the measurement row whose time column is [1 CR 0.5],
    [readMeasurements] stores the time 1; with the carriage return stripped
    the column is [10.5], of which it stores 10.5. *)
Lemma carriage_return_is_not_removed :
  let cr := String carriage_return EmptyString in
  let barcodes rows := file_system ["ds"%string] [("ds/Barcodes.dat"%string, rows)] in
  let measurements rows :=
    file_system ["ds"%string] [("ds/Robot1_Measurement.dat"%string, rows)] in
  let s := blank "ds" 20 15 5 in
  Conv.isspace carriage_return = true
  /\ carriage_return <> tab
  /\ readBarcodes 20 (barcodes [("1" ++ TAB ++ "1" ++ cr ++ "0")%string]) "ds" s
     = (set_barcodes <[O := 1]> s, [Open "ds/Barcodes.dat"], Returned true)
  /\ readBarcodes 20 (barcodes [("1" ++ TAB ++ "10")%string]) "ds" s
     = (set_barcodes <[O := 10]> s, [Open "ds/Barcodes.dat"], Returned true)
  /\ readMeasurements Strtod.stod
       (measurements [("1" ++ cr ++ "0.5" ++ TAB ++ "5" ++ TAB ++ "1.5" ++ TAB ++ "0.25")%string])
       "ds" 0 s
     = (with_robot 0 (Robot.set_measurements (fun _ =>
          [Measurement.mk 1 [5] [1.5%float] [0.25%float]])) s,
        [Open "ds/Robot1_Measurement.dat"], Returned true)
  /\ readMeasurements Strtod.stod
       (measurements [("10.5" ++ TAB ++ "5" ++ TAB ++ "1.5" ++ TAB ++ "0.25")%string])
       "ds" 0 s
     = (with_robot 0 (Robot.set_measurements (fun _ =>
          [Measurement.mk 10.5 [5] [1.5%float] [0.25%float]])) s,
        [Open "ds/Robot1_Measurement.dat"], Returned true).
Proof.
  vm_compute. repeat split. discriminate.
Qed.

(** C10: each per-robot sub-loader clears its target sequence before it
    tries to open its file: it does on any object what it does on that
    object with the sequence cleared.  When the file cannot be opened it
    returns false with the sequence of that robot empty, whatever it held
    before, and the rest of the object untouched. *)
Theorem sub_loaders_failed_open_leaves_sequence_empty stod fs dataset robot_id s r :
  at_index (robots_ s) robot_id = Some r ->
  (readGroundTruth stod fs dataset robot_id s
   = readGroundTruth stod fs dataset robot_id
       (with_robot robot_id (Robot.set_ground_truth (fun _ => [])) s)
   /\ (ifstream fs (robot_file dataset robot_id "_Groundtruth.dat") = None ->
       readGroundTruth stod fs dataset robot_id s
       = (with_robot robot_id (Robot.set_ground_truth (fun _ => [])) s,
          [Open (robot_file dataset robot_id "_Groundtruth.dat");
           FileNotFound GroundtruthData (robot_file dataset robot_id "_Groundtruth.dat")],
          Returned false)
       /\ (Robot.ground_truth ∘ Robot.raw
             <$> at_index (robots_ (final (readGroundTruth stod fs dataset robot_id s))) robot_id)
          = Some []))
  /\ (readOdometry stod fs dataset robot_id s
      = readOdometry stod fs dataset robot_id
          (with_robot robot_id (Robot.set_odometry (fun _ => [])) s)
      /\ (fstream fs (robot_file dataset robot_id "_Odometry.dat") = None ->
          readOdometry stod fs dataset robot_id s
          = (with_robot robot_id (Robot.set_odometry (fun _ => [])) s,
             [Open (robot_file dataset robot_id "_Odometry.dat");
              FileNotFound OdometryData (robot_file dataset robot_id "_Odometry.dat")],
             Returned false)
          /\ (Robot.odometry ∘ Robot.raw
                <$> at_index (robots_ (final (readOdometry stod fs dataset robot_id s))) robot_id)
             = Some []))
  /\ (readMeasurements stod fs dataset robot_id s
      = readMeasurements stod fs dataset robot_id
          (with_robot robot_id (Robot.set_measurements (fun _ => [])) s)
      /\ (fstream fs (robot_file dataset robot_id "_Measurement.dat") = None ->
          readMeasurements stod fs dataset robot_id s
          = (with_robot robot_id (Robot.set_measurements (fun _ => [])) s,
             [Open (robot_file dataset robot_id "_Measurement.dat");
              FileNotFound MeasurementData (robot_file dataset robot_id "_Measurement.dat")],
             Returned false)
          /\ (Robot.measurements ∘ Robot.raw
                <$> at_index (robots_ (final (readMeasurements stod fs dataset robot_id s))) robot_id)
             = Some [])).
Proof.
  intros Hr.
  assert (Hclear : forall clear : Robot.t -> Robot.t,
             (forall x, clear (clear x) = clear x) ->
             forall {A} (rest : M A),
               (run update_robot robot_id clear then rest)%cpp s
               = (run update_robot robot_id clear then rest)%cpp (with_robot robot_id clear s)).
  { intros clear Hidem A rest.
    erewrite (bind_silent _ _ s) by (eapply update_robot_ok; eassumption).
    erewrite bind_silent
      by (eapply update_robot_ok; rewrite at_index_with_robot, Hr; reflexivity).
    rewrite with_robot_with_robot. f_equal. now apply with_robot_ext. }
  split; [|split]; (split; [apply Hclear; now intros [[g o m]]|]); intros Hf.
  - assert (H : readGroundTruth stod fs dataset robot_id s
                = (with_robot robot_id (Robot.set_ground_truth (fun _ => [])) s,
                   [Open (robot_file dataset robot_id "_Groundtruth.dat");
                    FileNotFound GroundtruthData (robot_file dataset robot_id "_Groundtruth.dat")],
                   Returned false)).
    { unfold readGroundTruth.
      erewrite bind_silent by (eapply update_robot_ok; eassumption).
      rewrite bind_open, Hf. reflexivity. }
    split; [exact H|]. rewrite H. cbn [final fst].
    now rewrite at_index_with_robot, Hr.
  - assert (H : readOdometry stod fs dataset robot_id s
                = (with_robot robot_id (Robot.set_odometry (fun _ => [])) s,
                   [Open (robot_file dataset robot_id "_Odometry.dat");
                    FileNotFound OdometryData (robot_file dataset robot_id "_Odometry.dat")],
                   Returned false)).
    { unfold readOdometry.
      erewrite bind_silent by (eapply update_robot_ok; eassumption).
      rewrite bind_open, Hf. reflexivity. }
    split; [exact H|]. rewrite H. cbn [final fst].
    now rewrite at_index_with_robot, Hr.
  - assert (H : readMeasurements stod fs dataset robot_id s
                = (with_robot robot_id (Robot.set_measurements (fun _ => [])) s,
                   [Open (robot_file dataset robot_id "_Measurement.dat");
                    FileNotFound MeasurementData (robot_file dataset robot_id "_Measurement.dat")],
                   Returned false)).
    { unfold readMeasurements.
      erewrite bind_silent by (eapply update_robot_ok; eassumption).
      rewrite bind_open, Hf. reflexivity. }
    split; [exact H|]. rewrite H. cbn [final fst].
    now rewrite at_index_with_robot, Hr.
Qed.

Lemma sub_loaders_failed_open_leaves_sequence_empty_witness :
  (Robot.ground_truth ∘ Robot.raw <$> at_index (robots_ loaded_once) 0)
  = Some [Groundtruth.mk 1 2 3 4]
  /\ (Robot.ground_truth ∘ Robot.raw
        <$> at_index (robots_ (final (readGroundTruth Strtod.stod empty_directory "ds" 0
                                        loaded_once))) 0)
     = Some []
  /\ (Robot.odometry ∘ Robot.raw
        <$> at_index (robots_ (final (readOdometry Strtod.stod empty_directory "ds" 0
                                        loaded_once))) 0)
     = Some []
  /\ (Robot.measurements ∘ Robot.raw
        <$> at_index (robots_ (final (readMeasurements Strtod.stod empty_directory "ds" 0
                                        loaded_once))) 0)
     = Some [].
Proof.
  pose proof (sub_loaders_failed_open_leaves_sequence_empty Strtod.stod empty_directory
                "ds"%string 0 loaded_once
                (Robot.mk (Robot.mkRaw [Groundtruth.mk 1 2 3 4] [Odometry.mk 1 2 3]
                             [Measurement.mk 1 [5] [2%float] [3%float]]))
                eq_refl) as ((_ & Hg) & (_ & Ho) & (_ & Hm)).
  split; [reflexivity|]. split; [|split].
  - apply Hg. reflexivity.
  - apply Ho. reflexivity.
  - apply Hm. reflexivity.
Defined.

(** * Further properties of the code *)

(** ** The ground-truth and odometry loaders *)

Section SampleLoaders.

Variable stod : string -> outcome float.
Variable fs : FileSystem.

(** The loop body of [readGroundTruth] extracts the row, then appends it. *)
Lemma readGroundTruth_lines_cons robot_id line rest s :
  is_comment line = false ->
  readGroundTruth_lines stod robot_id (line :: rest) s
  = bind (lift (groundtruth_row stod line)) (fun g =>
      run update_robot robot_id (Robot.set_ground_truth (fun v => v ++ [g])) then
      readGroundTruth_lines stod robot_id rest) s.
Proof.
  intros Hc. cbn [readGroundTruth_lines]. rewrite Hc.
  unfold groundtruth_row, field, text. cbv zeta.
  repeat match goal with
  | |- context [lift (obind ?o ?c)] =>
      destruct (obind o c) eqn:?; cbn [obind];
      rewrite ?bind_lift_returned, ?bind_lift_thrown, ?bind_lift_undefined; try reflexivity
  end.
Qed.

Lemma readGroundTruth_lines_comment robot_id line rest :
  is_comment line = true ->
  readGroundTruth_lines stod robot_id (line :: rest)
  = readGroundTruth_lines stod robot_id rest.
Proof. intros Hc. cbn [readGroundTruth_lines]. now rewrite Hc. Qed.

Lemma set_ground_truth_nil r : Robot.set_ground_truth (fun v => v ++ []) r = r.
Proof. destruct r as [[g o m]]. unfold Robot.set_ground_truth. cbn. now rewrite app_nil_r. Qed.

(** Rows that all convert are appended in file order, and the loop goes
    on behind them. *)
Lemma readGroundTruth_lines_app robot_id lines rest : forall rows s r,
  at_index (robots_ s) robot_id = Some r ->
  Forall2 (fun line g => groundtruth_row stod line = Returned g) (data_lines lines) rows ->
  readGroundTruth_lines stod robot_id (lines ++ rest) s
  = readGroundTruth_lines stod robot_id rest
      (with_robot robot_id (Robot.set_ground_truth (fun v => v ++ rows)) s).
Proof.
  induction lines as [|line lines IH]; intros rows s r Hr Hrows.
  - inversion Hrows; subst. cbn [app].
    now rewrite with_robot_id by apply set_ground_truth_nil.
  - rewrite data_lines_cons in Hrows. cbn [app]. destruct (is_comment line) eqn:Hc.
    + rewrite readGroundTruth_lines_comment by assumption. eauto.
    + inversion Hrows as [|? g ? rows' Hrow Hrest]; subst.
      rewrite readGroundTruth_lines_cons by assumption.
      rewrite Hrow, bind_lift_returned.
      erewrite bind_silent by (eapply update_robot_ok; eassumption).
      erewrite IH; [ | | eassumption ].
      2:{ rewrite at_index_with_robot, Hr. reflexivity. }
      rewrite with_robot_with_robot. f_equal. apply with_robot_ext.
      intros [[v o m]]. unfold Robot.set_ground_truth. cbn. now rewrite <- app_assoc.
Qed.

Lemma readOdometry_lines_cons robot_id line rest s :
  is_comment line = false ->
  readOdometry_lines stod robot_id (line :: rest) s
  = bind (lift (odometry_row stod line)) (fun o =>
      run update_robot robot_id (Robot.set_odometry (fun v => v ++ [o])) then
      readOdometry_lines stod robot_id rest) s.
Proof.
  intros Hc. cbn [readOdometry_lines]. rewrite Hc.
  unfold odometry_row, field, text. cbv zeta.
  repeat match goal with
  | |- context [lift (obind ?o ?c)] =>
      destruct (obind o c) eqn:?; cbn [obind];
      rewrite ?bind_lift_returned, ?bind_lift_thrown, ?bind_lift_undefined; try reflexivity
  end.
Qed.

Lemma readOdometry_lines_comment robot_id line rest :
  is_comment line = true ->
  readOdometry_lines stod robot_id (line :: rest)
  = readOdometry_lines stod robot_id rest.
Proof. intros Hc. cbn [readOdometry_lines]. now rewrite Hc. Qed.

Lemma set_odometry_nil r : Robot.set_odometry (fun v => v ++ []) r = r.
Proof. destruct r as [[g o m]]. unfold Robot.set_odometry. cbn. now rewrite app_nil_r. Qed.

Lemma readOdometry_lines_app robot_id lines rest : forall rows s r,
  at_index (robots_ s) robot_id = Some r ->
  Forall2 (fun line o => odometry_row stod line = Returned o) (data_lines lines) rows ->
  readOdometry_lines stod robot_id (lines ++ rest) s
  = readOdometry_lines stod robot_id rest
      (with_robot robot_id (Robot.set_odometry (fun v => v ++ rows)) s).
Proof.
  induction lines as [|line lines IH]; intros rows s r Hr Hrows.
  - inversion Hrows; subst. cbn [app].
    now rewrite with_robot_id by apply set_odometry_nil.
  - rewrite data_lines_cons in Hrows. cbn [app]. destruct (is_comment line) eqn:Hc.
    + rewrite readOdometry_lines_comment by assumption. eauto.
    + inversion Hrows as [|? o ? rows' Hrow Hrest]; subst.
      rewrite readOdometry_lines_cons by assumption.
      rewrite Hrow, bind_lift_returned.
      erewrite bind_silent by (eapply update_robot_ok; eassumption).
      erewrite IH; [ | | eassumption ].
      2:{ rewrite at_index_with_robot, Hr. reflexivity. }
      rewrite with_robot_with_robot. f_equal. apply with_robot_ext.
      intros [[g v m]]. unfold Robot.set_odometry. cbn. now rewrite <- app_assoc.
Qed.

(** A per-robot loader on a robot in range: the vector is cleared, the
    stream constructed, and the loop runs if the file is open. *)
Lemma robot_loader_opened {A} robot_id (clear : Robot.t -> Robot.t)
    stream filename (k : option (list string) -> M A) s r :
  at_index (robots_ s) robot_id = Some r ->
  (run update_robot robot_id clear then let* file := open stream filename in k file)%cpp s
  = (final (k (stream filename) (with_robot robot_id clear s)),
     Open filename :: events (k (stream filename) (with_robot robot_id clear s)),
     result (k (stream filename) (with_robot robot_id clear s))).
Proof.
  intros Hr. erewrite bind_silent by (eapply update_robot_ok; eassumption).
  apply bind_open.
Qed.

Lemma readGroundTruth_rows dataset robot_id lines rows s r :
  at_index (robots_ s) robot_id = Some r ->
  ifstream fs (robot_file dataset robot_id "_Groundtruth.dat") = Some lines ->
  Forall2 (fun line g => groundtruth_row stod line = Returned g) (data_lines lines) rows ->
  readGroundTruth stod fs dataset robot_id s
  = (with_robot robot_id (Robot.set_ground_truth (fun _ => rows)) s,
     [Open (robot_file dataset robot_id "_Groundtruth.dat")], Returned true).
Proof.
  intros Hr Hf Hrows. unfold readGroundTruth.
  rewrite (robot_loader_opened _ _ _ _ _ _ r Hr), Hf.
  rewrite <- (app_nil_r lines).
  erewrite readGroundTruth_lines_app;
    [ | rewrite at_index_with_robot, Hr; reflexivity | eassumption ].
  cbn [readGroundTruth_lines]. unfold ret, final, events, result. cbn [fst snd].
  now rewrite with_robot_with_robot.
Qed.

Lemma readOdometry_rows dataset robot_id lines rows s r :
  at_index (robots_ s) robot_id = Some r ->
  fstream fs (robot_file dataset robot_id "_Odometry.dat") = Some lines ->
  Forall2 (fun line o => odometry_row stod line = Returned o) (data_lines lines) rows ->
  readOdometry stod fs dataset robot_id s
  = (with_robot robot_id (Robot.set_odometry (fun _ => rows)) s,
     [Open (robot_file dataset robot_id "_Odometry.dat")], Returned true).
Proof.
  intros Hr Hf Hrows. unfold readOdometry.
  rewrite (robot_loader_opened _ _ _ _ _ _ r Hr), Hf.
  rewrite <- (app_nil_r lines).
  erewrite readOdometry_lines_app;
    [ | rewrite at_index_with_robot, Hr; reflexivity | eassumption ].
  cbn [readOdometry_lines]. unfold ret, final, events, result. cbn [fst snd].
  now rewrite with_robot_with_robot.
Qed.

End SampleLoaders.

(** X1: [readGroundTruth] on a robot in range whose file opens replaces the
    robot's ground-truth vector by the samples of the rows that are no
    comments, in file order, when they all convert; at the first row that
    does not convert it throws what the conversion throws, and the vector
    holds the samples of the rows before that one. *)
Theorem readGroundTruth_appends_rows_in_file_order stod fs dataset robot_id s r lines :
  at_index (robots_ s) robot_id = Some r ->
  ifstream fs (robot_file dataset robot_id "_Groundtruth.dat") = Some lines ->
  (forall rows,
      Forall2 (fun line g => groundtruth_row stod line = Returned g) (data_lines lines) rows ->
      readGroundTruth stod fs dataset robot_id s
      = (with_robot robot_id (Robot.set_ground_truth (fun _ => rows)) s,
         [Open (robot_file dataset robot_id "_Groundtruth.dat")], Returned true))
  /\ (forall good bad rest rows e,
      lines = good ++ bad :: rest ->
      Forall2 (fun line g => groundtruth_row stod line = Returned g) (data_lines good) rows ->
      is_comment bad = false ->
      groundtruth_row stod bad = Thrown e ->
      readGroundTruth stod fs dataset robot_id s
      = (with_robot robot_id (Robot.set_ground_truth (fun _ => rows)) s,
         [Open (robot_file dataset robot_id "_Groundtruth.dat")], Thrown e)).
Proof.
  intros Hr Hf.
  assert (Hr0 : at_index (robots_ (with_robot robot_id (Robot.set_ground_truth (fun _ => [])) s))
                  robot_id = Some (Robot.set_ground_truth (fun _ => []) r))
    by now rewrite at_index_with_robot, Hr.
  split.
  - intros rows Hrows. now apply (readGroundTruth_rows stod fs dataset robot_id lines rows s r).
  - intros good bad rest rows e -> Hrows Hc Hbad. unfold readGroundTruth.
    rewrite (robot_loader_opened _ _ _ _ _ _ r Hr), Hf.
    erewrite readGroundTruth_lines_app by eassumption.
    rewrite readGroundTruth_lines_cons by assumption.
    rewrite Hbad, bind_lift_thrown. unfold final, events, result. cbn [fst snd].
    now rewrite with_robot_with_robot.
Qed.

Lemma readGroundTruth_appends_rows_in_file_order_witness :
  readGroundTruth Strtod.stod one_robot "ds" 0 loaded_once
  = (with_robot 0 (Robot.set_ground_truth (fun _ =>
       [Groundtruth.mk 10 1.5 2.5 (-0.5); Groundtruth.mk 10.25 1.75 2.25 0.5])) loaded_once,
     [Open (robot_file "ds" 0 "_Groundtruth.dat")], Returned true)
  /\ readGroundTruth Strtod.stod short_rows "ds" 0 loaded_once
     = (with_robot 0 (Robot.set_ground_truth (fun _ => [Groundtruth.mk 10 1.5 2.5 (-0.5)]))
          loaded_once,
        [Open (robot_file "ds" 0 "_Groundtruth.dat")], Thrown std_out_of_range).
Proof.
  split.
  - eapply (proj1 (readGroundTruth_appends_rows_in_file_order Strtod.stod one_robot "ds"%string
                     0 loaded_once _ _ eq_refl eq_refl)).
    rows_convert.
  - eapply (proj2 (readGroundTruth_appends_rows_in_file_order Strtod.stod short_rows "ds"%string
                     0 loaded_once _ _ eq_refl eq_refl)
              [tabbed ["10.00"; "1.5"; "2.5"; "-0.5"]%string]
              (tabbed ["10.25"; "1.75"; "2.25"]%string)
              [tabbed ["10.50"; "2.0"; "2.0"; "0.5"]%string]);
      [reflexivity | rows_convert | reflexivity | vm_compute; reflexivity].
Defined.

(** X2: [readOdometry] on a robot in range whose file opens replaces the
    robot's odometry vector by the samples of the rows that are no comments,
    in file order, when they all convert; at the first row that does not
    convert it throws what the conversion throws, and the vector holds the
    samples of the rows before that one. *)
Theorem readOdometry_appends_rows_in_file_order stod fs dataset robot_id s r lines :
  at_index (robots_ s) robot_id = Some r ->
  fstream fs (robot_file dataset robot_id "_Odometry.dat") = Some lines ->
  (forall rows,
      Forall2 (fun line o => odometry_row stod line = Returned o) (data_lines lines) rows ->
      readOdometry stod fs dataset robot_id s
      = (with_robot robot_id (Robot.set_odometry (fun _ => rows)) s,
         [Open (robot_file dataset robot_id "_Odometry.dat")], Returned true))
  /\ (forall good bad rest rows e,
      lines = good ++ bad :: rest ->
      Forall2 (fun line o => odometry_row stod line = Returned o) (data_lines good) rows ->
      is_comment bad = false ->
      odometry_row stod bad = Thrown e ->
      readOdometry stod fs dataset robot_id s
      = (with_robot robot_id (Robot.set_odometry (fun _ => rows)) s,
         [Open (robot_file dataset robot_id "_Odometry.dat")], Thrown e)).
Proof.
  intros Hr Hf.
  assert (Hr0 : at_index (robots_ (with_robot robot_id (Robot.set_odometry (fun _ => [])) s))
                  robot_id = Some (Robot.set_odometry (fun _ => []) r))
    by now rewrite at_index_with_robot, Hr.
  split.
  - intros rows Hrows. now apply (readOdometry_rows stod fs dataset robot_id lines rows s r).
  - intros good bad rest rows e -> Hrows Hc Hbad. unfold readOdometry.
    rewrite (robot_loader_opened _ _ _ _ _ _ r Hr), Hf.
    erewrite readOdometry_lines_app by eassumption.
    rewrite readOdometry_lines_cons by assumption.
    rewrite Hbad, bind_lift_thrown. unfold final, events, result. cbn [fst snd].
    now rewrite with_robot_with_robot.
Qed.

Lemma readOdometry_appends_rows_in_file_order_witness :
  readOdometry Strtod.stod one_robot "ds" 0 loaded_once
  = (with_robot 0 (Robot.set_odometry (fun _ =>
       [Odometry.mk 10 0.5 0.25; Odometry.mk 10.25 0.75 (-0.125)])) loaded_once,
     [Open (robot_file "ds" 0 "_Odometry.dat")], Returned true)
  /\ readOdometry Strtod.stod short_rows "ds" 0 loaded_once
     = (with_robot 0 (Robot.set_odometry (fun _ => [Odometry.mk 10 0.5 0.25])) loaded_once,
        [Open (robot_file "ds" 0 "_Odometry.dat")], Thrown std_out_of_range).
Proof.
  split.
  - eapply (proj1 (readOdometry_appends_rows_in_file_order Strtod.stod one_robot "ds"%string
                     0 loaded_once _ _ eq_refl eq_refl)).
    rows_convert.
  - eapply (proj2 (readOdometry_appends_rows_in_file_order Strtod.stod short_rows "ds"%string
                     0 loaded_once _ _ eq_refl eq_refl)
              [tabbed ["10.00"; "0.5"; "0.25"]%string]
              (tabbed ["10.25"; "0.75"]%string)
              [tabbed ["10.50"; "1.0"; "0.0"]%string]);
      [reflexivity | rows_convert | reflexivity | vm_compute; reflexivity].
Defined.

(** ** Rows with too few columns *)

Section Columns.

Lemma occurrences_erase_remove c d s :
  Ascii.eqb c d = false -> occurrences c (Str.erase_remove d s) = occurrences c s.
Proof.
  intros Hcd. induction s as [|a s IH]; [reflexivity|]. cbn.
  destruct (Ascii.eqb_spec a d) as [->|Hd].
  - rewrite Ascii.eqb_sym, Hcd. exact IH.
  - cbn. now rewrite IH.
Qed.

Lemma size_erase_remove c s : (Str.size (Str.erase_remove c s) <= Str.size s)%N.
Proof.
  unfold Str.size. apply N2Z.inj_le. rewrite !nat_N_Z. apply Nat2Z.inj_le.
  induction s as [|a s IH]; cbn; [lia|]. destruct (Ascii.eqb a c); cbn; lia.
Qed.

Lemma str_drop_drop n : forall m s, Str.drop n (Str.drop m s) = Str.drop (m + n) s.
Proof.
  intros m. induction m as [|m IH]; intros s; [reflexivity|].
  destruct s as [|a s]; cbn; [now destruct n|]. apply IH.
Qed.

Lemma str_length_drop n : forall s, String.length (Str.drop n s) = (String.length s - n)%nat.
Proof.
  induction n as [|n IH]; intros s; cbn; [lia|]. destruct s as [|a s]; cbn; auto.
Qed.

(** The first occurrence of [c], if any, and the occurrences behind it. *)
Lemma offset_occurrences c s :
  match Str.offset c s with
  | Some k => (k < String.length s)%nat
              /\ occurrences c s = S (occurrences c (Str.drop (S k) s))
  | None => occurrences c s = O
  end.
Proof.
  induction s as [|a s IH]; [reflexivity|]. cbn [Str.offset occurrences].
  destruct (Ascii.eqb a c).
  - cbn. split; [lia|reflexivity].
  - destruct (Str.offset c s) as [k|]; cbn; [|exact IH].
    destruct IH as [Hk Ho]. split; [lia|exact Ho].
Qed.

(** [line.find(c, pos)] gives [npos], or the position of an occurrence of
    [c] from [pos] on, with one occurrence fewer behind it. *)
Lemma find_occurrences line c pos :
  (Str.size line < Str.npos)%N ->
  Str.find line c pos = Str.npos
  \/ (pos <= Str.find line c pos < Str.size line)%N
     /\ occurrences c (Str.drop (N.to_nat pos) line)
        = S (occurrences c (Str.drop (N.to_nat (Str.incr (Str.find line c pos))) line)).
Proof.
  intros Hsize. unfold Str.find.
  destruct (N.leb_spec (Str.size line) pos) as [Hge|Hlt]; [now left|].
  pose proof (offset_occurrences c (Str.drop (N.to_nat pos) line)) as H.
  destruct (Str.offset c (Str.drop (N.to_nat pos) line)) as [k|]; [|now left].
  destruct H as [Hk Ho]. right.
  rewrite str_length_drop in Hk. unfold Str.size in *.
  change Str.npos with 18446744073709551615%N in *.
  split; [lia|]. rewrite Ho, str_drop_drop. do 2 f_equal.
  unfold Str.incr. change (2 ^ 64)%N with 18446744073709551616%N.
  rewrite N.mod_small by lia. f_equal. lia.
Qed.

Lemma substr_npos line count :
  (Str.size line < Str.npos)%N -> Str.substr line Str.npos count = Thrown std_out_of_range.
Proof.
  intros Hsize. unfold Str.substr. now destruct (N.ltb_spec (Str.size line) Str.npos); [|lia].
Qed.

(** A line with fewer than [n] tabs: one of the first [n] searches for a
    tab, each from behind the last one found, gives [npos]. *)
Lemma first_tab_missing line :
  (Str.size line < Str.npos)%N ->
  occurrences tab line = O -> Str.find line tab 0 = Str.npos.
Proof.
  intros Hsize Ho. destruct (find_occurrences line tab 0 Hsize) as [H|[_ H]]; [exact H|].
  change (Str.drop (N.to_nat 0) line) with line in H. congruence.
Qed.

Lemma second_tab_missing line :
  (Str.size line < Str.npos)%N ->
  (occurrences tab line < 2)%nat ->
  let e0 := Str.find line tab 0 in
  e0 = Str.npos \/ next_tab line e0 = Str.npos.
Proof.
  intros Hsize Ho e0. subst e0.
  destruct (find_occurrences line tab 0 Hsize) as [H|[_ H]]; [now left|].
  change (Str.drop (N.to_nat 0) line) with line in H. right. unfold next_tab.
  destruct (find_occurrences line tab (Str.incr (Str.find line tab 0)) Hsize) as [H'|[_ H']];
    [exact H'|lia].
Qed.

Lemma third_tab_missing line :
  (Str.size line < Str.npos)%N ->
  (occurrences tab line < 3)%nat ->
  let e0 := Str.find line tab 0 in
  let e1 := next_tab line e0 in
  e0 = Str.npos \/ e1 = Str.npos \/ next_tab line e1 = Str.npos.
Proof.
  intros Hsize Ho e0 e1. subst e0 e1.
  destruct (find_occurrences line tab 0 Hsize) as [H|[_ H]]; [now left|].
  change (Str.drop (N.to_nat 0) line) with line in H. right. unfold next_tab.
  destruct (find_occurrences line tab (Str.incr (Str.find line tab 0)) Hsize) as [H'|[_ H']];
    [now left|right].
  set (e1 := Str.find line tab (Str.incr (Str.find line tab 0))) in *.
  destruct (find_occurrences line tab (Str.incr e1) Hsize) as [H''|[_ H'']]; [exact H''|lia].
Qed.

Lemma stoi_conforming t :
  Conv.stoi t <> Undefined
  /\ forall e, Conv.stoi t = Thrown e -> e = std_invalid_argument \/ e = std_out_of_range.
Proof.
  assert (Hin : forall v, Conv.in_int v <> Undefined
                 /\ forall e, Conv.in_int v = Thrown e
                              -> e = std_invalid_argument \/ e = std_out_of_range).
  { intros v. unfold Conv.in_int.
    destruct ((Conv.INT_MIN <=? v) && (v <=? Conv.INT_MAX)); split; try discriminate.
    intros e [= <-]. now right. }
  assert (Hd : forall s f,
             match Conv.digits s None with
             | Some v => Conv.in_int (f v)
             | None => Thrown std_invalid_argument
             end <> Undefined
             /\ forall e, match Conv.digits s None with
                          | Some v => Conv.in_int (f v)
                          | None => Thrown std_invalid_argument
                          end = Thrown e -> e = std_invalid_argument \/ e = std_out_of_range).
  { intros s f. destruct (Conv.digits s None) as [v|]; [apply Hin|].
    split; [discriminate|]. intros e [= <-]. now left. }
  unfold Conv.stoi.
  destruct (Conv.skip_space t) as [|[[] [] [] [] [] [] [] []] s'];
    first [ apply (Hd _ (fun v => v)) | apply (Hd _ (fun v => - v)) ].
Qed.

(** A field whose conversion conforms converts, or the row ends in one of
    the two exceptions of a conversion. *)
Lemma field_converts_or_throws {A B} (conv : string -> outcome A) line start_index end_index
    (k : A -> outcome B) :
  (forall t, conv t <> Undefined
             /\ forall e, conv t = Thrown e -> e = std_invalid_argument \/ e = std_out_of_range) ->
  (forall v, k v = Thrown std_invalid_argument \/ k v = Thrown std_out_of_range) ->
  obind (obind (Str.substr line start_index end_index) conv) k = Thrown std_invalid_argument
  \/ obind (obind (Str.substr line start_index end_index) conv) k = Thrown std_out_of_range.
Proof.
  intros Hconv Hk. unfold Str.substr.
  destruct (Str.size line <? start_index)%N; cbn [obind]; [now right|].
  match goal with |- context [conv ?t] => destruct (Hconv t) as [Hu Ht]; destruct (conv t) as [v|e|] end;
    cbn [obind]; [apply Hk | | congruence].
  destruct (Ht e eq_refl) as [-> | ->]; [now left | now right].
Qed.

Lemma field_behind_the_end {A B} (conv : string -> outcome A) line end_index
    (k : A -> outcome B) :
  (Str.size line < Str.npos)%N ->
  obind (obind (Str.substr line Str.npos end_index) conv) k = Thrown std_out_of_range.
Proof. intros Hsize. now rewrite substr_npos. Qed.

End Columns.

(** A row of which one field starts at [npos]. *)
Ltac row_throws Hstod :=
  repeat first
    [ right; apply field_behind_the_end; assumption
    | apply field_converts_or_throws; [first [exact Hstod | exact stoi_conforming]|intros ?] ].

Section ShortRows.

Variable stod : string -> outcome float.
Hypothesis Hstod : conforming stod.

Lemma groundtruth_row_short line :
  (Str.size line < Str.npos)%N ->
  (occurrences tab line < 3)%nat ->
  groundtruth_row stod line = Thrown std_invalid_argument
  \/ groundtruth_row stod line = Thrown std_out_of_range.
Proof using Hstod.
  intros Hsize Ho. unfold groundtruth_row, text. cbv zeta.
  set (l := Str.erase_remove space line).
  assert (Hl : (Str.size l < Str.npos)%N)
    by (pose proof (size_erase_remove space line); subst l; lia).
  assert (Ho' : (occurrences tab l < 3)%nat)
    by (subst l; now rewrite occurrences_erase_remove).
  destruct (third_tab_missing l Hl Ho') as [E|[E|E]]; rewrite ?E; row_throws Hstod.
Qed.

Lemma odometry_row_short line :
  (Str.size line < Str.npos)%N ->
  (occurrences tab line < 2)%nat ->
  odometry_row stod line = Thrown std_invalid_argument
  \/ odometry_row stod line = Thrown std_out_of_range.
Proof using Hstod.
  intros Hsize Ho. unfold odometry_row, text. cbv zeta.
  set (l := Str.erase_remove space line).
  assert (Hl : (Str.size l < Str.npos)%N)
    by (pose proof (size_erase_remove space line); subst l; lia).
  assert (Ho' : (occurrences tab l < 2)%nat)
    by (subst l; now rewrite occurrences_erase_remove).
  destruct (second_tab_missing l Hl Ho') as [E|E]; rewrite ?E; row_throws Hstod.
Qed.

Lemma measurement_row_short line :
  (Str.size line < Str.npos)%N ->
  (occurrences tab line < 3)%nat ->
  measurement_row stod line = Thrown std_invalid_argument
  \/ measurement_row stod line = Thrown std_out_of_range.
Proof using Hstod.
  intros Hsize Ho. unfold measurement_row, text. cbv zeta.
  set (l := Str.erase_remove space line).
  assert (Hl : (Str.size l < Str.npos)%N)
    by (pose proof (size_erase_remove space line); subst l; lia).
  assert (Ho' : (occurrences tab l < 3)%nat)
    by (subst l; now rewrite occurrences_erase_remove).
  destruct (third_tab_missing l Hl Ho') as [E|[E|E]]; rewrite ?E; row_throws Hstod.
Qed.

End ShortRows.

Section Instances.

Lemma Strtod_conforming : conforming Strtod.stod.
Proof.
  assert (Hu : forall s, Strtod.unsigned s <> Undefined
                 /\ forall e, Strtod.unsigned s = Thrown e
                              -> e = std_invalid_argument \/ e = std_out_of_range).
  { intros s. unfold Strtod.unsigned.
    destruct (Strtod.scan s false 0 0%float 0 false) as [[[m f] k] any].
    destruct (negb any); [split; [discriminate|intros e [= <-]; now left]|].
    destruct ((m <? 2 ^ 53) && (k <=? 22)%nat); split; try discriminate.
    intros e [= <-]. now right. }
  intros t. unfold Strtod.stod.
  destruct (Conv.skip_space t) as [|[[] [] [] [] [] [] [] []] s']; try apply Hu.
  destruct (Hu s') as [H1 H2]. destruct (Strtod.unsigned s') as [v|e|]; cbn [obind];
    split; try discriminate; try congruence. exact H2.
Qed.

End Instances.

(** X3: a row of a per-robot file that is no comment and has fewer columns
    than the loader reads (four of a ground-truth or measurement row, three
    of an odometry row) ends the load of the file with [std::invalid_argument]
    or [std::out_of_range]: nothing is appended for it, nothing is reported,
    and the rows behind it are not read. *)
Theorem rows_with_too_few_columns_throw stod robot_id line rest s :
  conforming stod ->
  is_comment line = false ->
  (Str.size line < Str.npos)%N ->
  let columns := S (occurrences tab line) in
  let stops (r : DataExtractor * list event * outcome bool) :=
    final r = s /\ events r = []
    /\ (result r = Thrown std_invalid_argument \/ result r = Thrown std_out_of_range) in
  ((columns < 4)%nat -> stops (readGroundTruth_lines stod robot_id (line :: rest) s))
  /\ ((columns < 3)%nat -> stops (readOdometry_lines stod robot_id (line :: rest) s))
  /\ ((columns < 4)%nat -> stops (readMeasurements_lines stod robot_id (line :: rest) s)).
Proof.
  intros Hstod Hc Hsize columns stops. subst columns stops. cbv beta.
  split; [|split]; intros Hcolumns.
  - rewrite readGroundTruth_lines_cons by assumption.
    destruct (groundtruth_row_short stod Hstod line Hsize) as [E|E]; [lia| |];
      rewrite E, bind_lift_thrown; cbn; auto.
  - rewrite readOdometry_lines_cons by assumption.
    destruct (odometry_row_short stod Hstod line Hsize) as [E|E]; [lia| |];
      rewrite E, bind_lift_thrown; cbn; auto.
  - rewrite readMeasurements_lines_cons by assumption.
    destruct (measurement_row_short stod Hstod line Hsize) as [E|E]; [lia| |];
      rewrite E, bind_lift_thrown; cbn; auto.
Qed.

Lemma rows_with_too_few_columns_throw_witness :
  let line := tabbed ["10.25"; "0.75"]%string in
  let stops (r : DataExtractor * list event * outcome bool) :=
    final r = loaded_once /\ events r = []
    /\ (result r = Thrown std_invalid_argument \/ result r = Thrown std_out_of_range) in
  stops (readGroundTruth_lines Strtod.stod 0 [line] loaded_once)
  /\ stops (readOdometry_lines Strtod.stod 0 [line] loaded_once)
  /\ stops (readMeasurements_lines Strtod.stod 0 [line] loaded_once).
Proof.
  intros line stops.
  pose proof (rows_with_too_few_columns_throw Strtod.stod 0 line [] loaded_once
                Strtod_conforming eq_refl) as (Hg & Ho & Hm); [vm_compute; reflexivity|].
  split; [|split]; [apply Hg | apply Ho | apply Hm]; vm_compute; lia.
Defined.

(** ** The tables at their bounds *)

Section Tables.

Variables TOTAL_BARCODES TOTAL_LANDMARKS : nat.
Variable stod : string -> outcome float.
Variable fs : FileSystem.

(** Rows that all convert, and that fit, are stored in file order from
    position [i] on, and the loop goes on behind them. *)
Lemma readBarcodes_lines_app lines rest : forall vs i s,
  Forall2 (fun line v => barcode_row line = Returned v) (data_lines lines) vs ->
  (i + length vs <= TOTAL_BARCODES)%nat ->
  (TOTAL_BARCODES <= length (barcodes_ s))%nat ->
  readBarcodes_lines TOTAL_BARCODES (lines ++ rest) i s
  = readBarcodes_lines TOTAL_BARCODES rest (i + length vs)
      (set_barcodes (fun b => take i b ++ vs ++ drop (i + length vs) b) s).
Proof.
  induction lines as [|line lines IH]; intros vs i s Hrows Hfit Hlen.
  - inversion Hrows; subst. cbn [app length]. rewrite Nat.add_0_r. f_equal.
    rewrite (set_barcodes_ext _ (fun b => b)); [now destruct s|].
    cbn [app]. apply take_drop.
  - rewrite data_lines_cons in Hrows. cbn [app]. destruct (is_comment line) eqn:Hc.
    + rewrite readBarcodes_lines_comment by assumption. auto.
    + inversion Hrows as [|? v ? vs' Hrow Hrest]; subst. cbn [length] in Hfit.
      rewrite readBarcodes_lines_cons by (assumption || lia).
      rewrite Hrow, bind_lift_returned.
      erewrite bind_silent by (apply store_barcode_ok; lia).
      rewrite (IH vs' (S i)); [ | assumption | lia | cbn; rewrite length_insert; lia ].
      cbn [length]. replace (i + S (length vs'))%nat with (S i + length vs')%nat by lia.
      f_equal. rewrite set_barcodes_set_barcodes. apply set_barcodes_ext.
      rewrite fill_insert by lia. do 3 f_equal. lia.
Qed.

Lemma barcode_row_without_tab line :
  occurrences tab line = O -> (Str.size line < Str.npos)%N ->
  barcode_row line = Thrown std_out_of_range.
Proof.
  intros Ho Hsize. unfold barcode_row. cbv zeta.
  set (l := Str.erase_remove space line).
  assert (Hl : (Str.size l < Str.npos)%N)
    by (pose proof (size_erase_remove space line); subst l; lia).
  rewrite first_tab_missing; [now rewrite substr_npos | exact Hl |].
  subst l. now rewrite occurrences_erase_remove.
Qed.

End Tables.

(** X4: a row of the barcode file that is no comment and holds no tab makes
    [readBarcodes] throw [std::out_of_range]; the barcodes of the rows before
    it stay in the table, and nothing is reported. *)
Theorem barcode_row_without_a_tab_throws TOTAL_BARCODES fs dataset s good line rest vs :
  dataset_ s <> EmptyString ->
  ifstream fs (dataset ++ "/Barcodes.dat") = Some (good ++ line :: rest) ->
  Forall2 (fun l v => barcode_row l = Returned v) (data_lines good) vs ->
  (length vs < TOTAL_BARCODES)%nat ->
  (TOTAL_BARCODES <= length (barcodes_ s))%nat ->
  is_comment line = false ->
  occurrences tab line = O ->
  (Str.size line < Str.npos)%N ->
  readBarcodes TOTAL_BARCODES fs dataset s
  = (set_barcodes (fun b => vs ++ drop (length vs) b) s,
     [Open (dataset ++ "/Barcodes.dat")], Thrown std_out_of_range).
Proof.
  intros Hd Hf Hrows Hfit Hlen Hc Ho Hsize.
  rewrite (readBarcodes_opened _ _ _ (good ++ line :: rest)) by assumption.
  rewrite (readBarcodes_lines_app _ good _ vs) by (assumption || cbn; lia).
  rewrite readBarcodes_lines_cons by (assumption || cbn; lia).
  now rewrite barcode_row_without_tab, bind_lift_thrown by assumption.
Qed.

Lemma barcode_row_without_a_tab_throws_witness :
  readBarcodes 20 bare_barcodes "ds" (blank "ds" 20 15 5)
  = (set_barcodes (fun b => [] ++ drop (length (@nil Z)) b) (blank "ds" 20 15 5),
     [Open ("ds" ++ "/Barcodes.dat")], Thrown std_out_of_range).
Proof.
  apply (barcode_row_without_a_tab_throws 20 bare_barcodes "ds"%string (blank "ds" 20 15 5)
           [] "10"%string ["20"%string] []);
    [discriminate | reflexivity | constructor | cbn; lia | vm_compute; lia
    | reflexivity | reflexivity | vm_compute; reflexivity].
Defined.

Section LandmarkBounds.

Variable TOTAL_LANDMARKS : nat.
Variable stod : string -> outcome float.
Variable fs : FileSystem.

Lemma bind_never {A B} (m : M A) (k : A -> M B) (b : B) s :
  (forall a s', result (k a s') <> Returned b) -> result (bind m k s) <> Returned b.
Proof.
  intros Hk. rewrite result_bind. destruct (result (m s)); [apply Hk|discriminate..].
Qed.

(** With more rows than the table has room for, the loop never returns
    true, whatever the rows hold. *)
Lemma readLandmarks_lines_too_many lines : forall i s,
  (i <= TOTAL_LANDMARKS)%nat ->
  (TOTAL_LANDMARKS < i + length (data_lines lines))%nat ->
  result (readLandmarks_lines TOTAL_LANDMARKS stod lines i s) <> Returned true.
Proof.
  induction lines as [|line rest IH]; intros i s Hi Hmore.
  - cbn in Hmore. lia.
  - rewrite data_lines_cons in Hmore. destruct (is_comment line) eqn:Hc.
    + rewrite readLandmarks_lines_comment by assumption. auto.
    + cbn [length] in Hmore. destruct (decide (TOTAL_LANDMARKS <= i)%nat) as [Hfull|Hroom].
      * rewrite readLandmarks_lines_full by assumption. discriminate.
      * cbn [readLandmarks_lines]. rewrite Hc, decide_False by assumption. cbv zeta.
        do 4 (apply bind_never; intros ? ?).
        match goal with |- context [if ?b then _ else _] => destruct b end;
          [discriminate|].
        repeat (apply bind_never; intros ? ?). apply IH; lia.
Qed.

(** The id of a row is written to the landmark under construction, and the
    barcode table is then read at the position before the id, wherever that
    is. *)
Lemma readLandmarks_lines_outside line rest i s l k :
  is_comment line = false -> (i < TOTAL_LANDMARKS)%nat ->
  landmarks_ s !! i = Some l ->
  landmark_id line = Returned k ->
  at_index (barcodes_ s) (k - 1) = None ->
  readLandmarks_lines TOTAL_LANDMARKS stod (line :: rest) i s
  = (set_landmarks (alter (Landmark.set_id k) i) s, [], Undefined).
Proof.
  intros Hc Hi Hl Hid Hb. cbn [readLandmarks_lines]. rewrite Hc.
  rewrite decide_False by lia. cbv zeta.
  unfold field. unfold landmark_id in Hid. rewrite Hid, bind_lift_returned.
  erewrite bind_silent by (eapply store_landmark_ok; eassumption).
  erewrite bind_silent
    by (eapply load_landmark_id_ok, lookup_set_landmarks; eassumption).
  apply bind_undefined. unfold load_barcode. cbn [Landmark.id Landmark.set_id].
  change (barcodes_ (set_landmarks (alter (Landmark.set_id k) i) s)) with (barcodes_ s).
  now rewrite Hb.
Qed.

End LandmarkBounds.

(** X5: a landmark file with more rows than [TOTAL_LANDMARKS] never makes
    [readLandmarks] return true; when the first [TOTAL_LANDMARKS] rows
    resolve, they are stored, the next row is reported as exceeding
    [TOTAL_LANDMARKS], and the load returns false. *)
Theorem landmark_source_beyond_capacity TOTAL_LANDMARKS stod fs dataset s lines :
  ifstream fs (dataset ++ "/Landmark_Groundtruth.dat") = Some lines ->
  (TOTAL_LANDMARKS <= length (landmarks_ s))%nat ->
  (TOTAL_LANDMARKS < length (data_lines lines))%nat ->
  result (readLandmarks TOTAL_LANDMARKS stod fs dataset s) <> Returned true
  /\ forall full line rest ls,
      lines = full ++ line :: rest ->
      Forall2 (resolves stod (barcodes_ s)) (data_lines full) ls ->
      length ls = TOTAL_LANDMARKS ->
      is_comment line = false ->
      readLandmarks TOTAL_LANDMARKS stod fs dataset s
      = (set_landmarks (fun v => ls ++ drop TOTAL_LANDMARKS v) s,
         [Open (dataset ++ "/Landmark_Groundtruth.dat"); LandmarkCapacityExceeded],
         Returned false).
Proof.
  intros Hf Hlen Hmore. split.
  - rewrite (readLandmarks_opened _ _ _ _ lines) by assumption. cbn [result snd].
    apply readLandmarks_lines_too_many; lia.
  - intros full line rest ls -> Hrows Hfull Hc.
    rewrite (readLandmarks_opened _ _ _ _ (full ++ line :: rest)) by assumption.
    rewrite (readLandmarks_lines_app _ _ full _ ls) by (assumption || cbn; lia).
    rewrite readLandmarks_lines_full by (assumption || cbn; lia).
    cbn [final events result fst snd Nat.add take app]. now rewrite Hfull.
Qed.

Lemma landmark_source_beyond_capacity_witness :
  let s := set_barcodes (fun _ => [10; 20]) (blank "ds" 2 1 1) in
  let fs := file_system ["ds"%string] [("ds/Landmark_Groundtruth.dat"%string, two_landmarks)] in
  result (readLandmarks 1 Strtod.stod fs "ds" s) <> Returned true
  /\ readLandmarks 1 Strtod.stod fs "ds" s
     = (set_landmarks (fun v => [Landmark.mk 1 10 2.0 3.0 0.1 0.1] ++ drop 1 v) s,
        [Open ("ds" ++ "/Landmark_Groundtruth.dat"); LandmarkCapacityExceeded],
        Returned false).
Proof.
  intros s fs.
  pose proof (landmark_source_beyond_capacity 1 Strtod.stod fs "ds"%string s two_landmarks
                eq_refl) as [Hnever Hfull]; [vm_compute; lia | vm_compute; lia |].
  split; [exact Hnever|].
  apply (Hfull [tabbed ["1"; "2.0"; "3.0"; "0.1"; "0.1"]%string]
           (tabbed ["2"; "1.5"; "-2.5"; "0.25"; "0.125"]%string) []);
    [reflexivity | | reflexivity | reflexivity].
  constructor; [|constructor]. repeat split; try (vm_compute; congruence).
Defined.

(** X6: [readLandmarks] does not check the id of a row against the bounds
    of the barcode table: a row whose id is below 1 or above the number of
    elements of [barcodes_] makes the loop read [barcodes_] outside the
    array, which is undefined behaviour, the id already written to the
    landmark under construction. *)
Theorem landmark_id_is_not_checked_against_the_barcode_table
    TOTAL_LANDMARKS stod line rest i s l k :
  is_comment line = false ->
  (i < TOTAL_LANDMARKS)%nat ->
  landmarks_ s !! i = Some l ->
  landmark_id line = Returned k ->
  k < 1 \/ Z.of_nat (length (barcodes_ s)) < k ->
  readLandmarks_lines TOTAL_LANDMARKS stod (line :: rest) i s
  = (set_landmarks (alter (Landmark.set_id k) i) s, [], Undefined).
Proof.
  intros Hc Hi Hl Hid Hk. eapply readLandmarks_lines_outside; try eassumption.
  unfold at_index. destruct (Z.leb_spec 0 (k - 1)) as [Hpos|Hneg]; [|reflexivity].
  apply lookup_ge_None. lia.
Qed.

Lemma landmark_id_is_not_checked_against_the_barcode_table_witness :
  readLandmarks_lines 15 Strtod.stod surface_zero 0 (blank "ds" 20 15 5)
  = (set_landmarks (alter (Landmark.set_id 0) O) (blank "ds" 20 15 5), [], Undefined).
Proof.
  apply (landmark_id_is_not_checked_against_the_barcode_table 15 Strtod.stod
           (tabbed ["0"; "2.0"; "3.0"; "0.1"; "0.1"]%string) [] O (blank "ds" 20 15 5)
           (Landmark.mk 0 0 0 0 0 0) 0);
    [reflexivity | lia | reflexivity | reflexivity | left; lia].
Defined.

(** ** Invariants of the measurement vector *)

Section Preservation.

Context (I : DataExtractor -> Prop).

Lemma preserves_bind {A B} (m : M A) (k : A -> M B) :
  preserves I m -> (forall a, preserves I (k a)) -> preserves I (bind m k).
Proof.
  intros Hm Hk s Hs. unfold bind. specialize (Hm s Hs).
  destruct (m s) as [[s1 t1] [a| |]]; cbn in Hm; try exact Hm.
  specialize (Hk a s1 Hm). now destruct (k a s1) as [[s2 t2] r].
Qed.

Lemma preserves_same {A} (m : M A) : stable (fun s => s) m -> preserves I m.
Proof. intros Hm s Hs. now rewrite (Hm s). Qed.

Lemma preserves_update_robot robot_id f :
  (forall s, I s -> I (with_robot robot_id f s)) -> preserves I (update_robot robot_id f).
Proof.
  intros Hf s Hs. unfold update_robot. destruct (at_index (robots_ s) robot_id); cbn; auto.
Qed.

End Preservation.

Section MeasurementInvariants.

Variable stod : string -> outcome float.
Variable fs : FileSystem.

Lemma measurements_of_with_robot robot_id g s :
  measurements_of robot_id (with_robot robot_id (Robot.set_measurements g) s)
  = g <$> measurements_of robot_id s.
Proof.
  unfold measurements_of. rewrite at_index_with_robot.
  now destruct (at_index (robots_ s) robot_id) as [[[a b c]]|].
Qed.

(** What holds of the empty vector and is kept by lines 301-314 holds of
    the measurement vector that [readMeasurements] leaves, however the load
    ends. *)
Lemma readMeasurements_invariant (P : list Measurement.t -> Prop) dataset robot_id s :
  P [] ->
  (forall time subject range bearing v, P v -> P (aggregate time subject range bearing v)) ->
  forall v,
    measurements_of robot_id (final (readMeasurements stod fs dataset robot_id s)) = Some v ->
    P v.
Proof.
  intros Hnil Hstep.
  set (I := fun s => forall v, measurements_of robot_id s = Some v -> P v).
  assert (Hupdate : forall g, (forall v, P v -> P (g v)) ->
             forall s, I s -> I (with_robot robot_id (Robot.set_measurements g) s)).
  { intros g Hg s0 Hs0 v. rewrite measurements_of_with_robot.
    destruct (measurements_of robot_id s0) as [v0|] eqn:E; [|discriminate].
    intros [= <-]. apply Hg, Hs0, E. }
  assert (Hloop : forall lines, preserves I (readMeasurements_lines stod robot_id lines)).
  { induction lines as [|line rest IH]; cbn [readMeasurements_lines]; cbv zeta.
    - now intros s0.
    - destruct (is_comment line); [exact IH|].
      repeat (apply preserves_bind; [|intros ?]);
        first [ exact IH
              | apply preserves_update_robot, Hupdate; auto
              | apply preserves_same, stable_field ]. }
  destruct (at_index (robots_ s) robot_id) as [r|] eqn:Hr.
  - unfold readMeasurements.
    erewrite bind_silent by (eapply update_robot_ok; eassumption).
    assert (H0 : I (with_robot robot_id (Robot.set_measurements (fun _ => [])) s)).
    { intros v. rewrite measurements_of_with_robot. unfold measurements_of. rewrite Hr.
      now intros [= <-]. }
    match goal with
    | |- forall v, measurements_of _ (final (?m ?s0)) = Some v -> P v =>
        assert (Hm : preserves I m); [|exact (Hm s0 H0)]
    end.
    apply preserves_bind; [now intros s0|]. intros [lines|]; [apply Hloop|].
    now intros s0.
  - unfold readMeasurements.
    erewrite bind_undefined by (eapply update_robot_undefined; eassumption).
    unfold measurements_of. cbn [final fst]. rewrite Hr. discriminate.
Qed.

Lemma aggregate_cases time subject range bearing v :
  (exists before r after,
      v = before ++ r :: after
      /\ Forall (fun m => within_window time m = false) before
      /\ within_window time r = true
      /\ aggregate time subject range bearing v
         = before ++ push_reading subject range bearing r :: after)
  \/ (Forall (fun m => within_window time m = false) v
      /\ aggregate time subject range bearing v
         = v ++ [Measurement.Measurement time subject range bearing]).
Proof.
  destruct (decide (find_if (within_window time) v = length v)) as [Hend|Hfound].
  - right. apply find_if_end in Hend. split; [exact Hend|]. now apply aggregate_new.
  - left. destruct (find_if_found _ _ Hfound) as (before & r & after & -> & Hb & Hr & _).
    exists before, r, after. repeat split; try assumption. now apply aggregate_merge.
Qed.

Lemma aggregate_parallel time subject range bearing v :
  Forall parallel v -> Forall parallel (aggregate time subject range bearing v).
Proof.
  intros Hv.
  destruct (aggregate_cases time subject range bearing v)
    as [(before & r & after & -> & _ & _ & ->)|[_ ->]].
  - apply Forall_app in Hv as [Hb Hra]. apply Forall_cons in Hra as [(H1 & H2 & H3) Ha].
    apply Forall_app. split; [exact Hb|]. apply Forall_cons. split; [|exact Ha].
    unfold parallel, push_reading. cbn. rewrite !length_app. cbn.
    repeat split; try lia. now destruct (Measurement.subjects r).
  - apply Forall_app. split; [exact Hv|]. apply Forall_cons. split; [|constructor].
    unfold parallel. cbn. repeat split; discriminate.
Qed.

Lemma separated_cons_inv a v : separated (a :: v) -> separated v.
Proof. intros H i j x y Hij Hi Hj. apply (H (S i) (S j) x y); [lia|exact Hi|exact Hj]. Qed.

Lemma aggregate_separated time subject range bearing v :
  separated v -> separated (aggregate time subject range bearing v).
Proof.
  intros Hv.
  destruct (aggregate_cases time subject range bearing v)
    as [(before & r & after & -> & _ & _ & ->)|[Hout ->]].
  - assert (Htime : forall k x,
               (before ++ push_reading subject range bearing r :: after) !! k = Some x ->
               exists x', (before ++ r :: after) !! k = Some x'
                          /\ Measurement.time x' = Measurement.time x).
    { intros k x Hk. destruct (decide (k = length before)) as [->|Hne].
      - rewrite list_lookup_middle in Hk by reflexivity. injection Hk as <-.
        exists r. split; [now apply list_lookup_middle|reflexivity].
      - exists x. split; [|reflexivity].
        destruct (decide (k < length before)%nat).
        + rewrite lookup_app_l in * by assumption. exact Hk.
        + rewrite lookup_app_r in * by lia.
          destruct (k - length before)%nat as [|k'] eqn:E; [lia|exact Hk]. }
    intros i j a b Hij Hi Hj.
    destruct (Htime i a Hi) as (a' & Hi' & <-). destruct (Htime j b Hj) as (b' & Hj' & <-).
    exact (Hv i j a' b' Hij Hi' Hj').
  - intros i j a b Hij Hi Hj.
    apply lookup_lt_Some in Hj as Hlt. rewrite length_app in Hlt. cbn in Hlt.
    rewrite lookup_app_l in Hi by lia.
    destruct (decide (j < length v)%nat).
    + rewrite lookup_app_l in Hj by assumption. exact (Hv i j a b Hij Hi Hj).
    + rewrite lookup_app_r in Hj by lia.
      replace (j - length v)%nat with O in Hj by lia. injection Hj as <-.
      cbn [Measurement.time Measurement.Measurement].
      eapply inside_window; [exact Hout|]. now apply list_elem_of_lookup_2 in Hi.
Qed.

Lemma zip_snoc {A B} (l : list A) (k : list B) x y :
  length l = length k -> zip (l ++ [x]) (k ++ [y]) = zip l k ++ [(x, y)].
Proof. intros H. now rewrite zip_with_app. Qed.

Lemma entries_push_reading subject range bearing r :
  parallel r ->
  entries (push_reading subject range bearing r) = entries r ++ [(subject, range, bearing)].
Proof.
  intros (H1 & H2 & _). unfold entries, push_reading. cbn.
  rewrite zip_snoc by assumption. apply zip_snoc. rewrite length_zip_with. lia.
Qed.

(** Every sighting of the vector and the one of the row, and no other, are
    in the vector after the row. *)
Lemma aggregate_entries time subject range bearing v :
  Forall parallel v ->
  concat (List.map entries (aggregate time subject range bearing v))
  ≡ₚ concat (List.map entries v) ++ [(subject, range, bearing)].
Proof.
  intros Hv.
  destruct (aggregate_cases time subject range bearing v)
    as [(before & r & after & -> & _ & _ & ->)|[_ ->]].
  - apply Forall_app in Hv as [_ Hra]. apply Forall_cons in Hra as [Hr _].
    rewrite !List.map_app, !concat_app. cbn [List.map concat].
    rewrite entries_push_reading by assumption.
    rewrite <- !app_assoc. apply Permutation_app_head, Permutation_app_head.
    apply Permutation_app_comm.
  - rewrite List.map_app, concat_app. cbn [List.map concat]. now rewrite app_nil_r.
Qed.

Lemma aggregate_all_parallel rows : forall v,
  Forall parallel v -> Forall parallel (aggregate_all rows v).
Proof.
  induction rows as [|[[[time subject] range] bearing] rows IH]; intros v Hv; [exact Hv|].
  apply IH. now apply aggregate_parallel.
Qed.

Lemma aggregate_all_entries rows : forall v,
  Forall parallel v ->
  concat (List.map entries (aggregate_all rows v))
  ≡ₚ concat (List.map entries v) ++ List.map sighting rows.
Proof.
  induction rows as [|[[[time subject] range] bearing] rows IH]; intros v Hv.
  - cbn. now rewrite app_nil_r.
  - cbn [aggregate_all fold_left aggregate_reading List.map sighting].
    change (fold_left aggregate_reading rows ?x) with (aggregate_all rows x).
    rewrite IH by now apply aggregate_parallel.
    rewrite aggregate_entries by assumption. now rewrite <- app_assoc.
Qed.

End MeasurementInvariants.

(** X7: however [readMeasurements] ends, each record of the measurement
    vector that it leaves holds as many ranges and as many bearings as it
    holds subjects, and at least one. *)
Theorem readMeasurements_keeps_the_vectors_parallel stod fs dataset robot_id s v :
  measurements_of robot_id (final (readMeasurements stod fs dataset robot_id s)) = Some v ->
  Forall parallel v.
Proof.
  apply (readMeasurements_invariant stod fs (Forall parallel)); [constructor|].
  intros time subject range bearing. apply aggregate_parallel.
Qed.

Lemma readMeasurements_keeps_the_vectors_parallel_witness :
  Forall parallel
    [Measurement.mk 10 [5; 14] [1.5; 2.5]%float [0.25; -0.5]%float;
     Measurement.mk 10.2 [7] [3.25]%float [0.125]%float].
Proof.
  apply (readMeasurements_keeps_the_vectors_parallel Strtod.stod three_readings "ds"%string 0
           (blank "ds" 20 15 5)).
  vm_compute. reflexivity.
Defined.

(** X8: however [readMeasurements] ends, no record of the measurement vector
    that it leaves has its time within the window of 0.05 s around the time
    of a record behind it: a reading starts a record only when no record
    before is that near. *)
Theorem readMeasurements_separates_the_records stod fs dataset robot_id s v :
  measurements_of robot_id (final (readMeasurements stod fs dataset robot_id s)) = Some v ->
  separated v.
Proof.
  apply (readMeasurements_invariant stod fs separated).
  - intros i j a b _ Hi. now rewrite lookup_nil in Hi.
  - intros time subject range bearing. apply aggregate_separated.
Qed.

Lemma readMeasurements_separates_the_records_witness :
  separated
    [Measurement.mk 10 [5; 14] [1.5; 2.5]%float [0.25; -0.5]%float;
     Measurement.mk 10.2 [7] [3.25]%float [0.125]%float].
Proof.
  apply (readMeasurements_separates_the_records Strtod.stod three_readings "ds"%string 0
           (blank "ds" 20 15 5)).
  vm_compute. reflexivity.
Defined.

(** X9: when the rows of the measurement file all convert, the sightings
    (subject, range, bearing) held by the records that [readMeasurements]
    leaves are those of the rows, each as often as the rows have it: no
    reading is lost and none is stored twice. *)
Theorem readMeasurements_keeps_every_reading stod fs dataset robot_id s r lines rows :
  at_index (robots_ s) robot_id = Some r ->
  fstream fs (robot_file dataset robot_id "_Measurement.dat") = Some lines ->
  Forall2 (fun line row => measurement_row stod line = Returned row) (data_lines lines) rows ->
  exists v,
    measurements_of robot_id (final (readMeasurements stod fs dataset robot_id s)) = Some v
    /\ concat (List.map entries v) ≡ₚ List.map sighting rows.
Proof.
  intros Hr Hf Hrows. exists (aggregate_all rows []). split.
  - rewrite (readMeasurements_rows stod fs dataset robot_id lines rows s r) by assumption.
    cbn [final fst]. rewrite measurements_of_with_robot. unfold measurements_of.
    now rewrite Hr.
  - now rewrite aggregate_all_entries by constructor.
Qed.

Lemma readMeasurements_keeps_every_reading_witness :
  exists v,
    measurements_of 0 (final (readMeasurements Strtod.stod three_readings "ds" 0
                                (blank "ds" 20 15 5))) = Some v
    /\ concat (List.map entries v)
       ≡ₚ List.map sighting [row 10.00 5 1.5 0.25; row 10.03 14 2.5 (-0.5); row 10.20 7 3.25 0.125].
Proof.
  apply (readMeasurements_keeps_every_reading Strtod.stod three_readings "ds"%string 0
           (blank "ds" 20 15 5) (Robot.mk (Robot.mkRaw [] [] []))
           ["# Time [s]    Subject #    range [m]    bearing [rad]"%string;
            tabbed ["10.00"; "5"; "1.5"; "0.25"]%string;
            tabbed ["10.03"; "14"; "2.5"; "-0.5"]%string;
            tabbed ["10.20"; "7"; "3.25"; "0.125"]%string]);
    [reflexivity | reflexivity | rows_convert].
Defined.

(** ** What the loaders leave alone *)

Section Frames.

Variables TOTAL_BARCODES TOTAL_LANDMARKS : nat.
Variable stod : string -> outcome float.
Variable fs : FileSystem.

Lemma readBarcodes_lines_keeps_length lines : forall i,
  stable (fun s => length (barcodes_ s)) (readBarcodes_lines TOTAL_BARCODES lines i).
Proof.
  induction lines as [|line rest IH]; intros i; cbn [readBarcodes_lines]; cbv zeta.
  - apply stable_ret.
  - repeat stable_step; auto. cbn. apply length_insert.
Qed.

Lemma readLandmarks_lines_keeps_length lines : forall i,
  stable (fun s => length (landmarks_ s)) (readLandmarks_lines TOTAL_LANDMARKS stod lines i).
Proof.
  induction lines as [|line rest IH]; intros i; cbn [readLandmarks_lines]; cbv zeta.
  - apply stable_ret.
  - repeat stable_step; auto; cbn; apply length_alter.
Qed.

Lemma readBarcodes_stable {X} (c : DataExtractor -> X) dataset :
  (forall f s, c (set_barcodes f s) = c s) ->
  stable c (readBarcodes TOTAL_BARCODES fs dataset).
Proof.
  intros Hc. unfold readBarcodes. repeat stable_step. now apply readBarcodes_lines_stable.
Qed.

Lemma readLandmarks_stable {X} (c : DataExtractor -> X) dataset :
  (forall f s, c (set_landmarks f s) = c s) ->
  stable c (readLandmarks TOTAL_LANDMARKS stod fs dataset).
Proof.
  intros Hc. unfold readLandmarks. repeat stable_step. now apply readLandmarks_lines_stable.
Qed.

Lemma readGroundTruth_stable {X} (c : DataExtractor -> X) dataset robot_id :
  (forall f s, c (with_robot robot_id (Robot.set_ground_truth f) s) = c s) ->
  stable c (readGroundTruth stod fs dataset robot_id).
Proof.
  intros Hc. unfold readGroundTruth. repeat stable_step; auto.
  now apply readGroundTruth_lines_stable.
Qed.

Lemma readOdometry_stable {X} (c : DataExtractor -> X) dataset robot_id :
  (forall f s, c (with_robot robot_id (Robot.set_odometry f) s) = c s) ->
  stable c (readOdometry stod fs dataset robot_id).
Proof.
  intros Hc. unfold readOdometry. repeat stable_step; auto.
  now apply readOdometry_lines_stable.
Qed.

Lemma readMeasurements_stable {X} (c : DataExtractor -> X) dataset robot_id :
  (forall f s, c (with_robot robot_id (Robot.set_measurements f) s) = c s) ->
  stable c (readMeasurements stod fs dataset robot_id).
Proof.
  intros Hc. unfold readMeasurements. repeat stable_step; auto.
  now apply readMeasurements_lines_stable.
Qed.

(** A per-robot loader on a robot out of range indexes [robots_] outside
    the array before anything else. *)
Lemma robot_loader_out_of_range {A} robot_id (clear : Robot.t -> Robot.t) (rest : M A) s :
  at_index (robots_ s) robot_id = None ->
  (run update_robot robot_id clear then rest)%cpp s = (s, [], Undefined).
Proof. intros Hr. now erewrite bind_undefined by (eapply update_robot_undefined; eassumption). Qed.

Lemma at_index_in_range {A} (v : list A) i a :
  at_index v i = Some a -> 0 <= i /\ (Z.to_nat i < length v)%nat.
Proof.
  unfold at_index. destruct (Z.leb_spec 0 i) as [Hi|Hi]; [|discriminate].
  intros Ha. apply lookup_lt_Some in Ha. lia.
Qed.

(** An update of a robot in range leaves the object as it is outside that
    robot. *)
Lemma beside_robot_with_robot robot_id f s :
  0 <= robot_id -> beside_robot robot_id s (with_robot robot_id f s).
Proof.
  intros Hid. unfold beside_robot, with_robot. cbn. repeat split.
  - apply length_alter.
  - intros j Hj. apply list_lookup_alter_ne. lia.
Qed.

Lemma beside_robot_stable robot_id (m : M bool) :
  0 <= robot_id ->
  (forall X (c : DataExtractor -> X),
      (forall f s, c (with_robot robot_id f s) = c s) -> stable c m) ->
  forall s, beside_robot robot_id s (final (m s)).
Proof.
  intros Hid Hm s.
  pose proof (fun f s => beside_robot_with_robot robot_id f s Hid) as Hw.
  unfold beside_robot in *. repeat split.
  - apply (Hm _ dataset_). intros f s0. apply (Hw f s0).
  - apply (Hm _ barcodes_). intros f s0. apply (Hw f s0).
  - apply (Hm _ landmarks_). intros f s0. apply (Hw f s0).
  - apply (Hm _ (fun s => length (robots_ s))). intros f s0. apply (Hw f s0).
  - intros j Hj. apply (Hm _ (fun s => robots_ s !! j)). intros f s0.
    now apply (Hw f s0).
Qed.

Lemma vector_of_with_robot {A} (get : Robot.Raw -> A) robot_id f s :
  (forall r, get (Robot.raw (f r)) = get (Robot.raw r)) ->
  vector_of get robot_id (with_robot robot_id f s) = vector_of get robot_id s.
Proof.
  intros Hf. unfold vector_of. rewrite at_index_with_robot.
  destruct (at_index (robots_ s) robot_id); cbn; [now rewrite Hf|reflexivity].
Qed.

Lemma bind_ext {A B} (m : M A) (k k' : A -> M B) s :
  (forall a s', k a s' = k' a s') -> bind m k s = bind m k' s.
Proof.
  intros Hk. unfold bind. destruct (m s) as [[s1 t1] [a| |]]; try reflexivity.
  now rewrite Hk.
Qed.

End Frames.

Section TableFrames.

Variables TOTAL_BARCODES TOTAL_LANDMARKS : nat.
Variable stod : string -> outcome float.
Variable fs : FileSystem.

Lemma readBarcodes_frame dataset s :
  let b := final (readBarcodes TOTAL_BARCODES fs dataset s) in
  dataset_ b = dataset_ s /\ landmarks_ b = landmarks_ s /\ robots_ b = robots_ s
  /\ length (barcodes_ b) = length (barcodes_ s).
Proof.
  intros b. subst b.
  repeat split; try (apply (readBarcodes_stable TOTAL_BARCODES fs); reflexivity).
  unfold readBarcodes.
  match goal with |- length (barcodes_ (final (?m s))) = _ =>
    assert (Hm : stable (fun s => length (barcodes_ s)) m); [|exact (Hm s)] end.
  repeat stable_step. apply readBarcodes_lines_keeps_length.
Qed.

Lemma readLandmarks_frame dataset s :
  let l := final (readLandmarks TOTAL_LANDMARKS stod fs dataset s) in
  dataset_ l = dataset_ s /\ barcodes_ l = barcodes_ s /\ robots_ l = robots_ s
  /\ length (landmarks_ l) = length (landmarks_ s).
Proof.
  intros l. subst l.
  repeat split; try (apply (readLandmarks_stable TOTAL_LANDMARKS stod fs); reflexivity).
  unfold readLandmarks.
  match goal with |- length (landmarks_ (final (?m s))) = _ =>
    assert (Hm : stable (fun s => length (landmarks_ s)) m); [|exact (Hm s)] end.
  repeat stable_step. apply readLandmarks_lines_keeps_length.
Qed.

End TableFrames.

(** X10: [readBarcodes] writes to the barcode table alone, [readLandmarks]
    to the landmark table alone, and neither changes the number of elements
    of its table; the three accessors write to nothing. *)
Theorem table_loaders_write_to_their_table_alone
    TOTAL_BARCODES TOTAL_LANDMARKS stod fs dataset s :
  let b := final (readBarcodes TOTAL_BARCODES fs dataset s) in
  let l := final (readLandmarks TOTAL_LANDMARKS stod fs dataset s) in
  (dataset_ b = dataset_ s /\ landmarks_ b = landmarks_ s /\ robots_ b = robots_ s
   /\ length (barcodes_ b) = length (barcodes_ s))
  /\ (dataset_ l = dataset_ s /\ barcodes_ l = barcodes_ s /\ robots_ l = robots_ s
      /\ length (landmarks_ l) = length (landmarks_ s))
  /\ final (getBarcodes s) = s /\ final (getLandmarks s) = s /\ final (getRobots s) = s.
Proof.
  intros b l. subst b l.
  split; [apply readBarcodes_frame|]. split; [apply readLandmarks_frame|].
  unfold getBarcodes, getLandmarks, getRobots, bind, reads.
  now destruct (String.eqb EmptyString (dataset_ s)).
Qed.

(** X11: a per-robot loader writes to one vector of one robot: whatever the
    files hold and however the load ends, the path, the two tables, the
    number of robots and the other robots are as before, and so are the two
    other vectors of the robot. *)
Theorem robot_loaders_write_to_their_vector_alone stod fs dataset robot_id s :
  let g := final (readGroundTruth stod fs dataset robot_id s) in
  let o := final (readOdometry stod fs dataset robot_id s) in
  let m := final (readMeasurements stod fs dataset robot_id s) in
  (beside_robot robot_id s g
   /\ vector_of Robot.odometry robot_id g = vector_of Robot.odometry robot_id s
   /\ vector_of Robot.measurements robot_id g = vector_of Robot.measurements robot_id s)
  /\ (beside_robot robot_id s o
      /\ vector_of Robot.ground_truth robot_id o = vector_of Robot.ground_truth robot_id s
      /\ vector_of Robot.measurements robot_id o = vector_of Robot.measurements robot_id s)
  /\ (beside_robot robot_id s m
      /\ vector_of Robot.ground_truth robot_id m = vector_of Robot.ground_truth robot_id s
      /\ vector_of Robot.odometry robot_id m = vector_of Robot.odometry robot_id s).
Proof.
  intros g o m. subst g o m.
  destruct (at_index (robots_ s) robot_id) as [r|] eqn:Hr.
  - apply at_index_in_range in Hr as [Hid _].
    repeat split;
      first
        [ apply (beside_robot_stable robot_id _ Hid); intros X c Hc;
          first [ apply readGroundTruth_stable | apply readOdometry_stable
                | apply readMeasurements_stable ];
          intros f s0; apply Hc
        | first [ apply (readGroundTruth_stable stod fs (vector_of _ robot_id))
                | apply (readOdometry_stable stod fs (vector_of _ robot_id))
                | apply (readMeasurements_stable stod fs (vector_of _ robot_id)) ];
          intros f s0; apply vector_of_with_robot; now intros [[a b c]] ].
  - unfold readGroundTruth, readOdometry, readMeasurements.
    rewrite !robot_loader_out_of_range by assumption. cbn [final fst].
    unfold beside_robot. repeat split.
Qed.

(** X12: a line whose first character is [#] is skipped wherever it stands
    in a file: each of the five loops does on the lines of a file what it
    does on the lines that are no comments. *)
Theorem comment_lines_are_skipped_wherever_they_stand
    TOTAL_BARCODES TOTAL_LANDMARKS stod robot_id lines i s :
  readBarcodes_lines TOTAL_BARCODES lines i s
  = readBarcodes_lines TOTAL_BARCODES (data_lines lines) i s
  /\ readLandmarks_lines TOTAL_LANDMARKS stod lines i s
     = readLandmarks_lines TOTAL_LANDMARKS stod (data_lines lines) i s
  /\ readGroundTruth_lines stod robot_id lines s
     = readGroundTruth_lines stod robot_id (data_lines lines) s
  /\ readOdometry_lines stod robot_id lines s
     = readOdometry_lines stod robot_id (data_lines lines) s
  /\ readMeasurements_lines stod robot_id lines s
     = readMeasurements_lines stod robot_id (data_lines lines) s.
Proof.
  repeat split; revert i s; induction lines as [|line rest IH]; intros i s;
    try reflexivity; rewrite data_lines_cons;
    cbn [readBarcodes_lines readLandmarks_lines readGroundTruth_lines readOdometry_lines
           readMeasurements_lines];
    destruct (is_comment line) eqn:Hc; try (first [apply (IH i) | apply IH]);
    cbn [readBarcodes_lines readLandmarks_lines readGroundTruth_lines readOdometry_lines
           readMeasurements_lines];
    rewrite Hc; cbv zeta;
    repeat first
      [ apply (IH i)
      | apply IH
      | reflexivity
      | apply bind_ext; intros ? ?
      | match goal with |- context [if ?b then _ else _] => destruct b end ].
Qed.

(** X13: the constructor that takes a dataset and a sample period ends as
    [setDataSet] on that dataset does: the sample period has no effect on
    the object, and the [false] that [syncData] returns is not looked at.
    [syncData] and [setSamplePeriod] return [false] and change nothing. *)
Theorem constructor_ignores_the_sample_period
    TOTAL_BARCODES TOTAL_LANDMARKS TOTAL_ROBOTS stod fs dataset sample_period s :
  DataExtractor_ctor TOTAL_BARCODES TOTAL_LANDMARKS TOTAL_ROBOTS stod fs dataset sample_period s
  = setDataSet TOTAL_BARCODES TOTAL_LANDMARKS TOTAL_ROBOTS stod fs dataset s
  /\ syncData sample_period s = (s, [], Returned false)
  /\ setSamplePeriod sample_period s = (s, [], Returned false).
Proof.
  split; [|split; reflexivity].
  unfold DataExtractor_ctor, bind at 1.
  destruct (setDataSet _ _ _ _ _ _ s) as [[s1 t1] [[]| |]]; try reflexivity.
  cbn. now rewrite app_nil_r.
Qed.

(** ** How the loaders end *)

Section Ends.

Lemma quiet_ret {A} (a : A) : quiet (ret a).
Proof. intros s. split; [reflexivity|discriminate]. Qed.

Lemma quiet_field {A} (conv : string -> outcome A) line start_index end_index :
  (forall t, conv t <> Undefined /\ forall e, conv t = Thrown e -> parse_error e) ->
  quiet (field conv line start_index end_index).
Proof.
  intros Hconv s. split; [reflexivity|]. unfold field, lift, result. cbn [snd].
  unfold Str.substr. destruct (Str.size line <? start_index)%N; cbn [obind].
  - intros e [= <-]. now right.
  - intros e He. exact (proj2 (Hconv _) e He).
Qed.

Lemma quiet_store_barcode i v : quiet (store_barcode i v).
Proof. intros s. unfold store_barcode. destruct (barcodes_ s !! i); split; easy. Qed.

Lemma quiet_load_barcode i : quiet (load_barcode i).
Proof. intros s. unfold load_barcode. destruct (at_index (barcodes_ s) i); split; easy. Qed.

Lemma quiet_store_landmark i set : quiet (store_landmark i set).
Proof. intros s. unfold store_landmark. destruct (landmarks_ s !! i); split; easy. Qed.

Lemma quiet_load_landmark_id i : quiet (load_landmark_id i).
Proof. intros s. unfold load_landmark_id. destruct (landmarks_ s !! i); split; easy. Qed.

Lemma quiet_update_robot robot_id f : quiet (update_robot robot_id f).
Proof. intros s. unfold update_robot. destruct (at_index (robots_ s) robot_id); split; easy. Qed.

Lemma loop_ends_bind {A} (m : M A) (k : A -> M bool) :
  quiet m -> (forall a s, loop_ends (k a s)) -> forall s, loop_ends (bind m k s).
Proof.
  intros Hm Hk s. unfold bind. destruct (Hm s) as [Ht He].
  destruct (m s) as [[s1 t1] [a|e|]]; cbn in Ht, He; subst t1.
  - specialize (Hk a s1). now destruct (k a s1) as [[s2 t2] r].
  - unfold loop_ends. cbn. split; [reflexivity|]. now apply He.
  - reflexivity.
Qed.

Lemma loop_ends_true s : loop_ends (ret true s).
Proof. reflexivity. Qed.

Lemma loop_ends_false d s : loop_ends ((run emit (Cerr d) then ret false)%cpp s).
Proof. unfold loop_ends. cbn. eauto. Qed.

End Ends.

(** One step through the loop of a loader. *)
Ltac loop_step Hstod :=
  match goal with
  | |- loop_ends (ret true _) => apply loop_ends_true
  | |- loop_ends (bind (emit (Cerr _)) (fun _ => ret false) _) => apply loop_ends_false
  | |- loop_ends ((if ?b then _ else _) _) => destruct b
  | |- loop_ends (bind _ _ _) =>
      apply loop_ends_bind;
      [ first [ apply quiet_field; first [exact Hstod | exact stoi_conforming]
              | apply quiet_store_barcode | apply quiet_load_barcode
              | apply quiet_store_landmark | apply quiet_load_landmark_id
              | apply quiet_update_robot ]
      | intros ? ? ]
  end.

Section LoopsEnd.

Variables TOTAL_BARCODES TOTAL_LANDMARKS : nat.
Variable stod : string -> outcome float.
Hypothesis Hstod : conforming stod.
Variable fs : FileSystem.

Lemma readBarcodes_lines_ends lines : forall i s,
  loop_ends (readBarcodes_lines TOTAL_BARCODES lines i s).
Proof using Type.
  induction lines as [|line rest IH]; intros i s; cbn [readBarcodes_lines]; cbv zeta.
  - apply loop_ends_true.
  - destruct (is_comment line); [apply IH|]. repeat loop_step Hstod. apply IH.
Qed.

Lemma readLandmarks_lines_ends lines : forall i s,
  loop_ends (readLandmarks_lines TOTAL_LANDMARKS stod lines i s).
Proof using Hstod.
  induction lines as [|line rest IH]; intros i s; cbn [readLandmarks_lines]; cbv zeta.
  - apply loop_ends_true.
  - destruct (is_comment line); [apply IH|]. repeat loop_step Hstod. apply IH.
Qed.

Lemma readGroundTruth_lines_ends robot_id lines : forall s,
  loop_ends (readGroundTruth_lines stod robot_id lines s).
Proof using Hstod.
  induction lines as [|line rest IH]; intros s; cbn [readGroundTruth_lines]; cbv zeta.
  - apply loop_ends_true.
  - destruct (is_comment line); [apply IH|]. repeat loop_step Hstod. apply IH.
Qed.

Lemma readOdometry_lines_ends robot_id lines : forall s,
  loop_ends (readOdometry_lines stod robot_id lines s).
Proof using Hstod.
  induction lines as [|line rest IH]; intros s; cbn [readOdometry_lines]; cbv zeta.
  - apply loop_ends_true.
  - destruct (is_comment line); [apply IH|]. repeat loop_step Hstod. apply IH.
Qed.

Lemma readMeasurements_lines_ends robot_id lines : forall s,
  loop_ends (readMeasurements_lines stod robot_id lines s).
Proof using Hstod.
  induction lines as [|line rest IH]; intros s; cbn [readMeasurements_lines]; cbv zeta.
  - apply loop_ends_true.
  - destruct (is_comment line); [apply IH|]. repeat loop_step Hstod. apply IH.
Qed.

(** A loader behind its stream: the diagnostic of a stream that is not
    open, or the loop. *)
Lemma opened_ends stream filename kind (loop : list string -> M bool) s :
  (forall lines s', loop_ends (loop lines s')) ->
  loader_ends stream filename
    ((let* file := open stream filename in
      match file with
      | None => run emit (Cerr (UnableToOpen kind filename)) then ret false
      | Some lines => loop lines
      end)%cpp s).
Proof.
  intros Hloop. rewrite bind_open. unfold loader_ends. cbn [events final result fst snd].
  eexists. split; [reflexivity|]. destruct (stream filename) as [lines|].
  - split; [|eauto]. specialize (Hloop lines s).
    now destruct (loop lines s) as [[s1 t1] r].
  - split; [|discriminate]. unfold loop_ends. cbn. eauto.
Qed.

Lemma readBarcodes_ends dataset s :
  dataset_ s <> EmptyString ->
  loader_ends (ifstream fs) (dataset ++ "/Barcodes.dat")
    (readBarcodes TOTAL_BARCODES fs dataset s).
Proof using Type.
  intros Hd. unfold readBarcodes. erewrite bind_silent by reflexivity.
  destruct (String.eqb_spec EmptyString (dataset_ s)) as [E|_]; [congruence|].
  apply (opened_ends _ _ Barcodes (fun lines => readBarcodes_lines TOTAL_BARCODES lines 0)).
  intros lines s'. apply readBarcodes_lines_ends.
Qed.

Lemma readLandmarks_ends dataset s :
  loader_ends (ifstream fs) (dataset ++ "/Landmark_Groundtruth.dat")
    (readLandmarks TOTAL_LANDMARKS stod fs dataset s).
Proof using Hstod.
  apply (opened_ends _ _ Landmarks
           (fun lines => readLandmarks_lines TOTAL_LANDMARKS stod lines 0)).
  intros lines s'. apply readLandmarks_lines_ends.
Qed.

(** A per-robot loader ends behind its stream, or, the robot out of range,
    in undefined behaviour before it. *)
Lemma robot_loader_ends robot_id clear stream filename kind (loop : list string -> M bool) s :
  (forall lines s', loop_ends (loop lines s')) ->
  let r := (run update_robot robot_id clear then
            let* file := open stream filename in
            match file with
            | None => run emit (Cerr (UnableToOpen kind filename)) then ret false
            | Some lines => loop lines
            end)%cpp s in
  loader_ends stream filename r \/ (events r = [] /\ result r = Undefined).
Proof.
  intros Hloop r. subst r.
  destruct (at_index (robots_ s) robot_id) as [x|] eqn:Hx.
  - left. erewrite bind_silent by (eapply update_robot_ok; eassumption).
    now apply opened_ends.
  - right. now rewrite robot_loader_out_of_range.
Qed.

End LoopsEnd.

(** ** How a load ends *)

Section Runs.

Lemma opened_app t1 t2 : opened (t1 ++ t2) = opened t1 ++ opened t2.
Proof. apply omap_app. Qed.

Lemma diagnostics_app t1 t2 : diagnostics (t1 ++ t2) = diagnostics t1 ++ diagnostics t2.
Proof. apply omap_app. Qed.

Lemma run_ends_bind {A B} files1 T1 (K1 : A -> list event -> Prop) (m : M A)
    files2 T2 (K2 : A -> B -> list event -> Prop) (k : A -> M B) s :
  run_ends files1 T1 K1 (m s) ->
  (forall a s1, run_ends files2 (T2 a) (K2 a) (k a s1)) ->
  run_ends (files1 ++ files2)
    (fun e t => T1 e t
                \/ exists a t1 t2, t = t1 ++ t2 /\ opened t1 = files1 /\ K1 a t1 /\ T2 a e t2)
    (fun b t => exists a t1 t2, t = t1 ++ t2 /\ K1 a t1 /\ K2 a b t2)
    (bind m k s).
Proof.
  intros (Hp & Ht & Hr) Hk. unfold bind.
  destruct (m s) as [[s1 t1] [a|e|]]; cbn [events result fst snd] in *.
  - destruct (Hr a eq_refl) as [Ho Ha]. destruct (Hk a s1) as (Hp2 & Ht2 & Hr2).
    destruct (k a s1) as [[s2 t2] r]; cbn [events result fst snd] in *.
    unfold run_ends. cbn [events result fst snd]. rewrite opened_app, Ho.
    split; [now apply prefix_app|]. split.
    + intros e He. right. exists a, t1, t2. auto.
    + intros b Hb. destruct (Hr2 b Hb) as [Ho2 Hb2]. split; [now rewrite Ho2|].
      exists a, t1, t2. auto.
  - unfold run_ends. cbn [events result fst snd].
    split; [now apply prefix_app_r|]. split; [|discriminate].
    intros e' [= <-]. left. now apply Ht.
  - unfold run_ends. cbn [events result fst snd].
    split; [now apply prefix_app_r|]. split; discriminate.
Qed.

Lemma run_ends_consequence {A} files T T' (K K' : A -> list event -> Prop) r :
  (forall e t, T e t -> T' e t) -> (forall a t, K a t -> K' a t) ->
  run_ends files T K r -> run_ends files T' K' r.
Proof.
  intros HT HK (Hp & Ht & Hr). split; [exact Hp|]. split; [now auto|].
  intros a Ha. destruct (Hr a Ha). auto.
Qed.

Lemma run_ends_undefined {A} files T (K : A -> list event -> Prop) r :
  events r = [] -> result r = Undefined -> run_ends files T K r.
Proof.
  intros He Hr. unfold run_ends. rewrite He, Hr.
  split; [apply prefix_nil|]. split; discriminate.
Qed.

Lemma run_ends_loader stream filename r :
  loader_ends stream filename r ->
  run_ends [filename] (fun e _ => parse_error e) (verdict (is_Some (stream filename))) r.
Proof.
  intros (tail & He & Hloop & Hopen). unfold run_ends, loop_ends in *. rewrite He.
  cbn [result events fst snd] in Hloop.
  destruct (result r) as [[|]|e|]; cbn [opened omap list_omap].
  - subst tail. split; [reflexivity|]. split; [discriminate|]. intros a [= <-]. cbn. auto.
  - destruct Hloop as [d ->]. split; [reflexivity|]. split; [discriminate|].
    intros a [= <-]. cbn. split; [reflexivity|discriminate].
  - destruct Hloop as [-> Hp]. split; [reflexivity|]. split; [|discriminate].
    now intros e' [= <-].
  - subst tail. split; [reflexivity|]. split; discriminate.
Qed.

End Runs.

Section LoadEnds.

Variables TOTAL_BARCODES TOTAL_LANDMARKS TOTAL_ROBOTS : nat.
Variable stod : string -> outcome float.
Hypothesis Hstod : conforming stod.
Variable fs : FileSystem.

Lemma readBarcodes_run_ends dataset s :
  dataset_ s = dataset ->
  run_ends (barcode_files dataset) (fun e _ => parse_error e)
    (verdict (is_Some (ifstream fs (dataset ++ "/Barcodes.dat"))))
    (readBarcodes TOTAL_BARCODES fs dataset s).
Proof using Type.
  intros Hd. unfold barcode_files.
  destruct (String.eqb_spec EmptyString dataset) as [E|E].
  - unfold readBarcodes. erewrite bind_silent by reflexivity. rewrite Hd, <- E. cbn.
    unfold run_ends. cbn. split; [reflexivity|]. split; [discriminate|].
    intros a [= <-]. split; [reflexivity|]. cbn. discriminate.
  - apply run_ends_loader, readBarcodes_ends. congruence.
Qed.

Lemma readLandmarks_run_ends dataset s :
  run_ends [(dataset ++ "/Landmark_Groundtruth.dat")%string] (fun e _ => parse_error e)
    (verdict (is_Some (ifstream fs (dataset ++ "/Landmark_Groundtruth.dat"))))
    (readLandmarks TOTAL_LANDMARKS stod fs dataset s).
Proof using Hstod. apply run_ends_loader, readLandmarks_ends, Hstod. Qed.

Lemma robot_loader_run_ends robot_id clear stream filename kind
    (loop : list string -> M bool) s :
  (forall lines s', loop_ends (loop lines s')) ->
  run_ends [filename] (fun e _ => parse_error e) (verdict (is_Some (stream filename)))
    ((run update_robot robot_id clear then
      let* file := open stream filename in
      match file with
      | None => run emit (Cerr (UnableToOpen kind filename)) then ret false
      | Some lines => loop lines
      end)%cpp s).
Proof.
  intros Hloop.
  destruct (robot_loader_ends robot_id clear stream filename kind loop s Hloop) as [H|[He Hr]].
  - now apply run_ends_loader.
  - now apply run_ends_undefined.
Qed.

Lemma readGroundTruth_run_ends dataset robot_id s :
  run_ends [robot_file dataset robot_id "_Groundtruth.dat"] (fun e _ => parse_error e)
    (verdict (is_Some (ifstream fs (robot_file dataset robot_id "_Groundtruth.dat"))))
    (readGroundTruth stod fs dataset robot_id s).
Proof using Hstod.
  apply (robot_loader_run_ends _ _ _ _ GroundtruthData (readGroundTruth_lines stod robot_id)).
  intros lines s'. now apply readGroundTruth_lines_ends.
Qed.

Lemma readOdometry_run_ends dataset robot_id s :
  run_ends [robot_file dataset robot_id "_Odometry.dat"] (fun e _ => parse_error e)
    (verdict (is_Some (fstream fs (robot_file dataset robot_id "_Odometry.dat"))))
    (readOdometry stod fs dataset robot_id s).
Proof using Hstod.
  apply (robot_loader_run_ends _ _ _ _ OdometryData (readOdometry_lines stod robot_id)).
  intros lines s'. now apply readOdometry_lines_ends.
Qed.

Lemma readMeasurements_run_ends dataset robot_id s :
  run_ends [robot_file dataset robot_id "_Measurement.dat"] (fun e _ => parse_error e)
    (verdict (is_Some (fstream fs (robot_file dataset robot_id "_Measurement.dat"))))
    (readMeasurements stod fs dataset robot_id s).
Proof using Hstod.
  apply (robot_loader_run_ends _ _ _ _ MeasurementData (readMeasurements_lines stod robot_id)).
  intros lines s'. now apply readMeasurements_lines_ends.
Qed.

Lemma robot_range_S i n : robot_range i (S n) = i :: robot_range (i + 1) n.
Proof.
  unfold robot_range. cbn [seq List.map]. f_equal; [lia|].
  rewrite <- seq_shift, List.map_map. apply List.map_ext. intros k. lia.
Qed.

Lemma robots_files_S dataset i n :
  robots_files dataset i (S n) = robot_files dataset i ++ robots_files dataset (i + 1) n.
Proof. unfold robots_files. now rewrite robot_range_S. Qed.

(** The loop over the robots: the flags that it returns are all true only
    if they were at the start, no loader wrote a diagnostic and every file
    was open; one of them is false only if one was at the start or a
    diagnostic was written. *)
Lemma readRobots_run_ends dataset n : forall i g o m s,
  run_ends (robots_files dataset i n) (fun e _ => parse_error e)
    (fun flags t =>
       let '(g', o', m') := flags in
       (g' && o' && m' = true ->
        g && o && m = true /\ diagnostics t = []
        /\ Forall (robot_available fs dataset) (robot_range i n))
       /\ (g' && o' && m' = false -> g && o && m = false \/ diagnostics t <> []))
    (readRobots stod fs dataset n i g o m s).
Proof using Hstod.
  induction n as [|n IH]; intros i g o m s.
  - cbn [readRobots]. unfold run_ends, ret. cbn. split; [reflexivity|].
    split; [discriminate|]. intros [[g' o'] m'] [= <- <- <-]. split; [reflexivity|].
    split; [intros ->; repeat split; constructor | intros ->; now left].
  - cbn [readRobots]. rewrite robots_files_S. unfold robot_files.
    eapply run_ends_consequence; cycle 2.
    + change [?a; ?b; ?c] with ([a] ++ [b] ++ [c] ++ []) at 1. rewrite <- !app_assoc.
      eapply run_ends_bind; [apply readGroundTruth_run_ends|]. intros g1 s1.
      eapply run_ends_bind; [apply readOdometry_run_ends|]. intros o1 s2.
      eapply run_ends_bind; [apply readMeasurements_run_ends|]. intros m1 s3.
      apply IH.
    + cbv beta. intros e t [H|(g1 & t1 & t2 & _ & _ & _ & [H|(o1 & t3 & t4 & _ & _ & _ &
        [H|(m1 & t5 & t6 & _ & _ & _ & H)])])]; exact H.
    + cbv beta. intros [[g' o'] m'] t
        (g1 & t1 & t2 & -> & Hg & o1 & t3 & t4 & -> & Ho & m1 & t5 & t6 & -> & Hm & Hall & Hone).
      rewrite robot_range_S, !diagnostics_app. unfold verdict in Hg, Ho, Hm. split.
      * intros Hflags. destruct (Hall Hflags) as (Hstart & Hd & Hav).
        destruct g, o, m, g1, o1, m1; try discriminate Hstart.
        destruct Hg as [-> Hg], Ho as [-> Ho], Hm as [-> Hm]. rewrite Hd.
        repeat split. constructor; [|exact Hav]. repeat split; assumption.
      * intros Hflags.
        destruct g, o, m; try (now left). right.
        destruct g1; [|destruct (diagnostics t1); [congruence|discriminate]].
        destruct Hg as [-> _]. cbn [app].
        destruct o1; [|destruct (diagnostics t3); [congruence|discriminate]].
        destruct Ho as [-> _]. cbn [app].
        destruct m1; [|destruct (diagnostics t5); [congruence|discriminate]].
        destruct Hm as [-> _]. cbn [app].
        destruct (Hone Hflags) as [H|H]; [discriminate H|exact H].
Qed.

End LoadEnds.

Section LoadAsAWhole.

Variables TOTAL_BARCODES TOTAL_LANDMARKS TOTAL_ROBOTS : nat.
Variable stod : string -> outcome float.
Hypothesis Hstod : conforming stod.
Variable fs : FileSystem.

(** A load that has found its directory: what it throws is a parse error
    of a row, or, behind the last file and at least one diagnostic, the
    failure of the load; it returns only if nothing was reported and every
    file was open. *)
Lemma setDataSet_run_ends dataset s :
  stat_ok fs dataset = true ->
  run_ends (dataset_files dataset TOTAL_ROBOTS)
    (fun e t =>
       parse_error e
       \/ (e = LoadFailed /\ opened t = dataset_files dataset TOTAL_ROBOTS
           /\ diagnostics t <> []))
    (fun _ t => diagnostics t = [] /\ dataset_available fs dataset TOTAL_ROBOTS)
    (setDataSet TOTAL_BARCODES TOTAL_LANDMARKS TOTAL_ROBOTS stod fs dataset s).
Proof using Hstod.
  intros Hstat. unfold setDataSet. rewrite Hstat.
  erewrite bind_silent by reflexivity.
  set (failed := fun (b l : bool) (flags : bool * bool * bool) (e : exception)
                     (t : list event) =>
         e = LoadFailed /\ t = []
         /\ let '(g, o, m) := flags in b && l && g && o && m = false).
  set (succeeded := fun (b l : bool) (flags : bool * bool * bool) (_ : unit)
                        (t : list event) =>
         t = [] /\ let '(g, o, m) := flags in b && l && g && o && m = true).
  assert (Hlast : forall b l flags s3,
             run_ends [] (failed b l flags) (succeeded b l flags)
               ((let '(g, o, m) := flags in
                 if negb (b && l && g && o && m) then throw LoadFailed else ret tt) s3)).
  { intros b l [[g o] m] s3. unfold run_ends, failed, succeeded.
    destruct (b && l && g && o && m); cbn.
    - split; [reflexivity|]. split; [discriminate|]. auto.
    - split; [reflexivity|]. split; [|discriminate]. intros e [= <-]. auto. }
  pose proof (fun b l s2 =>
    run_ends_bind _ _ _ _ _ _ _ _ s2
      (readRobots_run_ends stod Hstod fs dataset TOTAL_ROBOTS 0 true true true s2)
      (Hlast b l)) as Hrobots.
  pose proof (fun b s1 =>
    run_ends_bind _ _ _ _ _ _ _ _ s1
      (readLandmarks_run_ends TOTAL_LANDMARKS stod Hstod fs dataset s1)
      (Hrobots b)) as Hlandmarks.
  pose proof (run_ends_bind _ _ _ _ _ _ _ _ (set_dataset dataset s)
      (readBarcodes_run_ends TOTAL_BARCODES fs dataset (set_dataset dataset s) eq_refl)
      Hlandmarks) as Hload.
  clear Hlast Hrobots Hlandmarks. cbv beta in Hload.
  replace (dataset_files dataset TOTAL_ROBOTS)
    with (barcode_files dataset
          ++ [(dataset ++ "/Landmark_Groundtruth.dat")%string]
          ++ robots_files dataset 0 TOTAL_ROBOTS ++ [])
    by (unfold dataset_files; now rewrite app_nil_r).
  eapply run_ends_consequence; [ | | exact Hload]; unfold failed, succeeded.
  - cbv beta. intros e t
      [H|(b & t1 & t2 & -> & Ho1 & Hb & [H|(l & t3 & t4 & -> & Ho2 & Hl &
        [H|([[g o] m] & t5 & t6 & -> & Ho3 & [Hall Hone] & -> & -> & Hflags)])])];
      try (now left).
    right. split; [reflexivity|]. rewrite !opened_app, !diagnostics_app, Ho1, Ho2, Ho3.
    cbn [opened omap list_omap]. rewrite !app_nil_r. split; [reflexivity|].
    unfold verdict in Hb, Hl.
    destruct b; [|destruct (diagnostics t1); [congruence|discriminate]].
    destruct Hb as [-> _]. cbn [app].
    destruct l; [|destruct (diagnostics t3); [congruence|discriminate]].
    destruct Hl as [-> _]. cbn [app]. cbn [andb] in Hflags.
    destruct (Hone Hflags) as [H|H]; [discriminate H|exact H].
  - cbv beta. intros [] t
      (b & t1 & t2 & -> & Hb & l & t3 & t4 & -> & Hl & [[g o] m] & t5 & t6 & -> &
       [Hall Hone] & -> & Hflags).
    unfold verdict in Hb, Hl. destruct b, l; try discriminate Hflags.
    cbn [andb] in Hflags. destruct (Hall Hflags) as (_ & Hd & Hav).
    rewrite !diagnostics_app, Hd.
    destruct Hb as [-> Hb], Hl as [-> Hl]. repeat split; assumption.
Qed.

End LoadAsAWhole.

(** X14: whatever the files hold, an exception that leaves [setDataSet] is
    one of four: the [std::runtime_error] of a path that does not exist, the
    [std::runtime_error] of a load that failed, or the
    [std::invalid_argument] or [std::out_of_range] of a row that does not
    convert. *)
Theorem setDataSet_throws_one_of_four_exceptions
    TOTAL_BARCODES TOTAL_LANDMARKS TOTAL_ROBOTS stod fs dataset s e :
  conforming stod ->
  result (setDataSet TOTAL_BARCODES TOTAL_LANDMARKS TOTAL_ROBOTS stod fs dataset s) = Thrown e ->
  e = PathNotFound \/ e = LoadFailed \/ e = std_invalid_argument \/ e = std_out_of_range.
Proof.
  intros Hstod He. destruct (stat_ok fs dataset) eqn:Hstat.
  - destruct (setDataSet_run_ends TOTAL_BARCODES TOTAL_LANDMARKS TOTAL_ROBOTS stod Hstod fs
                dataset s Hstat) as (_ & Ht & _).
    destruct (Ht e He) as [[H|H]|[H _]]; auto.
  - rewrite setDataSet_missing in He by assumption. injection He as <-. now left.
Qed.

Lemma setDataSet_throws_one_of_four_exceptions_witness :
  std_out_of_range = PathNotFound \/ std_out_of_range = LoadFailed
  \/ std_out_of_range = std_invalid_argument \/ std_out_of_range = std_out_of_range.
Proof.
  apply (setDataSet_throws_one_of_four_exceptions 20 15 5 Strtod.stod bare_barcodes
           "ds"%string (blank EmptyString 20 15 5) std_out_of_range Strtod_conforming).
  vm_compute. reflexivity.
Defined.

(** X15: a load that has found its directory constructs its streams in one
    order, the barcodes, the landmarks, then ground truth, odometry and
    measurements robot by robot, as far as it gets; when it returns, and
    when it throws the failure of the load, it has gone through all of them:
    a loader that returns false keeps none of the later files from being
    read. *)
Theorem setDataSet_opens_the_files_in_order
    TOTAL_BARCODES TOTAL_LANDMARKS TOTAL_ROBOTS stod fs dataset s :
  conforming stod ->
  stat_ok fs dataset = true ->
  let r := setDataSet TOTAL_BARCODES TOTAL_LANDMARKS TOTAL_ROBOTS stod fs dataset s in
  opened (events r) `prefix_of` dataset_files dataset TOTAL_ROBOTS
  /\ (result r = Returned tt \/ result r = Thrown LoadFailed ->
      opened (events r) = dataset_files dataset TOTAL_ROBOTS).
Proof.
  intros Hstod Hstat r.
  destruct (setDataSet_run_ends TOTAL_BARCODES TOTAL_LANDMARKS TOTAL_ROBOTS stod Hstod fs
              dataset s Hstat) as (Hp & Ht & Hr).
  split; [exact Hp|]. intros [H|H].
  - now destruct (Hr tt H).
  - destruct (Ht _ H) as [[E|E]|(_ & Ho & _)]; [discriminate E..|exact Ho].
Qed.

Lemma setDataSet_opens_the_files_in_order_witness :
  let r := setDataSet 20 15 2 Strtod.stod empty_directory "ds" (blank EmptyString 20 15 2) in
  opened (events r) `prefix_of` dataset_files "ds" 2
  /\ opened (events r)
     = ["ds/Barcodes.dat"; "ds/Landmark_Groundtruth.dat";
        "ds/Robot1_Groundtruth.dat"; "ds/Robot1_Odometry.dat"; "ds/Robot1_Measurement.dat";
        "ds/Robot2_Groundtruth.dat"; "ds/Robot2_Odometry.dat"; "ds/Robot2_Measurement.dat"]%string.
Proof.
  intros r.
  destruct (setDataSet_opens_the_files_in_order 20 15 2 Strtod.stod empty_directory "ds"%string
              (blank EmptyString 20 15 2) Strtod_conforming eq_refl) as [Hp Hall].
  split; [exact Hp|].
  subst r. rewrite Hall; [reflexivity|]. right. vm_compute. reflexivity.
Defined.

(** X16: [setDataSet] returns only if the directory exists, every file of
    the dataset was open and nothing was written to [std::cerr]; and it
    throws the failure of the load only after a diagnostic was written. *)
Theorem setDataSet_returns_only_after_a_silent_load
    TOTAL_BARCODES TOTAL_LANDMARKS TOTAL_ROBOTS stod fs dataset s :
  conforming stod ->
  let r := setDataSet TOTAL_BARCODES TOTAL_LANDMARKS TOTAL_ROBOTS stod fs dataset s in
  (result r = Returned tt ->
   stat_ok fs dataset = true /\ diagnostics (events r) = []
   /\ dataset_available fs dataset TOTAL_ROBOTS)
  /\ (result r = Thrown LoadFailed -> diagnostics (events r) <> []).
Proof.
  intros Hstod r. subst r. destruct (stat_ok fs dataset) eqn:Hstat.
  - destruct (setDataSet_run_ends TOTAL_BARCODES TOTAL_LANDMARKS TOTAL_ROBOTS stod Hstod fs
                dataset s Hstat) as (_ & Ht & Hr).
    split.
    + intros H. destruct (Hr tt H) as [_ [Hd Hav]]. auto.
    + intros H. destruct (Ht _ H) as [[E|E]|(_ & _ & Hd)]; [discriminate E..|exact Hd].
  - rewrite setDataSet_missing by assumption. split; discriminate.
Qed.

Lemma setDataSet_returns_only_after_a_silent_load_witness :
  let r := setDataSet 2 1 1 Strtod.stod one_robot "ds" (blank EmptyString 2 1 1) in
  (stat_ok one_robot "ds" = true /\ diagnostics (events r) = []
   /\ dataset_available one_robot "ds" 1)
  /\ diagnostics (events (setDataSet 20 15 2 Strtod.stod empty_directory "ds"
                            (blank EmptyString 20 15 2))) <> [].
Proof.
  intros r. split.
  - apply (proj1 (setDataSet_returns_only_after_a_silent_load 2 1 1 Strtod.stod one_robot
                    "ds"%string (blank EmptyString 2 1 1) Strtod_conforming)).
    vm_compute. reflexivity.
  - apply (proj2 (setDataSet_returns_only_after_a_silent_load 20 15 2 Strtod.stod
                    empty_directory "ds"%string (blank EmptyString 20 15 2) Strtod_conforming)).
    vm_compute. reflexivity.
Defined.

(** ** The bounds of the arrays *)

Section Defined.

Variable stod : string -> outcome float.
Hypothesis Hstod : conforming stod.

Lemma obind_defined {A B} (o : outcome A) (k : A -> outcome B) :
  o <> Undefined -> (forall a, k a <> Undefined) -> obind o k <> Undefined.
Proof. intros Ho Hk. destruct o; cbn; [apply Hk | discriminate | congruence]. Qed.

Lemma substr_defined line pos count : Str.substr line pos count <> Undefined.
Proof. unfold Str.substr. now destruct (Str.size line <? pos)%N. Qed.

Lemma stoi_field_defined line pos count :
  obind (Str.substr line pos count) Conv.stoi <> Undefined.
Proof. apply obind_defined; [apply substr_defined|]. intros t. apply stoi_conforming. Qed.

Lemma stod_field_defined line pos count :
  obind (Str.substr line pos count) stod <> Undefined.
Proof using Hstod. apply obind_defined; [apply substr_defined|]. intros t. apply Hstod. Qed.

Lemma barcode_row_defined line : barcode_row line <> Undefined.
Proof. apply stoi_field_defined. Qed.

Lemma landmark_id_defined line : landmark_id line <> Undefined.
Proof. apply stoi_field_defined. Qed.

Lemma landmark_reals_defined line : landmark_reals stod line <> Undefined.
Proof using Hstod.
  unfold landmark_reals, text. cbv zeta.
  repeat (apply obind_defined; [apply stod_field_defined|intros ?]). discriminate.
Qed.

Lemma groundtruth_row_defined line : groundtruth_row stod line <> Undefined.
Proof using Hstod.
  unfold groundtruth_row, text. cbv zeta.
  repeat (apply obind_defined; [apply stod_field_defined|intros ?]). discriminate.
Qed.

Lemma odometry_row_defined line : odometry_row stod line <> Undefined.
Proof using Hstod.
  unfold odometry_row, text. cbv zeta.
  repeat (apply obind_defined; [apply stod_field_defined|intros ?]). discriminate.
Qed.

Lemma measurement_row_defined line : measurement_row stod line <> Undefined.
Proof using Hstod.
  unfold measurement_row, text. cbv zeta.
  repeat (apply obind_defined;
          [first [apply stod_field_defined | apply stoi_field_defined]|intros ?]).
  discriminate.
Qed.

End Defined.

Section Bounds.

Variables TOTAL_BARCODES TOTAL_LANDMARKS TOTAL_ROBOTS : nat.
Variable stod : string -> outcome float.
Hypothesis Hstod : conforming stod.
Variable fs : FileSystem.

(** The loop of [readBarcodes] stores below [TOTAL_BARCODES] only. *)
Lemma readBarcodes_lines_defined lines : forall i s,
  (TOTAL_BARCODES <= length (barcodes_ s))%nat ->
  result (readBarcodes_lines TOTAL_BARCODES lines i s) <> Undefined.
Proof using Type.
  induction lines as [|line rest IH]; intros i s Hlen; [discriminate|].
  destruct (is_comment line) eqn:Hc.
  - rewrite readBarcodes_lines_comment by assumption. auto.
  - destruct (decide (TOTAL_BARCODES <= i)%nat) as [Hfull|Hroom].
    + rewrite readBarcodes_lines_full by assumption. discriminate.
    + rewrite readBarcodes_lines_cons by (assumption || lia).
      pose proof (barcode_row_defined line) as Hrow.
      destruct (barcode_row line) as [v|e|]; [|discriminate|congruence].
      rewrite bind_lift_returned.
      erewrite bind_silent by (apply store_barcode_ok; lia).
      apply IH. cbn. rewrite length_insert. exact Hlen.
Qed.

Lemma readBarcodes_defined dataset s :
  (TOTAL_BARCODES <= length (barcodes_ s))%nat ->
  result (readBarcodes TOTAL_BARCODES fs dataset s) <> Undefined.
Proof using Type.
  intros Hlen. unfold readBarcodes. erewrite bind_silent by reflexivity.
  destruct (String.eqb EmptyString (dataset_ s)); [discriminate|].
  rewrite bind_open. cbn [result snd].
  destruct (ifstream fs (dataset ++ "/Barcodes.dat")) as [lines|]; [|discriminate].
  now apply readBarcodes_lines_defined.
Qed.

(** The loops of the per-robot loaders, on a robot in range. *)
Lemma readGroundTruth_lines_defined robot_id lines : forall s,
  is_Some (at_index (robots_ s) robot_id) ->
  result (readGroundTruth_lines stod robot_id lines s) <> Undefined.
Proof using Hstod.
  induction lines as [|line rest IH]; intros s [r Hr]; [discriminate|].
  destruct (is_comment line) eqn:Hc.
  - rewrite readGroundTruth_lines_comment by assumption. eauto.
  - rewrite readGroundTruth_lines_cons by assumption.
    pose proof (groundtruth_row_defined stod Hstod line) as Hrow.
    destruct (groundtruth_row stod line) as [v|e|]; [|discriminate|congruence].
    rewrite bind_lift_returned.
    erewrite bind_silent by (eapply update_robot_ok; eassumption).
    apply IH. rewrite at_index_with_robot, Hr. cbn. eauto.
Qed.

Lemma readOdometry_lines_defined robot_id lines : forall s,
  is_Some (at_index (robots_ s) robot_id) ->
  result (readOdometry_lines stod robot_id lines s) <> Undefined.
Proof using Hstod.
  induction lines as [|line rest IH]; intros s [r Hr]; [discriminate|].
  destruct (is_comment line) eqn:Hc.
  - rewrite readOdometry_lines_comment by assumption. eauto.
  - rewrite readOdometry_lines_cons by assumption.
    pose proof (odometry_row_defined stod Hstod line) as Hrow.
    destruct (odometry_row stod line) as [v|e|]; [|discriminate|congruence].
    rewrite bind_lift_returned.
    erewrite bind_silent by (eapply update_robot_ok; eassumption).
    apply IH. rewrite at_index_with_robot, Hr. cbn. eauto.
Qed.

Lemma readMeasurements_lines_defined robot_id lines : forall s,
  is_Some (at_index (robots_ s) robot_id) ->
  result (readMeasurements_lines stod robot_id lines s) <> Undefined.
Proof using Hstod.
  induction lines as [|line rest IH]; intros s [r Hr]; [discriminate|].
  destruct (is_comment line) eqn:Hc.
  - rewrite readMeasurements_lines_comment by assumption. eauto.
  - rewrite readMeasurements_lines_cons by assumption.
    pose proof (measurement_row_defined stod Hstod line) as Hrow.
    destruct (measurement_row stod line) as [v|e|]; [|discriminate|congruence].
    rewrite bind_lift_returned.
    erewrite bind_silent by (eapply update_robot_ok; eassumption).
    apply IH. rewrite at_index_with_robot, Hr. cbn. eauto.
Qed.

Lemma robot_loader_defined robot_id clear stream filename kind
    (loop : list string -> M bool) s :
  is_Some (at_index (robots_ s) robot_id) ->
  (forall lines s', is_Some (at_index (robots_ s') robot_id) ->
                    result (loop lines s') <> Undefined) ->
  result ((run update_robot robot_id clear then
           let* file := open stream filename in
           match file with
           | None => run emit (Cerr (UnableToOpen kind filename)) then ret false
           | Some lines => loop lines
           end)%cpp s) <> Undefined.
Proof.
  intros [r Hr] Hloop. rewrite (robot_loader_opened _ _ _ _ _ _ r Hr). cbn [result snd].
  destruct (stream filename) as [lines|]; [|discriminate].
  apply Hloop. rewrite at_index_with_robot, Hr. cbn. eauto.
Qed.

(** A row of the landmark file, the landmark under construction inside the
    table: the id, the barcode, the zero test, the four reals, in this
    order. *)
Lemma readLandmarks_lines_row line rest i s :
  is_comment line = false -> (i < TOTAL_LANDMARKS)%nat ->
  (i < length (landmarks_ s))%nat ->
  result (readLandmarks_lines TOTAL_LANDMARKS stod (line :: rest) i s)
  = match landmark_id line with
    | Returned k =>
        match at_index (barcodes_ s) (k - 1) with
        | None => Undefined
        | Some b =>
            if b =? 0 then Returned false
            else match landmark_reals stod line with
                 | Returned (x, y, x_std_dev, y_std_dev) =>
                     result (readLandmarks_lines TOTAL_LANDMARKS stod rest (S i)
                               (set_landmarks <[i := Landmark.mk k b x y x_std_dev y_std_dev]> s))
                 | Thrown e => Thrown e
                 | Undefined => Undefined
                 end
        end
    | Thrown e => Thrown e
    | Undefined => Undefined
    end.
Proof using Hstod.
  intros Hc Hi Hlen.
  destruct (lookup_lt_is_Some_2 (landmarks_ s) i Hlen) as [l Hl].
  destruct (landmark_id line) as [k|e|] eqn:Hid.
  - destruct (at_index (barcodes_ s) (k - 1)) as [b|] eqn:Hb.
    + destruct (Z.eqb_spec b 0) as [->|Hnz].
      * now erewrite readLandmarks_lines_unresolved by eassumption.
      * destruct (landmark_reals stod line) as [[[[x y] x_std_dev] y_std_dev]|e|] eqn:Hreals.
        -- now erewrite readLandmarks_lines_resolved by eassumption.
        -- cbn [readLandmarks_lines]. rewrite Hc, decide_False by lia. cbv zeta.
           unfold field. unfold landmark_id in Hid. rewrite Hid, bind_lift_returned.
           erewrite bind_silent by (eapply store_landmark_ok; eassumption).
           erewrite bind_silent
             by (eapply load_landmark_id_ok, lookup_set_landmarks; eassumption).
           erewrite bind_silent by (eapply load_barcode_ok; exact Hb).
           cbn [Landmark.id Landmark.set_id].
           destruct (Z.eqb_spec b 0) as [?|_]; [contradiction|].
           erewrite bind_silent
             by (eapply load_landmark_id_ok, lookup_set_landmarks; eassumption).
           erewrite bind_silent by (eapply load_barcode_ok; exact Hb).
           unfold landmark_reals, text in Hreals. cbv zeta in Hreals.
           repeat first
             [ erewrite bind_silent
                 by (eapply store_landmark_ok; repeat (eapply lookup_set_landmarks);
                     eassumption)
             | match type of Hreals with
               | obind ?o _ = _ =>
                   destruct o as [?v|?e|] eqn:?; cbn [obind] in Hreals;
                   [ rewrite bind_lift_returned
                   | rewrite bind_lift_thrown; cbn [result snd]; congruence
                   | discriminate Hreals ]
               end ].
           discriminate Hreals.
        -- now destruct (landmark_reals_defined stod Hstod line).
    + now erewrite readLandmarks_lines_outside by eassumption.
  - cbn [readLandmarks_lines]. rewrite Hc, decide_False by lia. cbv zeta.
    unfold field. unfold landmark_id in Hid. now rewrite Hid, bind_lift_thrown.
  - now destruct (landmark_id_defined line).
Qed.

(** The loop of [readLandmarks] leaves the arrays only in the barcode
    table, at a row whose id has no position there. *)
Lemma readLandmarks_lines_undefined lines : forall i s,
  (TOTAL_LANDMARKS <= length (landmarks_ s))%nat ->
  result (readLandmarks_lines TOTAL_LANDMARKS stod lines i s) = Undefined ->
  exists line k,
    line ∈ lines /\ is_comment line = false /\ landmark_id line = Returned k
    /\ at_index (barcodes_ s) (k - 1) = None.
Proof using Hstod.
  induction lines as [|line rest IH]; intros i s Hlen Hu; [discriminate Hu|].
  destruct (is_comment line) eqn:Hc.
  - rewrite readLandmarks_lines_comment in Hu by assumption.
    destruct (IH i s Hlen Hu) as (line' & k & Hin & H). exists line', k.
    split; [now apply elem_of_cons; right|exact H].
  - destruct (decide (TOTAL_LANDMARKS <= i)%nat) as [Hfull|Hroom].
    + rewrite readLandmarks_lines_full in Hu by assumption. discriminate Hu.
    + rewrite readLandmarks_lines_row in Hu by (assumption || lia).
      destruct (landmark_id line) as [k|e|] eqn:Hid; [|discriminate Hu|].
      * destruct (at_index (barcodes_ s) (k - 1)) as [b|] eqn:Hb.
        -- destruct (b =? 0); [discriminate Hu|].
           destruct (landmark_reals stod line) as [[[[x y] x_std_dev] y_std_dev]|e|] eqn:Hreals;
             [|discriminate Hu|now destruct (landmark_reals_defined stod Hstod line)].
           apply IH in Hu; [|cbn; rewrite length_insert; exact Hlen].
           destruct Hu as (line' & k' & Hin & H). exists line', k'.
           split; [now apply elem_of_cons; right|exact H].
        -- exists line, k. split; [now apply elem_of_cons; left|auto].
      * now destruct (landmark_id_defined line).
Qed.

(** The loop over the robots, on robots in range. *)
Lemma readRobots_defined dataset n : forall i g o m s,
  0 <= i -> (i + Z.of_nat n <= Z.of_nat (length (robots_ s))) ->
  result (readRobots stod fs dataset n i g o m s) <> Undefined.
Proof using Hstod.
  induction n as [|n IH]; intros i g o m s Hi Hn; [discriminate|].
  assert (Hrange : forall s', length (robots_ s') = length (robots_ s) ->
                     is_Some (at_index (robots_ s') i)).
  { intros s' Hs'. unfold at_index. destruct (Z.leb_spec 0 i); [|lia].
    apply lookup_lt_is_Some_2. lia. }
  assert (Hlength : forall f s', length (robots_ (with_robot i f s')) = length (robots_ s')).
  { intros f s'. unfold with_robot. cbn. apply length_alter. }
  cbn [readRobots]. rewrite result_bind.
  pose proof (robot_loader_defined i (Robot.set_ground_truth (fun _ => [])) (ifstream fs)
                (robot_file dataset i "_Groundtruth.dat") GroundtruthData
                (readGroundTruth_lines stod i) s (Hrange s eq_refl)
                (fun lines s' => readGroundTruth_lines_defined i lines s')) as Hg.
  pose proof (readGroundTruth_stable stod fs (fun s => length (robots_ s)) dataset i
                (fun f s' => Hlength _ s') s) as Hg'.
  fold (readGroundTruth stod fs dataset i) in Hg.
  destruct (result (readGroundTruth stod fs dataset i s)) as [g1|e|];
    [|discriminate|congruence].
  set (s1 := final (readGroundTruth stod fs dataset i s)) in *. rewrite result_bind.
  pose proof (robot_loader_defined i (Robot.set_odometry (fun _ => [])) (fstream fs)
                (robot_file dataset i "_Odometry.dat") OdometryData
                (readOdometry_lines stod i) s1 (Hrange s1 Hg')
                (fun lines s' => readOdometry_lines_defined i lines s')) as Ho.
  pose proof (readOdometry_stable stod fs (fun s => length (robots_ s)) dataset i
                (fun f s' => Hlength _ s') s1) as Ho'.
  fold (readOdometry stod fs dataset i) in Ho.
  destruct (result (readOdometry stod fs dataset i s1)) as [o1|e|];
    [|discriminate|congruence].
  set (s2 := final (readOdometry stod fs dataset i s1)) in *. rewrite result_bind.
  pose proof (robot_loader_defined i (Robot.set_measurements (fun _ => [])) (fstream fs)
                (robot_file dataset i "_Measurement.dat") MeasurementData
                (readMeasurements_lines stod i) s2 (Hrange s2 ltac:(congruence))
                (fun lines s' => readMeasurements_lines_defined i lines s')) as Hm.
  pose proof (readMeasurements_stable stod fs (fun s => length (robots_ s)) dataset i
                (fun f s' => Hlength _ s') s2) as Hm'.
  fold (readMeasurements stod fs dataset i) in Hm.
  destruct (result (readMeasurements stod fs dataset i s2)) as [m1|e|];
    [|discriminate|congruence].
  apply IH; [lia|]. cbn beta in *. rewrite Hm', Ho', Hg'. lia.
Qed.

End Bounds.

(** X17: with the three arrays as large as their capacities, a load leaves
    the bounds of an array in one place only: where [readLandmarks] reads
    the barcode of a row whose id is below 1 or above the number of elements
    of the barcode table.  The stores of [readBarcodes] and [readLandmarks],
    and the per-robot loaders as [setDataSet] calls them, stay inside. *)
Theorem setDataSet_leaves_the_arrays_only_at_a_stray_landmark_id
    TOTAL_BARCODES TOTAL_LANDMARKS TOTAL_ROBOTS stod fs dataset s :
  conforming stod ->
  (TOTAL_BARCODES <= length (barcodes_ s))%nat ->
  (TOTAL_LANDMARKS <= length (landmarks_ s))%nat ->
  (TOTAL_ROBOTS <= length (robots_ s))%nat ->
  result (setDataSet TOTAL_BARCODES TOTAL_LANDMARKS TOTAL_ROBOTS stod fs dataset s) = Undefined ->
  stray_landmark fs dataset (length (barcodes_ s)).
Proof.
  intros Hstod Hb Hl Hr. unfold setDataSet.
  destruct (stat_ok fs dataset); [|discriminate].
  erewrite bind_silent by reflexivity. set (s0 := set_dataset dataset s).
  rewrite result_bind.
  pose proof (readBarcodes_defined TOTAL_BARCODES fs dataset s0 Hb) as Hdefined.
  destruct (readBarcodes_frame TOTAL_BARCODES fs dataset s0) as (_ & Hl1 & Hr1 & Hb1).
  destruct (result (readBarcodes TOTAL_BARCODES fs dataset s0)) as [b|e|];
    [|discriminate|congruence].
  set (s1 := final (readBarcodes TOTAL_BARCODES fs dataset s0)) in *.
  rewrite result_bind.
  destruct (readLandmarks_frame TOTAL_LANDMARKS stod fs dataset s1) as (_ & Hb2 & Hr2 & Hl2).
  destruct (result (readLandmarks TOTAL_LANDMARKS stod fs dataset s1)) as [l|e|] eqn:Hlandmarks;
    [|discriminate|].
  - set (s2 := final (readLandmarks TOTAL_LANDMARKS stod fs dataset s1)) in *.
    rewrite result_bind.
    pose proof (readRobots_defined stod Hstod fs dataset TOTAL_ROBOTS 0 true true true s2)
      as Hrobots.
    destruct (result (readRobots _ _ _ _ _ _ _ _ s2)) as [[[g o] m]|e|];
      [|discriminate|].
    + destruct (negb _); discriminate.
    + intros _. destruct Hrobots; [lia| |reflexivity].
      rewrite Hr2, Hr1. subst s0. cbn. lia.
  - intros _. unfold readLandmarks in Hlandmarks. rewrite bind_open in Hlandmarks.
    cbn [result snd] in Hlandmarks.
    destruct (ifstream fs (dataset ++ "/Landmark_Groundtruth.dat")) as [lines|] eqn:Hf;
      [|discriminate Hlandmarks].
    apply (readLandmarks_lines_undefined TOTAL_LANDMARKS stod Hstod) in Hlandmarks;
      [|rewrite Hl1; exact Hl].
    destruct Hlandmarks as (line & k & Hin & Hc & Hid & Hout).
    exists lines, line, k. repeat split; try assumption.
    unfold at_index in Hout. destruct (Z.leb_spec 0 (k - 1)) as [Hpos|Hneg]; [|lia].
    apply lookup_ge_None in Hout. rewrite Hb1 in Hout. subst s0. cbn in Hout. lia.
Qed.

Lemma setDataSet_leaves_the_arrays_only_at_a_stray_landmark_id_witness :
  stray_landmark stray_dataset "ds" (length (barcodes_ (blank EmptyString 2 1 1))).
Proof.
  apply (setDataSet_leaves_the_arrays_only_at_a_stray_landmark_id 2 1 1 Strtod.stod
           stray_dataset "ds"%string (blank EmptyString 2 1 1) Strtod_conforming);
    [vm_compute; lia | vm_compute; lia | vm_compute; lia | vm_compute; reflexivity].
Defined.

(** ** A dataset that loads *)

Section WellFormed.

Variables TOTAL_BARCODES TOTAL_LANDMARKS TOTAL_ROBOTS : nat.
Variable stod : string -> outcome float.
Variable fs : FileSystem.

Lemma load_robot_steps robot_id g o rows s :
  with_robot robot_id (Robot.set_measurements (fun _ => aggregate_all rows []))
    (with_robot robot_id (Robot.set_odometry (fun _ => o))
       (with_robot robot_id (Robot.set_ground_truth (fun _ => g)) s))
  = with_robot robot_id (load_robot (g, o, rows)) s.
Proof. now rewrite !with_robot_with_robot. Qed.

Lemma at_index_of_nat {A} (v : list A) (i : nat) : at_index v (Z.of_nat i) = v !! i.
Proof.
  unfold at_index. destruct (Z.leb_spec 0 (Z.of_nat i)); [|lia]. now rewrite Nat2Z.id.
Qed.

(** The robots [i], ..., [i + n - 1] after their alteration one by one. *)
Lemma alter_then_fill {A B} (f : B -> A -> A) (x : B) (xs : list B) (v : list A) i n a :
  v !! i = Some a ->
  take (S i) (alter (f x) i v)
  ++ zip_with f xs (take n (drop (S i) (alter (f x) i v)))
  ++ drop (S i + n) (alter (f x) i v)
  = take i v ++ zip_with f (x :: xs) (take (S n) (drop i v)) ++ drop (i + S n) v.
Proof.
  intros Ha.
  rewrite (take_S_r _ _ (f x a)) by now rewrite list_lookup_alter_eq, Ha.
  rewrite take_alter_ge by lia. rewrite !drop_alter_lt by lia.
  rewrite (drop_S _ _ _ Ha). cbn [take zip_with].
  rewrite <- app_assoc. cbn [app].
  now replace (i + S n)%nat with (S i + n)%nat by lia.
Qed.

(** The loop over the robots on logs that all convert: each robot takes
    the vectors of its log, every file is opened, and the flags come back
    as they went in. *)
Lemma readRobots_loads dataset n : forall i logs g o m s,
  Forall2 (logged stod fs dataset) (robot_range (Z.of_nat i) n) logs ->
  (i + n <= length (robots_ s))%nat ->
  readRobots stod fs dataset n (Z.of_nat i) g o m s
  = (set_robots (fun v => take i v ++ zip_with load_robot logs (take n (drop i v))
                          ++ drop (i + n) v) s,
     Open <$> robots_files dataset (Z.of_nat i) n,
     Returned (g, o, m)).
Proof.
  induction n as [|n IH]; intros i logs g o m s Hlogs Hlen.
  - inversion Hlogs; subst. cbn [readRobots]. unfold ret. do 2 f_equal.
    unfold set_robots. cbn [take zip_with app]. rewrite Nat.add_0_r, take_drop.
    now destruct s.
  - rewrite robot_range_S in Hlogs.
    inversion Hlogs as [|? [[a b] rows] ? logs' Hlog Hrest]; subst.
    destruct Hlog as ((glines & Hg & Hgrows) & (olines & Ho & Horows) & (mlines & Hm & Hmrows)).
    replace (Z.of_nat i + 1) with (Z.of_nat (S i)) in * by lia.
    destruct (lookup_lt_is_Some_2 (robots_ s) i) as [r Hr]; [lia|].
    assert (Hr' : at_index (robots_ s) (Z.of_nat i) = Some r) by now rewrite at_index_of_nat.
    cbn [readRobots].
    erewrite bind_returned by (eapply readGroundTruth_rows; eassumption).
    erewrite bind_returned.
    2:{ eapply readOdometry_rows; [|eassumption..].
        rewrite at_index_with_robot, Hr'. reflexivity. }
    erewrite bind_returned.
    2:{ eapply readMeasurements_rows; [|eassumption..].
        rewrite !at_index_with_robot, Hr'. reflexivity. }
    rewrite load_robot_steps.
    replace (Z.of_nat i + 1) with (Z.of_nat (S i)) by lia.
    rewrite !andb_true_r.
    rewrite (IH (S i) logs'); [ | assumption | unfold with_robot; cbn; rewrite length_alter; lia ].
    unfold final, events, result. cbn [fst snd].
    rewrite robots_files_S. unfold robot_files. do 2 f_equal.
    + unfold with_robot, set_robots. cbn [dataset_ barcodes_ landmarks_ robots_]. f_equal.
      rewrite Nat2Z.id. now apply (alter_then_fill _ _ _ _ _ _ r).
    + replace (Z.of_nat i + 1) with (Z.of_nat (S i)) by lia. reflexivity.
Qed.

End WellFormed.

(** X18: on a dataset whose directory exists, whose files all open, and
    whose rows all convert, resolve and fit, [setDataSet] returns, having
    opened every file in order and written nothing to [std::cerr]; the
    object then holds the path, the barcodes of the rows from position 0 of
    the barcode table, the landmarks of the rows from position 0 of the
    landmark table, and in each robot the samples of its ground-truth and
    odometry rows and the records that its measurement rows build up; what
    lies behind in the arrays is as before. *)
Theorem setDataSet_loads_a_dataset_that_converts
    TOTAL_BARCODES TOTAL_LANDMARKS TOTAL_ROBOTS stod fs dataset s
    barcode_lines vs landmark_lines ls logs :
  stat_ok fs dataset = true ->
  dataset <> EmptyString ->
  (TOTAL_BARCODES <= length (barcodes_ s))%nat ->
  (TOTAL_LANDMARKS <= length (landmarks_ s))%nat ->
  (TOTAL_ROBOTS <= length (robots_ s))%nat ->
  ifstream fs (dataset ++ "/Barcodes.dat") = Some barcode_lines ->
  Forall2 (fun line v => barcode_row line = Returned v) (data_lines barcode_lines) vs ->
  (length vs <= TOTAL_BARCODES)%nat ->
  ifstream fs (dataset ++ "/Landmark_Groundtruth.dat") = Some landmark_lines ->
  Forall2 (resolves stod (vs ++ drop (length vs) (barcodes_ s))) (data_lines landmark_lines) ls ->
  (length ls <= TOTAL_LANDMARKS)%nat ->
  Forall2 (logged stod fs dataset) (robot_range 0 TOTAL_ROBOTS) logs ->
  setDataSet TOTAL_BARCODES TOTAL_LANDMARKS TOTAL_ROBOTS stod fs dataset s
  = (mkDataExtractor dataset
       (vs ++ drop (length vs) (barcodes_ s))
       (ls ++ drop (length ls) (landmarks_ s))
       (zip_with load_robot logs (take TOTAL_ROBOTS (robots_ s))
        ++ drop TOTAL_ROBOTS (robots_ s)),
     Open <$> dataset_files dataset TOTAL_ROBOTS,
     Returned tt).
Proof.
  intros Hstat Hd Hb Hl Hr Hbf Hvs Hvfit Hlf Hls Hlfit Hlogs.
  unfold setDataSet. rewrite Hstat. erewrite bind_silent by reflexivity.
  erewrite bind_returned.
  2:{ rewrite (readBarcodes_opened _ _ _ barcode_lines) by (cbn; assumption).
      rewrite (readBarcodes_lines_rows _ barcode_lines vs) by (assumption || cbn; lia).
      reflexivity. }
  erewrite bind_returned.
  2:{ rewrite (readLandmarks_opened _ _ _ _ landmark_lines) by assumption.
      rewrite (readLandmarks_lines_rows _ _ landmark_lines ls) by (assumption || cbn; lia).
      reflexivity. }
  erewrite bind_returned.
  2:{ apply (readRobots_loads stod fs dataset TOTAL_ROBOTS 0 logs); [exact Hlogs|].
      cbn. lia. }
  unfold final, events, result. cbn.
  unfold dataset_files, barcode_files.
  destruct (String.eqb_spec EmptyString dataset) as [E|_]; [congruence|].
  rewrite app_nil_r. reflexivity.
Qed.

Lemma setDataSet_loads_a_dataset_that_converts_witness :
  setDataSet 2 1 1 Strtod.stod one_robot "ds" (blank EmptyString 2 1 1)
  = (mkDataExtractor "ds"
       ([10; 20] ++ drop (length [10; 20]) (barcodes_ (blank EmptyString 2 1 1)))
       ([Landmark.mk 2 20 1.5 (-2.5) 0.25 0.125]
        ++ drop (length [Landmark.mk 2 20 1.5 (-2.5) 0.25 0.125])
             (landmarks_ (blank EmptyString 2 1 1)))
       (zip_with load_robot
          [([Groundtruth.mk 10 1.5 2.5 (-0.5); Groundtruth.mk 10.25 1.75 2.25 0.5],
            [Odometry.mk 10 0.5 0.25; Odometry.mk 10.25 0.75 (-0.125)],
            [row 10.00 5 1.5 0.25; row 10.03 14 2.5 (-0.5); row 10.20 7 3.25 0.125])]
          (take 1 (robots_ (blank EmptyString 2 1 1)))
        ++ drop 1 (robots_ (blank EmptyString 2 1 1))),
     Open <$> dataset_files "ds" 1,
     Returned tt).
Proof.
  apply (setDataSet_loads_a_dataset_that_converts 2 1 1 Strtod.stod one_robot "ds"%string
           (blank EmptyString 2 1 1)
           ["# Subject #    Barcode #"%string;
            tabbed ["1"; "10"]%string; tabbed ["2"; "20"]%string]
           [10; 20]
           ["# Subject #    x [m]    y [m]    x std-dev [m]    y std-dev [m]"%string;
            tabbed ["2"; "1.5"; "-2.5"; "0.25"; "0.125"]%string]);
    [ reflexivity | discriminate | vm_compute; lia | vm_compute; lia | vm_compute; lia
    | reflexivity | rows_convert | cbn; lia | reflexivity | | cbn; lia | ].
  - match goal with
    | |- Forall2 _ ?ls _ => let ls' := eval vm_compute in ls in change ls with ls'
    end.
    constructor; [|constructor]. repeat split; try (vm_compute; congruence).
  - constructor; [|constructor]. repeat split; eexists; (split; [reflexivity|rows_convert]).
Defined.

(** X19: a table loader that does not get at its file returns false and
    leaves the object as it is: [readBarcodes] when no path is stored, which
    it reports without looking for the file, and when the file does not
    open; [readLandmarks] when the file does not open. *)
Theorem table_loaders_without_their_file_change_nothing
    TOTAL_BARCODES TOTAL_LANDMARKS stod fs dataset s :
  (dataset_ s = EmptyString ->
   readBarcodes TOTAL_BARCODES fs dataset s = (s, [Cerr PleaseSpecifyDataset], Returned false))
  /\ (dataset_ s <> EmptyString ->
      ifstream fs (dataset ++ "/Barcodes.dat") = None ->
      readBarcodes TOTAL_BARCODES fs dataset s
      = (s, [Open (dataset ++ "/Barcodes.dat");
             FileNotFound Barcodes (dataset ++ "/Barcodes.dat")], Returned false))
  /\ (ifstream fs (dataset ++ "/Landmark_Groundtruth.dat") = None ->
      readLandmarks TOTAL_LANDMARKS stod fs dataset s
      = (s, [Open (dataset ++ "/Landmark_Groundtruth.dat");
             FileNotFound Landmarks (dataset ++ "/Landmark_Groundtruth.dat")],
         Returned false)).
Proof.
  split; [|split].
  - intros Hd. unfold readBarcodes. erewrite bind_silent by reflexivity. now rewrite Hd.
  - intros Hd Hf. unfold readBarcodes. erewrite bind_silent by reflexivity.
    destruct (String.eqb_spec EmptyString (dataset_ s)) as [E|_]; [congruence|].
    now rewrite bind_open, Hf.
  - intros Hf. unfold readLandmarks. now rewrite bind_open, Hf.
Qed.

Lemma table_loaders_without_their_file_change_nothing_witness :
  readBarcodes 20 empty_directory "ds" (blank EmptyString 20 15 5)
  = (blank EmptyString 20 15 5, [Cerr PleaseSpecifyDataset], Returned false)
  /\ readBarcodes 20 empty_directory "ds" loaded_once
     = (loaded_once, [Open ("ds" ++ "/Barcodes.dat");
                      FileNotFound Barcodes ("ds" ++ "/Barcodes.dat")], Returned false)
  /\ readLandmarks 15 Strtod.stod empty_directory "ds" loaded_once
     = (loaded_once, [Open ("ds" ++ "/Landmark_Groundtruth.dat");
                      FileNotFound Landmarks ("ds" ++ "/Landmark_Groundtruth.dat")],
        Returned false).
Proof.
  split; [|split].
  - now apply (proj1 (table_loaders_without_their_file_change_nothing 20 15 Strtod.stod
                        empty_directory "ds"%string (blank EmptyString 20 15 5))).
  - now apply (proj1 (proj2 (table_loaders_without_their_file_change_nothing 20 15 Strtod.stod
                               empty_directory "ds"%string loaded_once))).
  - now apply (proj2 (proj2 (table_loaders_without_their_file_change_nothing 20 15 Strtod.stod
                               empty_directory "ds"%string loaded_once))).
Defined.

(** ** The columns of a row *)

Section Columns2.

Lemma str_app_assoc a b c : ((a ++ b) ++ c)%string = (a ++ (b ++ c))%string.
Proof. induction a as [|x a IH]; cbn; [reflexivity|]. now rewrite IH. Qed.

Lemma str_take_app a b k :
  Str.take (String.length a + k) (a ++ b) = (a ++ Str.take k b)%string.
Proof. induction a as [|x a IH]; cbn; [reflexivity|]. now rewrite IH. Qed.

Lemma str_offset_none_app c a b :
  Str.offset c a = None -> Str.offset c (a ++ b) = option_map (Nat.add (String.length a)) (Str.offset c b).
Proof.
  induction a as [|x a IH]; cbn.
  - intros _. now destruct (Str.offset c b).
  - destruct (Ascii.eqb x c); [discriminate|].
    destruct (Str.offset c a); [discriminate|]. intros _. rewrite IH by reflexivity.
    now destruct (Str.offset c b).
Qed.

Lemma behind_cases more : behind more -> more = EmptyString \/ exists r, more = String tab r.
Proof.
  intros [->|H]; [now left|]. destruct more as [|c r]; [now left|]. right.
  cbn in H. subst c. eauto.
Qed.

Lemma behind_take k more : behind more -> behind (Str.take k more).
Proof.
  intros H. destruct (behind_cases more H) as [->|[r ->]].
  - left. now destruct k.
  - destruct k; [now left|now right].
Qed.

Lemma str_app_nil a : (a ++ EmptyString)%string = a.
Proof. induction a as [|x a IH]; cbn; [reflexivity|]. now rewrite IH. Qed.

Lemma str_drop_app_tab pre rest :
  Str.drop (String.length pre) (pre ++ rest) = rest.
Proof. apply str_drop_app. Qed.

(** The first column of a line: the search from 0 finds the tab behind it,
    and the text from 0 is the column. *)
Lemma first_column (f more : string) :
  Str.offset tab f = None -> behind more ->
  (Str.size (f ++ more) < Str.npos)%N ->
  let line := (f ++ more)%string in
  Str.find line tab 0
  = match more with
    | EmptyString => Str.npos
    | String _ _ => N.of_nat (String.length f)
    end
  /\ Str.substr line 0 (Str.find line tab 0) = Returned f.
Proof.
  intros Hf Hmore Hsize line. subst line. unfold Str.size in Hsize.
  rewrite str_length_app in Hsize. change Str.npos with 18446744073709551615%N in *.
  assert (Hfind : Str.find (f ++ more) tab 0
                  = match more with
                    | EmptyString => 18446744073709551615%N
                    | String _ _ => N.of_nat (String.length f)
                    end).
  { unfold Str.find, Str.size. rewrite str_length_app.
    change (Str.drop (N.to_nat 0) (f ++ more)) with (f ++ more)%string.
    rewrite str_offset_none_app by assumption.
    destruct (behind_cases more Hmore) as [->|[r ->]].
    - cbn [Str.offset option_map].
      now destruct (N.of_nat (String.length f + String.length EmptyString) <=? 0)%N.
    - cbn [Str.offset String.length].
      rewrite Ascii.eqb_refl. cbn [option_map].
      destruct (N.leb_spec (N.of_nat (String.length f + S (String.length r))) 0); [lia|].
      f_equal. lia. }
  split; [exact Hfind|]. rewrite Hfind. unfold Str.substr, Str.size. rewrite str_length_app.
  destruct (N.ltb_spec (N.of_nat (String.length f + String.length more)) 0); [lia|].
  change (Str.drop (N.to_nat 0) (f ++ more)) with (f ++ more)%string. f_equal.
  destruct more as [|c r].
  - rewrite str_app_nil. apply str_take_all. cbn [String.length]. lia.
  - replace (N.to_nat _) with (String.length f + 0)%nat by (cbn [String.length]; lia).
    rewrite str_take_app. cbn. apply str_app_nil.
Qed.

(** A column behind a tab: the search from behind the tab finds the tab
    behind the column, and the text from the tab on is the tab, the column,
    and no more than what starts with the next tab. *)
Lemma next_column (line pre f more : string) (p : N) :
  line = (pre ++ String tab (f ++ more))%string ->
  p = N.of_nat (String.length pre) ->
  Str.offset tab f = None -> behind more ->
  (Str.size line < Str.npos)%N ->
  next_tab line p
  = match more with
    | EmptyString => Str.npos
    | String _ _ => N.of_nat (String.length (pre ++ String tab f))
    end
  /\ exists junk,
      behind junk
      /\ Str.substr line p (next_tab line p) = Returned (TAB ++ f ++ junk)%string.
Proof.
  intros -> -> Hf Hmore Hsize. unfold Str.size in Hsize.
  rewrite !str_length_app in Hsize. cbn [String.length] in Hsize.
  rewrite str_length_app in Hsize.
  change Str.npos with 18446744073709551615%N in *.
  set (n := String.length pre) in *.
  assert (Hnext : next_tab (pre ++ String tab (f ++ more)) (N.of_nat n)
                  = match more with
                    | EmptyString => 18446744073709551615%N
                    | String _ _ => N.of_nat (String.length (pre ++ String tab f))
                    end).
  { unfold next_tab, Str.incr. change (2 ^ 64)%N with 18446744073709551616%N.
    rewrite N.mod_small by lia. unfold Str.find, Str.size.
    rewrite !str_length_app. cbn [String.length]. rewrite str_length_app. fold n.
    replace (N.to_nat (N.of_nat n + 1)) with (n + 1)%nat by lia.
    rewrite <- str_drop_drop. subst n. rewrite str_drop_app. cbn [Str.drop].
    rewrite str_offset_none_app by assumption.
    destruct (behind_cases more Hmore) as [->|[r ->]].
    - cbn [Str.offset option_map]. now destruct (_ <=? _)%N.
    - cbn [Str.offset String.length].
      rewrite Ascii.eqb_refl. cbn [option_map].
      destruct (N.leb_spec
                  (N.of_nat (String.length pre + S (String.length f + S (String.length r))))
                  (N.of_nat (String.length pre) + 1)); [lia|].
      f_equal. lia. }
  split; [exact Hnext|]. rewrite Hnext.
  exists (Str.take (String.length pre) more). split; [now apply behind_take|].
  unfold Str.substr, Str.size. rewrite !str_length_app. cbn [String.length].
  rewrite str_length_app. fold n.
  destruct (N.ltb_spec (N.of_nat (n + S (String.length f + String.length more))) (N.of_nat n));
    [lia|].
  rewrite Nat2N.id. subst n. rewrite str_drop_app. f_equal.
  destruct more as [|c r].
  - rewrite str_take_all by (cbn; rewrite str_length_app; cbn; lia).
    cbn. now destruct (String.length pre).
  - cbn [String.length] in *.
    match goal with
    | |- Str.take ?k _ = _ =>
        replace k with (S (String.length f
                           + Nat.min (String.length pre) (S (String.length r)))) by lia
    end.
    cbn [Str.take]. unfold TAB. cbn [String.append]. f_equal. rewrite str_take_app. f_equal.
    destruct (Nat.min_spec (String.length pre) (S (String.length r))) as [[_ ->]|[Hle ->]];
      [reflexivity|].
    now rewrite !str_take_all by (cbn [String.length]; lia).
Qed.

End Columns2.
Section Rows2.

Variable stod : string -> outcome float.
Hypothesis Hstops : stops_at_tab stod.

(** The text of a column behind a tab converts to what the column converts
    to. *)
Lemma column_converts {A} (conv : string -> outcome A) (line pre f more : string) (p : N) :
  stops_at_tab conv ->
  line = (pre ++ String tab (f ++ more))%string ->
  p = N.of_nat (String.length pre) ->
  column f -> behind more ->
  (Str.size line < Str.npos)%N ->
  obind (Str.substr line p (next_tab line p)) conv = conv f.
Proof using Type.
  intros Hconv Hline Hp Hf Hmore Hsize.
  destruct (next_column line pre f more p Hline Hp (proj1 (proj2 Hf)) Hmore Hsize)
    as (_ & junk & Hjunk & ->).
  cbn [obind]. now apply Hconv.
Qed.

Lemma stoi_skips_space s :
  Conv.isspace (Str.front s) = false -> s <> EmptyString -> Conv.skip_space s = s.
Proof. destruct s as [|c s]; [congruence|]. cbn. now intros ->. Qed.

Lemma digits_stop_at_tab a more : forall acc,
  Str.offset tab a = None -> behind more ->
  Conv.digits (a ++ more) acc = Conv.digits a acc.
Proof.
  induction a as [|c a IH]; intros acc Ha Hmore.
  - cbn. destruct (behind_cases more Hmore) as [->|[r ->]]; reflexivity.
  - cbn in Ha. destruct (Ascii.eqb c tab); [discriminate|].
    destruct (Str.offset tab a) eqn:E; [discriminate|].
    cbn. destruct (Conv.digit c); [|reflexivity]. now apply IH.
Qed.

Lemma stoi_stops_at_tab : stops_at_tab Conv.stoi.
Proof using Type.
  intros a more (Hne & Ha & Hfront) Hmore. unfold Conv.stoi, TAB.
  cbn [String.append Conv.skip_space]. change (Conv.isspace tab) with true. cbv iota.
  rewrite (stoi_skips_space a) by assumption.
  destruct a as [|c a]; [congruence|]. cbn [String.append Conv.skip_space Str.front] in *.
  rewrite Hfront. cbn in Ha. destruct (Ascii.eqb c tab) eqn:Ec; [discriminate|].
  destruct (Str.offset tab a) eqn:E; [discriminate|].
  assert (Hd : forall acc, Conv.digits (a ++ more) acc = Conv.digits a acc)
    by (intros acc; now apply digits_stop_at_tab).
  assert (Hd' : forall acc, Conv.digits (String c (a ++ more)) acc
                            = Conv.digits (String c a) acc).
  { intros acc. cbn. destruct (Conv.digit c); [apply Hd|reflexivity]. }
  destruct c as [[] [] [] [] [] [] [] []]; rewrite ?Hd, ?Hd'; reflexivity.
Qed.

End Rows2.

Section StrtodStops.

Lemma scan_stops_at_tab a more : forall point m f k any,
  Str.offset tab a = None -> behind more ->
  Strtod.scan (a ++ more) point m f k any = Strtod.scan a point m f k any.
Proof.
  induction a as [|c a IH]; intros point m f k any Ha Hmore.
  - cbn [String.append]. destruct (behind_cases more Hmore) as [->|[r ->]]; reflexivity.
  - cbn in Ha. destruct (Ascii.eqb c tab); [discriminate|].
    destruct (Str.offset tab a) eqn:E; [discriminate|].
    cbn [String.append Strtod.scan]. destruct (Conv.digit c); [now apply IH|].
    destruct (Ascii.eqb c "." && negb point); [now apply IH|reflexivity].
Qed.

Lemma Strtod_stops_at_tab : stops_at_tab Strtod.stod.
Proof.
  intros a more (Hne & Ha & Hfront) Hmore. unfold Strtod.stod, TAB.
  cbn [String.append Conv.skip_space]. change (Conv.isspace tab) with true. cbv iota.
  rewrite (stoi_skips_space a) by assumption.
  destruct a as [|c a]; [congruence|]. cbn [String.append Conv.skip_space Str.front] in *.
  rewrite Hfront. cbn in Ha. destruct (Ascii.eqb c tab) eqn:Ec; [discriminate|].
  destruct (Str.offset tab a) eqn:E; [discriminate|].
  assert (Hu : Strtod.unsigned (a ++ more) = Strtod.unsigned a)
    by (unfold Strtod.unsigned; now rewrite scan_stops_at_tab).
  assert (Hu' : Strtod.unsigned (String c (a ++ more)) = Strtod.unsigned (String c a)).
  { unfold Strtod.unsigned.
    rewrite (scan_stops_at_tab (String c a) more); [reflexivity| |assumption].
    cbn. now rewrite Ec, E. }
  destruct c as [[] [] [] [] [] [] [] []]; rewrite ?Hu, ?Hu'; reflexivity.
Qed.

End StrtodStops.

(** X20: a row of a per-robot file is read column by column.  When the
    row, its spaces removed, is [t TAB x TAB y TAB o] and then nothing or a
    tab and more, and the conversions stop at a tab, the loop of
    [readGroundTruth] extracts the four numbers that [t], [x], [y] and [o]
    convert to, the loop of [readOdometry] the three of [t], [x] and [y],
    and the loop of [readMeasurements] those of [t], [x] (as an [int]),
    [y] and [o], or throws what the first column that does not convert
    throws; columns behind those of the loader are not looked at. *)
Theorem robot_rows_are_read_column_by_column stod line t x y o more :
  stops_at_tab stod ->
  Str.erase_remove space line = (t ++ TAB ++ x ++ TAB ++ y ++ TAB ++ o ++ more)%string ->
  Str.offset tab t = None -> column x -> column y -> column o -> behind more ->
  (Str.size line < Str.npos)%N ->
  groundtruth_row stod line
  = obind (stod t) (fun time =>
    obind (stod x) (fun x_coordinate =>
    obind (stod y) (fun y_coordinate =>
    obind (stod o) (fun orientation =>
    Returned (Groundtruth.mk time x_coordinate y_coordinate orientation)))))
  /\ odometry_row stod line
     = obind (stod t) (fun time =>
       obind (stod x) (fun forward_velocity =>
       obind (stod y) (fun angular_velocity =>
       Returned (Odometry.mk time forward_velocity angular_velocity))))
  /\ measurement_row stod line
     = obind (stod t) (fun time =>
       obind (Conv.stoi x) (fun subject =>
       obind (stod y) (fun range =>
       obind (stod o) (fun bearing =>
       Returned (row time subject range bearing))))).
Proof.
  intros Hstops Hline Ht Hx Hy Ho Hmore Hsize.
  unfold groundtruth_row, odometry_row, measurement_row, text. cbv zeta.
  set (l := Str.erase_remove space line) in *.
  assert (Hl : (Str.size l < Str.npos)%N)
    by (pose proof (size_erase_remove space line); subst l; lia).
  unfold TAB in Hline. cbn [String.append] in Hline.
  assert (Hb1 : behind (String tab (x ++ String tab (y ++ String tab (o ++ more))))) by now right.
  assert (Hb2 : behind (String tab (y ++ String tab (o ++ more)))) by now right.
  assert (Hb3 : behind (String tab (o ++ more))) by now right.
  destruct (first_column t _ Ht Hb1) as [E0 T0]; [now rewrite <- Hline|].
  rewrite <- Hline in E0, T0. rewrite T0, E0. cbn [obind].
  assert (L1 : l = (t ++ String tab (x ++ String tab (y ++ String tab (o ++ more))))%string)
    by exact Hline.
  assert (L2 : l = ((t ++ String tab x) ++ String tab (y ++ String tab (o ++ more)))%string)
    by (rewrite Hline, str_app_assoc; reflexivity).
  assert (L3 : l = (((t ++ String tab x) ++ String tab y) ++ String tab (o ++ more))%string)
    by (rewrite Hline, !str_app_assoc; reflexivity).
  pose proof (column_converts stod l _ _ _ _ Hstops L1 eq_refl Hx Hb2 Hl) as X1.
  pose proof (column_converts Conv.stoi l _ _ _ _ stoi_stops_at_tab L1 eq_refl Hx Hb2 Hl) as X1'.
  destruct (next_column l _ _ _ _ L1 eq_refl (proj1 (proj2 Hx)) Hb2 Hl) as [E1 _].
  rewrite X1, X1', E1.
  pose proof (column_converts stod l _ _ _ _ Hstops L2 eq_refl Hy Hb3 Hl) as X2.
  destruct (next_column l _ _ _ _ L2 eq_refl (proj1 (proj2 Hy)) Hb3 Hl) as [E2 _].
  rewrite X2, E2.
  pose proof (column_converts stod l _ _ _ _ Hstops L3 eq_refl Ho Hmore Hl) as X3.
  rewrite X3. repeat split.
Qed.

Lemma robot_rows_are_read_column_by_column_witness :
  let line := (" 10.25 " ++ TAB ++ " 14 " ++ TAB ++ "2.5" ++ TAB ++ " -0.5" ++ TAB ++ "7")%string in
  groundtruth_row Strtod.stod line = Returned (Groundtruth.mk 10.25 14 2.5 (-0.5))
  /\ odometry_row Strtod.stod line = Returned (Odometry.mk 10.25 14 2.5)
  /\ measurement_row Strtod.stod line = Returned (row 10.25 14 2.5 (-0.5)).
Proof.
  intros line.
  destruct (robot_rows_are_read_column_by_column Strtod.stod line
              "10.25" "14" "2.5" "-0.5" (TAB ++ "7") Strtod_stops_at_tab)
    as (Hg & Ho & Hm);
    [ reflexivity | reflexivity
    | repeat split; (discriminate || reflexivity)
    | repeat split; (discriminate || reflexivity)
    | repeat split; (discriminate || reflexivity)
    | now right | vm_compute; reflexivity | ].
  rewrite Hg, Ho, Hm. repeat split.
Defined.

(** X21: a row of the landmark file is read column by column.  When the
    row, its spaces removed, is [id TAB x TAB y TAB sx TAB sy] and then
    nothing or a tab and more, and the conversions stop at a tab, the loop
    of [readLandmarks] takes the id that [id] converts to as an [int] and
    the four reals that [x], [y], [sx] and [sy] convert to. *)
Theorem landmark_rows_are_read_column_by_column stod line id x y sx sy more :
  stops_at_tab stod ->
  Str.erase_remove space line
  = (id ++ TAB ++ x ++ TAB ++ y ++ TAB ++ sx ++ TAB ++ sy ++ more)%string ->
  Str.offset tab id = None -> column x -> column y -> column sx -> column sy -> behind more ->
  (Str.size line < Str.npos)%N ->
  landmark_id line = Conv.stoi id
  /\ landmark_reals stod line
     = obind (stod x) (fun x' =>
       obind (stod y) (fun y' =>
       obind (stod sx) (fun x_std_dev =>
       obind (stod sy) (fun y_std_dev =>
       Returned (x', y', x_std_dev, y_std_dev))))).
Proof.
  intros Hstops Hline Hid Hx Hy Hsx Hsy Hmore Hsize.
  unfold landmark_id, landmark_reals, text. cbv zeta.
  set (l := Str.erase_remove space line) in *.
  assert (Hl : (Str.size l < Str.npos)%N)
    by (pose proof (size_erase_remove space line); subst l; lia).
  unfold TAB in Hline. cbn [String.append] in Hline.
  assert (Hb1 : behind (String tab (x ++ String tab (y ++ String tab (sx ++ String tab (sy ++ more))))))
    by now right.
  assert (Hb2 : behind (String tab (y ++ String tab (sx ++ String tab (sy ++ more))))) by now right.
  assert (Hb3 : behind (String tab (sx ++ String tab (sy ++ more)))) by now right.
  assert (Hb4 : behind (String tab (sy ++ more))) by now right.
  destruct (first_column id _ Hid Hb1) as [E0 T0]; [now rewrite <- Hline|].
  rewrite <- Hline in E0, T0. rewrite T0, E0. cbn [obind]. split; [reflexivity|].
  assert (L1 : l = (id ++ String tab (x ++ String tab (y ++ String tab
                      (sx ++ String tab (sy ++ more)))))%string) by exact Hline.
  assert (L2 : l = ((id ++ String tab x) ++ String tab (y ++ String tab
                      (sx ++ String tab (sy ++ more))))%string)
    by (rewrite Hline, str_app_assoc; reflexivity).
  assert (L3 : l = (((id ++ String tab x) ++ String tab y) ++ String tab
                      (sx ++ String tab (sy ++ more)))%string)
    by (rewrite Hline, !str_app_assoc; reflexivity).
  assert (L4 : l = ((((id ++ String tab x) ++ String tab y) ++ String tab sx)
                      ++ String tab (sy ++ more))%string)
    by (rewrite Hline, !str_app_assoc; reflexivity).
  pose proof (column_converts stod l _ _ _ _ Hstops L1 eq_refl Hx Hb2 Hl) as X1.
  destruct (next_column l _ _ _ _ L1 eq_refl (proj1 (proj2 Hx)) Hb2 Hl) as [E1 _].
  rewrite X1, E1.
  pose proof (column_converts stod l _ _ _ _ Hstops L2 eq_refl Hy Hb3 Hl) as X2.
  destruct (next_column l _ _ _ _ L2 eq_refl (proj1 (proj2 Hy)) Hb3 Hl) as [E2 _].
  rewrite X2, E2.
  pose proof (column_converts stod l _ _ _ _ Hstops L3 eq_refl Hsx Hb4 Hl) as X3.
  destruct (next_column l _ _ _ _ L3 eq_refl (proj1 (proj2 Hsx)) Hb4 Hl) as [E3 _].
  rewrite X3, E3.
  pose proof (column_converts stod l _ _ _ _ Hstops L4 eq_refl Hsy Hmore Hl) as X4.
  now rewrite X4.
Qed.

Lemma landmark_rows_are_read_column_by_column_witness :
  let line := ("6 " ++ TAB ++ " 1.5 " ++ TAB ++ "-2.5" ++ TAB ++ " 0.25" ++ TAB ++ "0.125")%string in
  landmark_id line = Returned 6
  /\ landmark_reals Strtod.stod line = Returned (1.5, -2.5, 0.25, 0.125)%float.
Proof.
  intros line.
  destruct (landmark_rows_are_read_column_by_column Strtod.stod line
              "6" "1.5" "-2.5" "0.25" "0.125" EmptyString Strtod_stops_at_tab)
    as (Hid & Hreals);
    [ reflexivity | reflexivity
    | repeat split; (discriminate || reflexivity)
    | repeat split; (discriminate || reflexivity)
    | repeat split; (discriminate || reflexivity)
    | repeat split; (discriminate || reflexivity)
    | now left | vm_compute; reflexivity | ].
  rewrite Hid, Hreals. repeat split.
Defined.


(** ** Loading twice *)

Section Replay.

Lemma replays_pure {A V} (v : DataExtractor -> V) (m : M A) t r :
  (forall s, m s = (s, t, r)) -> replays v m.
Proof. intros Hm s s' _. now rewrite !Hm. Qed.

Lemma replays_weaken {A V W} (v : DataExtractor -> V) (w : DataExtractor -> W) (m : M A) :
  replays w m -> (forall a b, v a = v b -> w a = w b) -> replays v m.
Proof. intros Hm Hvw s s' Hv. apply Hm. now apply Hvw. Qed.

(** A second run of [m], then [k]: what [m] goes by must be left alone by
    [k], and be shown by what the whole goes by. *)
Lemma replays_bind {A B V W} (v : DataExtractor -> V) (w : DataExtractor -> W)
    (m : M A) (k : A -> M B) :
  replays w m ->
  (forall a b, v a = v b -> w a = w b) ->
  (forall a, stable w (k a)) ->
  (forall a, replays v (k a)) ->
  replays v (bind m k).
Proof.
  intros Hm Hvw Hstable Hk s s' Hv. unfold bind in *.
  specialize (Hm s s'). destruct (m s) as [[s1 t1] [a|e|]] eqn:Es; cbn in Hm.
  - specialize (Hk a s1 s'). specialize (Hstable a s1).
    destruct (k a s1) as [[s2 t2] r] eqn:Ek. cbn in Hv, Hk, Hstable.
    rewrite Hm by (rewrite <- Hstable; now apply Hvw).
    now rewrite Hk by assumption.
  - cbn in Hv. now rewrite Hm by now apply Hvw.
  - cbn in Hv. now rewrite Hm by now apply Hvw.
Qed.

Lemma replays_bind_pure {A B V} (v : DataExtractor -> V) (m : M A) (k : A -> M B) t r :
  (forall s, m s = (s, t, r)) -> (forall a, replays v (k a)) -> replays v (bind m k).
Proof.
  intros Hm Hk. apply (replays_bind v (fun _ => tt)); auto.
  - now apply replays_pure with t r.
  - intros a s. reflexivity.
Qed.

Lemma stable_map {X Y A} (g : X -> Y) (c : DataExtractor -> X) (m : M A) :
  stable c m -> stable (fun s => g (c s)) m.
Proof. intros Hm s. cbv beta. now rewrite Hm. Qed.

Lemma replays_reads {A} (f : DataExtractor -> A) : replays f (reads f).
Proof. intros s s' Hf. unfold reads in *. cbn in *. now rewrite Hf. Qed.

Lemma replays_store_barcode i x :
  replays (fun s => barcodes_ s !! i) (store_barcode i x).
Proof.
  intros s s'. unfold store_barcode.
  destruct (barcodes_ s !! i) as [b|] eqn:Eb; cbn.
  - rewrite list_lookup_insert_eq by now apply lookup_lt_Some in Eb.
    intros Hx. rewrite Hx. destruct s' as [d b' l r]. unfold set_barcodes. cbn in *.
    now rewrite list_insert_id.
  - rewrite Eb. now intros ->.
Qed.

Lemma replays_load_barcode j :
  replays (fun s => at_index (barcodes_ s) j) (load_barcode j).
Proof.
  intros s s'. unfold load_barcode.
  destruct (at_index (barcodes_ s) j) as [b|] eqn:Eb; cbn; rewrite Eb; now intros ->.
Qed.

Lemma replays_load_landmark_id i :
  replays (fun s => Landmark.id <$> landmarks_ s !! i) (load_landmark_id i).
Proof.
  intros s s'. unfold load_landmark_id.
  destruct (landmarks_ s !! i) as [l|] eqn:El; cbn; rewrite El; cbn;
    destruct (landmarks_ s' !! i) as [l'|]; cbn; try discriminate; try reflexivity.
  now intros [= ->].
Qed.

(** A store to a member of a landmark replays under that member. *)
Lemma replays_store_landmark {X} i (get : Landmark.t -> X) set x :
  (forall l, get (set l) = x) ->
  (forall l, get l = x -> set l = l) ->
  replays (fun s => get <$> landmarks_ s !! i) (store_landmark i set).
Proof.
  intros Hget Hset s s'. unfold store_landmark.
  destruct (landmarks_ s !! i) as [l|] eqn:El; cbn.
  - rewrite list_lookup_alter_eq, El. cbn. rewrite Hget.
    destruct (landmarks_ s' !! i) as [l'|] eqn:El'; cbn; [|discriminate].
    intros [= Hl']. destruct s' as [d b ls r]. unfold set_landmarks. cbn in *.
    do 3 f_equal. apply list_eq. intros j.
    destruct (decide (j = i)) as [->|Hj].
    + rewrite list_lookup_alter_eq, El'. cbn. now rewrite Hset.
    + now rewrite list_lookup_alter_ne by congruence.
  - rewrite El. destruct (landmarks_ s' !! i); cbn; [discriminate|reflexivity].
Qed.

End Replay.

(** One step through a sequence of calls, the calls left as they are. *)
Ltac stable_seq :=
  match goal with |- stable _ (bind _ _) => apply stable_bind; [|intros ?] end.

Section ReplayTables.

Variables TOTAL_BARCODES TOTAL_LANDMARKS : nat.
Variable stod : string -> outcome float.
Variable fs : FileSystem.

(** The loop of [readBarcodes] from row [j] on leaves the elements before
    [j] as they are. *)
Lemma readBarcodes_lines_keeps lines : forall j i,
  (i < j)%nat ->
  stable (fun s => barcodes_ s !! i) (readBarcodes_lines TOTAL_BARCODES lines j).
Proof.
  induction lines as [|line rest IH]; intros j i Hij; cbn [readBarcodes_lines]; cbv zeta.
  - apply stable_ret.
  - repeat stable_step; try (apply IH; lia).
    cbn. apply list_lookup_insert_ne. lia.
Qed.

Lemma readBarcodes_lines_replays lines : forall i,
  replays barcodes_ (readBarcodes_lines TOTAL_BARCODES lines i).
Proof.
  induction lines as [|line rest IH]; intros i; cbn [readBarcodes_lines]; cbv zeta.
  - now apply replays_pure with [] (Returned true).
  - destruct (is_comment line); [apply IH|].
    destruct (decide (TOTAL_BARCODES <= i)%nat).
    + now apply replays_pure with [Cerr ExceedsTotalBarcodes] (Returned false).
    + eapply replays_bind_pure; [intros s; reflexivity|intros v].
      eapply replays_bind; [apply replays_store_barcode| | |intros _; apply IH].
      * intros a b Hab. cbv beta. now rewrite Hab.
      * intros _. apply readBarcodes_lines_keeps. lia.
Qed.

Lemma readBarcodes_replays dataset :
  replays (fun s => (dataset_ s, barcodes_ s)) (readBarcodes TOTAL_BARCODES fs dataset).
Proof.
  unfold readBarcodes.
  eapply replays_bind; [apply replays_reads| | |intros d].
  - now intros a b [= -> _].
  - intros d. repeat stable_step. now apply readBarcodes_lines_stable.
  - destruct (String.eqb EmptyString d).
    + now apply replays_pure with [Cerr PleaseSpecifyDataset] (Returned false).
    + eapply replays_bind_pure; [intros s; reflexivity|intros [lines|]].
      * eapply replays_weaken; [apply readBarcodes_lines_replays|].
        now intros a b [= _ ->].
      * eapply replays_pure. intros s. reflexivity.
Qed.

(** The loop of [readLandmarks] from row [j] on leaves the landmarks before
    [j] as they are. *)
Lemma readLandmarks_lines_keeps lines : forall j i,
  (i < j)%nat ->
  stable (fun s => landmarks_ s !! i) (readLandmarks_lines TOTAL_LANDMARKS stod lines j).
Proof.
  induction lines as [|line rest IH]; intros j i Hij; cbn [readLandmarks_lines]; cbv zeta.
  - apply stable_ret.
  - repeat stable_step; try (apply IH; lia);
      cbn; apply list_lookup_alter_ne; lia.
Qed.

(** What the rest of a row and the rows behind it leave alone: a member of
    the landmark under construction that they do not store to, and the
    barcode table. *)
Ltac row_keeps :=
  intros; repeat stable_step;
  first
    [ apply (stable_map (fmap _) (fun s => landmarks_ s !! _)),
        readLandmarks_lines_keeps; lia
    | apply readLandmarks_lines_stable; reflexivity
    | cbn; rewrite list_lookup_alter_eq;
      match goal with |- context [landmarks_ ?s !! ?i] => now destruct (landmarks_ s !! i) end
    | reflexivity ].

Ltac shown :=
  let a := fresh in let b := fresh in let H := fresh in
  intros a b H; injection H as ? ?; cbv beta; congruence.

Ltac replay_step IH :=
  lazymatch goal with
  | |- replays _ (bind (field _ _ _ _) _) =>
      eapply replays_bind_pure; [intros ?; reflexivity|intros ?]
  | |- replays _ (bind (emit _) _) =>
      eapply replays_pure; intros ?; reflexivity
  | |- replays _ (bind (load_landmark_id _) _) =>
      eapply replays_bind; [apply replays_load_landmark_id|shown|row_keeps|intros ?]
  | |- replays _ (bind (load_barcode _) _) =>
      eapply replays_bind; [apply replays_load_barcode|shown|row_keeps|intros ?]
  | |- replays _ (bind (store_landmark ?i (Landmark.set_id ?v)) _) =>
      eapply replays_bind;
      [apply (replays_store_landmark i Landmark.id _ v); [reflexivity|now intros [] <-]
      |shown|row_keeps|intros _]
  | |- replays _ (bind (store_landmark ?i (Landmark.set_barcode ?v)) _) =>
      eapply replays_bind;
      [apply (replays_store_landmark i Landmark.barcode _ v); [reflexivity|now intros [] <-]
      |shown|row_keeps|intros _]
  | |- replays _ (bind (store_landmark ?i (Landmark.set_x ?v)) _) =>
      eapply replays_bind;
      [apply (replays_store_landmark i Landmark.x _ v); [reflexivity|now intros [] <-]
      |shown|row_keeps|intros _]
  | |- replays _ (bind (store_landmark ?i (Landmark.set_y ?v)) _) =>
      eapply replays_bind;
      [apply (replays_store_landmark i Landmark.y _ v); [reflexivity|now intros [] <-]
      |shown|row_keeps|intros _]
  | |- replays _ (bind (store_landmark ?i (Landmark.set_x_std_dev ?v)) _) =>
      eapply replays_bind;
      [apply (replays_store_landmark i Landmark.x_std_dev _ v); [reflexivity|now intros [] <-]
      |shown|row_keeps|intros _]
  | |- replays _ (bind (store_landmark ?i (Landmark.set_y_std_dev ?v)) _) =>
      eapply replays_bind;
      [apply (replays_store_landmark i Landmark.y_std_dev _ v); [reflexivity|now intros [] <-]
      |shown|row_keeps|intros _]
  | |- replays _ (if ?b then _ else _) => destruct b
  | |- replays _ (readLandmarks_lines _ _ _ _) => apply IH
  end.

Lemma readLandmarks_lines_replays lines : forall i,
  replays (fun s => (barcodes_ s, landmarks_ s))
    (readLandmarks_lines TOTAL_LANDMARKS stod lines i).
Proof.
  induction lines as [|line rest IH]; intros i; cbn [readLandmarks_lines]; cbv zeta.
  - now apply replays_pure with [] (Returned true).
  - repeat replay_step IH.
Qed.

Lemma readLandmarks_replays dataset :
  replays (fun s => (barcodes_ s, landmarks_ s)) (readLandmarks TOTAL_LANDMARKS stod fs dataset).
Proof.
  unfold readLandmarks. cbv zeta.
  eapply replays_bind_pure; [intros s; reflexivity|intros [lines|]].
  - apply readLandmarks_lines_replays.
  - eapply replays_pure. intros s. reflexivity.
Qed.

End ReplayTables.

(** A per-robot loop does to its vector one thing, whatever the vector and
    the rest of the object hold. *)
Section Uniform.

Context {E : Type} (robot_id : Z)
  (set : (list E -> list E) -> Robot.t -> Robot.t) (get : Robot.Raw -> list E).
Hypothesis set_id : forall r, set (fun v => v) r = r.
Hypothesis set_set : forall f g r, set f (set g r) = set (fun v => f (g v)) r.
Hypothesis get_set : forall f r, get (Robot.raw (set f r)) = f (get (Robot.raw r)).
Hypothesis set_get : forall v r, get (Robot.raw r) = v -> set (fun _ => v) r = r.

Lemma uniform_pure {A} (m : M A) t r :
  (forall s, m s = (s, t, r)) -> uniform robot_id set m.
Proof using set_id.
  intros Hm. exists (fun v => v), t, r. intros s x _.
  now rewrite Hm, with_robot_id by apply set_id.
Qed.

Lemma uniform_update_robot f : uniform robot_id set (update_robot robot_id (set f)).
Proof.
  exists f, [], (Returned tt). intros s x Hx. now apply update_robot_ok with x.
Qed.

Lemma uniform_bind {A B} (m : M A) (k : A -> M B) :
  uniform robot_id set m -> (forall a, uniform robot_id set (k a)) ->
  uniform robot_id set (bind m k).
Proof using set_set.
  intros (F & t & r & Hm) Hk. destruct r as [a|e|].
  - destruct (Hk a) as (G & u & r & Hka).
    exists (fun v => G (F v)), (t ++ u), r. intros s x Hx. unfold bind.
    rewrite (Hm s x Hx).
    rewrite (Hka _ (set F x)) by (rewrite at_index_with_robot, Hx; reflexivity).
    rewrite with_robot_with_robot. do 2 f_equal. apply with_robot_ext. intros r0. apply set_set.
  - exists F, t, (Thrown e). intros s x Hx. unfold bind. now rewrite (Hm s x Hx).
  - exists F, t, Undefined. intros s x Hx. unfold bind. now rewrite (Hm s x Hx).
Qed.

(** A loader that clears the vector and then does one thing to it replays
    under that vector. *)
Lemma replays_rebuild {A} (k : M A) :
  uniform robot_id set k ->
  replays (vector_of get robot_id) (run update_robot robot_id (set (fun _ => [])) then k).
Proof using set_set get_set set_get.
  intros (G & t & r & Hk).
  assert (Hm : forall s x, at_index (robots_ s) robot_id = Some x ->
            (run update_robot robot_id (set (fun _ => [])) then k)%cpp s
            = (with_robot robot_id (set (fun _ => G [])) s, t, r)).
  { intros s x Hx. erewrite bind_silent by (eapply update_robot_ok; eassumption).
    rewrite (Hk _ (set (fun _ => []) x)) by (rewrite at_index_with_robot, Hx; reflexivity).
    rewrite with_robot_with_robot. do 2 f_equal. apply with_robot_ext. intros r0. apply set_set. }
  intros s s' Hv.
  destruct (at_index (robots_ s) robot_id) as [x|] eqn:Ex.
  - rewrite (Hm s x Ex) in *. cbn in Hv. unfold vector_of in Hv.
    rewrite at_index_with_robot, Ex in Hv. cbn in Hv. rewrite get_set in Hv.
    destruct (at_index (robots_ s') robot_id) as [x'|] eqn:Ex'; [|discriminate].
    injection Hv as Hx'. rewrite (Hm s' x' Ex'). cbn. do 2 f_equal.
    unfold with_robot, set_robots. destruct s' as [d b l rs]. cbn in *. f_equal.
    apply list_eq. intros j. destruct (decide (j = Z.to_nat robot_id)) as [->|Hj].
    + rewrite list_lookup_alter_eq. unfold at_index in Ex'.
      destruct (0 <=? robot_id); [|discriminate]. rewrite Ex'. cbn.
      now rewrite set_get.
    + now rewrite list_lookup_alter_ne by congruence.
  - rewrite (robot_loader_out_of_range _ _ _ _ Ex) in *. cbn in Hv.
    unfold vector_of in Hv. rewrite Ex in Hv.
    destruct (at_index (robots_ s') robot_id) as [x'|] eqn:Ex'; [discriminate|].
    now rewrite (robot_loader_out_of_range _ _ _ _ Ex').
Qed.

End Uniform.

Section ReplayRobots.

Variable stod : string -> outcome float.
Variable fs : FileSystem.

Ltac vector_laws :=
  first [ now intros [[? ? ?]] | now intros ? [[? ? ?]] | now intros ? ? [[? ? ?]]
        | intros ? [[? ? ?]] ?; cbn in *; now subst ].

Ltac uniform_step IH :=
  lazymatch goal with
  | |- uniform _ _ (bind (update_robot _ _) _) =>
      apply uniform_bind; [vector_laws|apply uniform_update_robot|intros _]
  | |- uniform _ _ (bind _ _) =>
      apply uniform_bind;
      [vector_laws|eapply uniform_pure; [vector_laws|intros ?; reflexivity]|intros ?]
  | |- uniform _ _ (match ?o with Some _ => _ | None => _ end) => destruct o
  | |- uniform _ _ (ret _) => eapply uniform_pure; [vector_laws|intros ?; reflexivity]
  | |- uniform _ _ _ => apply IH
  end.

Lemma readGroundTruth_lines_uniform robot_id lines :
  uniform robot_id Robot.set_ground_truth (readGroundTruth_lines stod robot_id lines).
Proof.
  induction lines as [|line rest IH]; cbn [readGroundTruth_lines]; cbv zeta.
  - uniform_step IH.
  - destruct (is_comment line); [exact IH|]. repeat uniform_step IH.
Qed.

Lemma readOdometry_lines_uniform robot_id lines :
  uniform robot_id Robot.set_odometry (readOdometry_lines stod robot_id lines).
Proof.
  induction lines as [|line rest IH]; cbn [readOdometry_lines]; cbv zeta.
  - uniform_step IH.
  - destruct (is_comment line); [exact IH|]. repeat uniform_step IH.
Qed.

Lemma readMeasurements_lines_uniform robot_id lines :
  uniform robot_id Robot.set_measurements (readMeasurements_lines stod robot_id lines).
Proof.
  induction lines as [|line rest IH]; cbn [readMeasurements_lines]; cbv zeta.
  - uniform_step IH.
  - destruct (is_comment line); [exact IH|]. repeat uniform_step IH.
Qed.

Lemma readGroundTruth_replays dataset robot_id :
  replays (vector_of Robot.ground_truth robot_id) (readGroundTruth stod fs dataset robot_id).
Proof.
  unfold readGroundTruth. cbv zeta.
  apply (replays_rebuild robot_id Robot.set_ground_truth Robot.ground_truth); try vector_laws.
  repeat uniform_step (readGroundTruth_lines_uniform robot_id).
Qed.

Lemma readOdometry_replays dataset robot_id :
  replays (vector_of Robot.odometry robot_id) (readOdometry stod fs dataset robot_id).
Proof.
  unfold readOdometry. cbv zeta.
  apply (replays_rebuild robot_id Robot.set_odometry Robot.odometry); try vector_laws.
  repeat uniform_step (readOdometry_lines_uniform robot_id).
Qed.

Lemma readMeasurements_replays dataset robot_id :
  replays (vector_of Robot.measurements robot_id) (readMeasurements stod fs dataset robot_id).
Proof.
  unfold readMeasurements. cbv zeta.
  apply (replays_rebuild robot_id Robot.set_measurements Robot.measurements); try vector_laws.
  repeat uniform_step (readMeasurements_lines_uniform robot_id).
Qed.

Lemma vector_of_with_other_robot {A} (get : Robot.Raw -> A) i j f s :
  0 <= i -> 0 <= j -> i <> j ->
  vector_of get i (with_robot j f s) = vector_of get i s.
Proof.
  intros Hi Hj Hij. unfold vector_of, at_index, with_robot. cbn.
  destruct (0 <=? i); [|reflexivity].
  rewrite list_lookup_alter_ne by lia. reflexivity.
Qed.

(** The loop over the robots from robot [j] on leaves the robots before [j]
    as they are. *)
Lemma readRobots_keeps {A} (get : Robot.Raw -> A) dataset n : forall j i g o m,
  0 <= i < j ->
  stable (vector_of get i) (readRobots stod fs dataset n j g o m).
Proof.
  induction n as [|n IH]; intros j i g o m Hij; cbn [readRobots].
  - apply stable_ret.
  - repeat stable_seq;
      [ apply readGroundTruth_stable | apply readOdometry_stable
      | apply readMeasurements_stable | apply IH; lia ];
      intros; apply vector_of_with_other_robot; lia.
Qed.

Lemma readRobots_replays dataset n : forall i g o m,
  0 <= i ->
  replays (fun s => s) (readRobots stod fs dataset n i g o m).
Proof.
  induction n as [|n IH]; intros i g o m Hi; cbn [readRobots].
  - eapply replays_pure. intros s. reflexivity.
  - eapply replays_bind; [apply readGroundTruth_replays|now intros a b ->| |intros g1].
    { intros g1. repeat stable_seq;
        [ apply readOdometry_stable | apply readMeasurements_stable
        | apply readRobots_keeps; lia ];
        intros; now apply vector_of_with_robot. }
    eapply replays_bind; [apply readOdometry_replays|now intros a b ->| |intros o1].
    { intros o1. repeat stable_seq;
        [ apply readMeasurements_stable | apply readRobots_keeps; lia ];
        intros; now apply vector_of_with_robot. }
    eapply replays_bind; [apply readMeasurements_replays|now intros a b ->| |intros m1].
    { intros m1. apply readRobots_keeps; lia. }
    apply IH. lia.
Qed.

End ReplayRobots.

Section ReplayLoad.

Variables TOTAL_BARCODES TOTAL_LANDMARKS TOTAL_ROBOTS : nat.
Variable stod : string -> outcome float.
Variable fs : FileSystem.

Lemma replays_set_dataset dataset : replays dataset_ (modify (set_dataset dataset)).
Proof.
  intros s [d b l r]. unfold modify, set_dataset. cbn. now intros ->.
Qed.

Lemma setDataSet_replays dataset :
  replays (fun s => s)
    (setDataSet TOTAL_BARCODES TOTAL_LANDMARKS TOTAL_ROBOTS stod fs dataset).
Proof.
  unfold setDataSet. destruct (stat_ok fs dataset).
  2:{ eapply replays_pure. intros s. reflexivity. }
  assert (Hlast : forall (b l : bool) (correct : bool * bool * bool) X (c : DataExtractor -> X),
            stable c (let '(g, o, m) := correct in
                      if negb (b && l && g && o && m) then throw LoadFailed else ret tt)).
  { intros b l [[g o] m] X c. repeat stable_step. }
  eapply replays_bind; [apply replays_set_dataset|now intros a b ->| |intros _].
  { intros _. repeat stable_seq;
      [ now apply readBarcodes_stable | now apply readLandmarks_stable
      | now apply readRobots_stable | apply Hlast ]. }
  eapply replays_bind; [apply readBarcodes_replays|now intros a b ->| |intros b].
  { intros b. repeat stable_seq;
      [ now apply readLandmarks_stable | now apply readRobots_stable | apply Hlast ]. }
  eapply replays_bind; [apply readLandmarks_replays|now intros a c ->| |intros l].
  { intros l. repeat stable_seq;
      [ now apply readRobots_stable | apply Hlast ]. }
  eapply replays_bind; [apply readRobots_replays; lia|now intros a c ->| |].
  { intros correct. apply Hlast. }
  intros [[g o] m].
  destruct (negb (b && l && g && o && m)); eapply replays_pure; intros s; reflexivity.
Qed.

End ReplayLoad.

(** X22: a load of a dataset on the object that a load of the same dataset
    has left, the files being as they were, leaves the object as it is,
    opens and reports what the first load did, and ends as it did, however
    that was: what a load stores does not depend on what the arrays and the
    vectors held before, once they hold what it stores. *)
Theorem setDataSet_again_changes_nothing
    TOTAL_BARCODES TOTAL_LANDMARKS TOTAL_ROBOTS stod fs dataset s :
  let load := setDataSet TOTAL_BARCODES TOTAL_LANDMARKS TOTAL_ROBOTS stod fs dataset in
  let first := load s in
  load (final first) = (final first, events first, result first).
Proof.
  intros load first. now apply setDataSet_replays.
Qed.

(** X23: [readBarcodes] stores to the positions of its rows and
    [readLandmarks] to the members of the landmarks of its rows, so that
    each, called on an object that holds what a call of it has left in its
    table, whatever the other members hold, changes nothing, and writes and
    returns or throws what that call did. *)
Theorem table_loaders_again_change_nothing
    TOTAL_BARCODES TOTAL_LANDMARKS stod fs dataset s s' :
  let b := readBarcodes TOTAL_BARCODES fs dataset s in
  let l := readLandmarks TOTAL_LANDMARKS stod fs dataset s in
  (dataset_ s' = dataset_ s -> barcodes_ s' = barcodes_ (final b) ->
   readBarcodes TOTAL_BARCODES fs dataset s' = (s', events b, result b))
  /\ (barcodes_ s' = barcodes_ s -> landmarks_ s' = landmarks_ (final l) ->
      readLandmarks TOTAL_LANDMARKS stod fs dataset s' = (s', events l, result l)).
Proof.
  intros b l. split.
  - intros Hd Hb. apply readBarcodes_replays. rewrite Hd, Hb. f_equal.
    symmetry. apply (readBarcodes_stable _ _ dataset_). reflexivity.
  - intros Hb Hl. apply readLandmarks_replays. rewrite Hb, Hl. f_equal.
    symmetry. apply (readLandmarks_stable _ _ _ barcodes_). reflexivity.
Qed.

Lemma table_loaders_again_change_nothing_witness :
  let loaded :=
    final (setDataSet 20 15 5 Strtod.stod one_robot "ds" (blank EmptyString 20 15 5)) in
  readBarcodes 20 one_robot "ds" loaded
  = (loaded, [Open "ds/Barcodes.dat"], Returned true)
  /\ readLandmarks 15 Strtod.stod one_robot "ds" loaded
     = (loaded, [Open "ds/Landmark_Groundtruth.dat"], Returned true).
Proof.
  intros loaded. split.
  - refine (eq_trans
      (proj1 (table_loaders_again_change_nothing 20 15 Strtod.stod one_robot "ds"%string
                (blank "ds" 20 15 5) loaded) _ _) _); vm_compute; reflexivity.
  - refine (eq_trans
      (proj2 (table_loaders_again_change_nothing 20 15 Strtod.stod one_robot "ds"%string
                (final (readBarcodes 20 one_robot "ds" (blank "ds" 20 15 5))) loaded) _ _) _);
      vm_compute; reflexivity.
Defined.
